(** * Fitness and diet RAG planner: the calculation, retrieval and grounding core

    A shallow embedding of the Python back end
    ([backend/services/calorie_service.py], [backend/rag/retriever.py],
    [backend/rag/ingestion.py], [backend/rag/chain.py]) together with the
    properties its specification states about it.

    Conventions of the embedding.
    - A Python [Dict] that is used as a map is a [gmap string _]; [d.get(k)]
      is [d !! k].
    - A Python [float] is an IEEE 754 binary64 number, here the kernel's
      primitive [float]; [+], [-], [*], [/], [int], [round] and the
      conversions round exactly as CPython does.  The one operation CPython
      hands to the C library, [x ** 2], is taken correctly rounded (see
      [Py.pow2]).
    - A Python [str] is a [string] holding its UTF-8 bytes.
    - A call that may raise returns a [result]; [Raise e] is the exception
      leaving the call. *)

From Stdlib Require Import ZArith Lia.
From Stdlib Require Import PrimFloat FloatOps FloatAxioms SpecFloat.
From stdpp Require Import base strings gmap list pretty.

Set Warnings "-inexact-float,-register-all".
Open Scope Z_scope.

(** ** Python values, exceptions and numbers *)
Module Py.

(** The exception classes the modelled code can raise or catch. *)
Inductive exn : Type :=
| ValueError
| TypeError
| AttributeError
| ZeroDivisionError
| OverflowError
| ProviderError (msg : string).

Inductive result (A : Type) : Type :=
| Ok (a : A)
| Raise (e : exn).
Arguments Ok {A} a.
Arguments Raise {A} e.

Definition bind {A B : Type} (r : result A) (k : A -> result B) : result B :=
  match r with
  | Ok a => k a
  | Raise e => Raise e
  end.

Definition is_ok {A : Type} (r : result A) : bool :=
  match r with Ok _ => true | Raise _ => false end.

(** [try: r  except ValueError: handler] *)
Definition except_ValueError {A : Type} (r : result A) (handler : result A)
  : result A :=
  match r with
  | Raise ValueError => handler
  | _ => r
  end.

(** [try: r  except Exception: handler] *)
Definition except_Exception {A : Type} (r : result A)
           (handler : exn -> result A) : result A :=
  match r with
  | Ok a => Ok a
  | Raise e => handler e
  end.

(** The values a profile dictionary or a metadata dictionary holds. *)
Inductive pyval : Type :=
| PNone
| PBool (b : bool)
| PInt (z : Z)
| PFloat (f : float)
| PStr (s : string).

(** Truth value testing: [None], [False], zero and the empty string are
    false; a NaN is true. *)
Definition truthy (v : pyval) : bool :=
  match v with
  | PNone => false
  | PBool b => b
  | PInt z => negb (z =? 0)
  | PFloat f => negb (PrimFloat.eqb f 0%float)
  | PStr s => negb (String.eqb s "")
  end.

(** [if d.get(k):] *)
Definition get_truthy (o : option pyval) : bool :=
  match o with
  | Some v => truthy v
  | None => false
  end.

(** *** binary64 arithmetic *)

(** The double nearest to the integer [z] (ties to even). *)
Definition Z2F (z : Z) : float := SF2Prim (binary_normalize 53 1024 z 0 false).

(** The double nearest to [n / d] (ties to even).  The quotient is taken
    with 64 bits and the remainder is folded into a sticky bit below them,
    so the single rounding done by [binary_normalize] is the correct one. *)
Definition Q2F (n : Z) (d : positive) : float :=
  let k := 64 + Z.log2 (Zpos d) in
  let a := Z.shiftl (Z.abs n) k in
  let q := a / Zpos d in
  let sticky := if a mod Zpos d =? 0 then 0 else 1 in
  let m := 2 * q + sticky in
  SF2Prim (binary_normalize 53 1024 (if n <? 0 then - m else m) (- k - 1) false).

(** [a / b] rounded to the nearest integer, ties to even ([0 <= a], [0 < b]). *)
Definition rhe_div (a b : Z) : Z :=
  let q := a / b in
  let r := a mod b in
  if 2 * r <? b then q
  else if b <? 2 * r then q + 1
  else if Z.even q then q else q + 1.

(** [m * 2^e * scale] rounded to the nearest integer, ties to even. *)
Definition scaled_rhe (m : positive) (e : Z) (scale : Z) : Z :=
  if 0 <=? e then Z.shiftl (Zpos m * scale) e
  else rhe_div (Zpos m * scale) (Z.shiftl 1 (- e)).

(** [m * 2^e] truncated toward zero. *)
Definition trunc_mag (m : positive) (e : Z) : Z :=
  if 0 <=? e then Z.shiftl (Zpos m) e else Z.shiftr (Zpos m) (- e).

(** *** The numeric tower: [int] and [float] *)
Inductive num : Type :=
| NInt (z : Z)
| NFloat (f : float).

(** Implicit conversion of an [int] operand that meets a [float]. *)
Definition float_of_int (z : Z) : result float :=
  let f := Z2F z in
  if PrimFloat.is_infinity f then Raise OverflowError else Ok f.

Definition to_float (n : num) : result float :=
  match n with
  | NInt z => float_of_int z
  | NFloat f => Ok f
  end.

Definition num_is_float (n : num) : bool :=
  match n with NFloat _ => true | NInt _ => false end.

Definition arith (iop : Z -> Z -> Z) (fop : float -> float -> float)
           (ra rb : result num) : result num :=
  bind ra (fun a => bind rb (fun b =>
    match a, b with
    | NInt x, NInt y => Ok (NInt (iop x y))
    | _, _ =>
        bind (to_float a) (fun x => bind (to_float b) (fun y =>
          Ok (NFloat (fop x y))))
    end)).

Definition add := arith Z.add PrimFloat.add.
Definition sub := arith Z.sub PrimFloat.sub.
Definition mul := arith Z.mul PrimFloat.mul.

(** True division [a / b]. *)
Definition truediv (ra rb : result num) : result num :=
  bind ra (fun a => bind rb (fun b =>
    match a, b with
    | NInt x, NInt y =>
        match y with
        | Z0 => Raise ZeroDivisionError
        | Zpos p => let f := Q2F x p in
                    if PrimFloat.is_infinity f then Raise OverflowError
                    else Ok (NFloat f)
        | Zneg p => let f := Q2F (- x) p in
                    if PrimFloat.is_infinity f then Raise OverflowError
                    else Ok (NFloat f)
        end
    | _, _ =>
        bind (to_float a) (fun x => bind (to_float b) (fun y =>
          if PrimFloat.eqb y 0%float then Raise ZeroDivisionError
          else Ok (NFloat (PrimFloat.div x y))))
    end)).

(** [a ** 2].  On a float CPython calls the C library's [pow(x, 2.0)] and
    raises when a finite operand overflows.  The library result is taken to be
    the correctly rounded square; a library whose [pow] is not correctly
    rounded can differ from it in the last bit, which the BMI and the ideal
    weights of [calculate_all] then inherit. *)
Definition pow2 (ra : result num) : result num :=
  bind ra (fun a =>
    match a with
    | NInt x => Ok (NInt (x * x))
    | NFloat x =>
        let y := PrimFloat.mul x x in
        if PrimFloat.is_infinity y && negb (PrimFloat.is_infinity x)
        then Raise OverflowError
        else Ok (NFloat y)
    end).

(** [a < b] between a number and a float constant. *)
Definition lt_const (a : num) (c : float) : bool :=
  match a with
  | NInt z => PrimFloat.ltb (Z2F z) c
  | NFloat f => PrimFloat.ltb f c
  end.

(** [int(x)]: truncation toward zero. *)
Definition int_of_float (x : float) : result Z :=
  match Prim2SF x with
  | S754_zero _ => Ok 0
  | S754_finite s m e => Ok (if s then - trunc_mag m e else trunc_mag m e)
  | S754_infinity _ => Raise OverflowError
  | S754_nan => Raise ValueError
  end.

Definition int (ra : result num) : result Z :=
  bind ra (fun a =>
    match a with
    | NInt z => Ok z
    | NFloat f => int_of_float f
    end).

(** [round(x, ndigits)] for a float and [ndigits] in {0, 1}: the exact value
    is rounded half-even to [ndigits] decimals, and the decimal is read back
    as the nearest double.  Zeros, infinities and NaN are returned as they
    are. *)
Definition round_float (x : float) (ndigits : nat) : float :=
  match Prim2SF x with
  | S754_finite s m e =>
      let scale := Z.to_pos (10 ^ Z.of_nat ndigits) in
      let r := Q2F (scaled_rhe m e (Zpos scale)) scale in
      if s then PrimFloat.opp r else r
  | _ => x
  end.

(** [round(a, ndigits)] with [ndigits >= 0]: an [int] is returned as it is. *)
Definition round (ra : result num) (ndigits : nat) : result num :=
  bind ra (fun a =>
    match a with
    | NInt z => Ok (NInt z)
    | NFloat f => Ok (NFloat (round_float f ndigits))
    end).

(** *** Strings *)

Definition lower_ascii (c : Ascii.ascii) : Ascii.ascii :=
  let n := Ascii.N_of_ascii c in
  if ((65 <=? n) && (n <=? 90))%N then Ascii.ascii_of_N (n + 32) else c.

(** [s.lower()], on the ASCII letters. *)
Fixpoint lower (s : string) : string :=
  match s with
  | EmptyString => EmptyString
  | String c r => String (lower_ascii c) (lower r)
  end.

(** [sep.join(parts)] *)
Fixpoint join (sep : string) (parts : list string) : string :=
  match parts with
  | [] => ""
  | [p] => p
  | p :: rest => p +:+ sep +:+ join sep rest
  end.

(** [str(z)] of an [int]. *)
Definition str_of_int (z : Z) : string := pretty z.

Fixpoint zeros (n : nat) : string :=
  match n with
  | O => ""
  | S k => "0" +:+ zeros k
  end.

(** [format(x, '.<nd>f')] of a float: the exact value rounded half-even to
    [nd] decimals. *)
Definition format_fixed_float (nd : nat) (x : float) : string :=
  let point frac := match nd with O => "" | _ => "." +:+ frac end in
  match Prim2SF x with
  | S754_nan => "nan"
  | S754_infinity s => if s then "-inf" else "inf"
  | S754_zero s => (if s then "-" else "") +:+ "0" +:+ point (zeros nd)
  | S754_finite s m e =>
      let scale := Z.pow 10 (Z.of_nat nd) in
      let n := scaled_rhe m e scale in
      let frac := pretty (n mod scale) in
      (if s then "-" else "") +:+ pretty (n / scale)
        +:+ point (zeros (nd - String.length frac) +:+ frac)
  end.

(** [format(a, '.<nd>f')] of a number; an [int] is converted first. *)
Definition format_fixed (nd : nat) (a : num) : result string :=
  bind (to_float a) (fun f => Ok (format_fixed_float nd f)).

End Py.

Notation "x <- c ;; k" := (Py.bind c (fun x => k))
  (at level 100, c at next level, right associativity,
   format "'[v' x  <-  c  ;;  '/' k ']'").

(** ** backend/services/calorie_service.py *)
Module CalorieService.
Import Py.

(** [backend/models/user.py]: the two enums the calculator looks up. *)
Inductive FitnessGoal : Type := LEAN | MUSCLE_GAIN | FAT_LOSS.

Inductive ActivityLevel : Type :=
| SEDENTARY
| LIGHTLY_ACTIVE
| MODERATELY_ACTIVE
| VERY_ACTIVE
| EXTREMELY_ACTIVE.

(** [FitnessGoal(value)]: the member with that value, else [ValueError]. *)
Definition FitnessGoal_of (v : pyval) : result FitnessGoal :=
  match v with
  | PStr s =>
      if String.eqb s "lean" then Ok LEAN
      else if String.eqb s "muscle_gain" then Ok MUSCLE_GAIN
      else if String.eqb s "fat_loss" then Ok FAT_LOSS
      else Raise ValueError
  | _ => Raise ValueError
  end.

(** [ActivityLevel(value)] *)
Definition ActivityLevel_of (v : pyval) : result ActivityLevel :=
  match v with
  | PStr s =>
      if String.eqb s "sedentary" then Ok SEDENTARY
      else if String.eqb s "lightly_active" then Ok LIGHTLY_ACTIVE
      else if String.eqb s "moderately_active" then Ok MODERATELY_ACTIVE
      else if String.eqb s "very_active" then Ok VERY_ACTIVE
      else if String.eqb s "extremely_active" then Ok EXTREMELY_ACTIVE
      else Raise ValueError
  | _ => Raise ValueError
  end.

(** The class tables; a table is a partial map from the enum, read with
    [.get(key, default)]. *)
Definition ACTIVITY_MULTIPLIERS (a : ActivityLevel) : option float :=
  match a with
  | SEDENTARY => Some 1.2%float
  | LIGHTLY_ACTIVE => Some 1.375%float
  | MODERATELY_ACTIVE => Some 1.55%float
  | VERY_ACTIVE => Some 1.725%float
  | EXTREMELY_ACTIVE => Some 1.9%float
  end.

Definition GOAL_ADJUSTMENTS (g : FitnessGoal) : option Z :=
  match g with
  | LEAN => Some (-300)
  | MUSCLE_GAIN => Some 300
  | FAT_LOSS => Some (-500)
  end.

Record Ratios : Type := mkRatios { protein : float; carbs : float; fats : float }.

Definition MACRO_RATIOS (g : FitnessGoal) : option Ratios :=
  match g with
  | LEAN => Some (mkRatios 0.30 0.40 0.30)
  | MUSCLE_GAIN => Some (mkRatios 0.30 0.45 0.25)
  | FAT_LOSS => Some (mkRatios 0.35 0.30 0.35)
  end.

(** [MACRO_RATIOS[FitnessGoal.LEAN]] *)
Definition MACRO_RATIOS_LEAN : Ratios := mkRatios 0.30 0.40 0.30.

Definition Int (z : Z) : result num := Ok (NInt z).
Definition Flt (f : float) : result num := Ok (NFloat f).

(** A dictionary entry used as an arithmetic operand. *)
Definition as_num (v : pyval) : result num :=
  match v with
  | PInt z => Ok (NInt z)
  | PFloat f => Ok (NFloat f)
  | PBool b => Ok (NInt (if b then 1 else 0))
  | PNone | PStr _ => Raise TypeError
  end.

Definition calculate_bmi (weight_kg height_cm : pyval) : result num :=
  height_m <- truediv (as_num height_cm) (Int 100) ;;
  square <- pow2 (Ok height_m) ;;
  truediv (as_num weight_kg) (Ok square).

Definition get_bmi_category (bmi : num) : string :=
  if lt_const bmi 18.5 then "Underweight"
  else if lt_const bmi 25 then "Normal"
  else if lt_const bmi 30 then "Overweight"
  else "Obese".

(** [gender.lower()] *)
Definition str_lower (v : pyval) : result string :=
  match v with
  | PStr s => Ok (lower s)
  | _ => Raise AttributeError
  end.

Definition calculate_bmr (weight_kg height_cm age gender : pyval) : result num :=
  g <- str_lower gender ;;
  let base :=
    sub (add (mul (Int 10) (as_num weight_kg)) (mul (Flt 6.25) (as_num height_cm)))
        (mul (Int 5) (as_num age)) in
  let bmr := if String.eqb g "male" then add base (Int 5) else sub base (Int 161) in
  round bmr 0.

Definition calculate_tdee (bmr : num) (activity_level : pyval) : result num :=
  multiplier <- except_ValueError
                  (activity <- ActivityLevel_of activity_level ;;
                   Ok (default 1.55%float (ACTIVITY_MULTIPLIERS activity)))
                  (Ok 1.55%float) ;;
  round (mul (Ok bmr) (Flt multiplier)) 0.

Definition calculate_daily_calories (tdee : num) (fitness_goal : pyval) : result Z :=
  adjustment <- except_ValueError
                  (goal <- FitnessGoal_of fitness_goal ;;
                   Ok (default 0 (GOAL_ADJUSTMENTS goal)))
                  (Ok 0) ;;
  let calories := add (Ok tdee) (Int adjustment) in
  let min_calories := 1200 in
  c <- int calories ;;
  Ok (Z.max c min_calories).

Record Macros : Type := mkMacros { protein_g : Z; carbs_g : Z; fats_g : Z }.

Definition calculate_macros (daily_calories : Z) (fitness_goal : pyval) : result Macros :=
  ratios <- except_ValueError
              (goal <- FitnessGoal_of fitness_goal ;;
               Ok (default MACRO_RATIOS_LEAN (MACRO_RATIOS goal)))
              (Ok MACRO_RATIOS_LEAN) ;;
  protein_cals <- mul (Int daily_calories) (Flt (protein ratios)) ;;
  carbs_cals <- mul (Int daily_calories) (Flt (carbs ratios)) ;;
  fats_cals <- mul (Int daily_calories) (Flt (fats ratios)) ;;
  p <- int (truediv (Ok protein_cals) (Int 4)) ;;
  c <- int (truediv (Ok carbs_cals) (Int 4)) ;;
  f <- int (truediv (Ok fats_cals) (Int 9)) ;;
  Ok (mkMacros p c f).

Record Percentages : Type :=
  mkPercentages { pct_protein : Z; pct_carbs : Z; pct_fats : Z }.

(** The dictionary [calculate_all] returns. *)
Record Stats : Type := mkStats {
  bmi : num;
  bmi_category : string;
  bmr : Z;
  tdee : Z;
  daily_calories : Z;
  stats_protein_g : Z;
  stats_carbs_g : Z;
  stats_fats_g : Z;
  ideal_weight_min : num;
  ideal_weight_max : num;
  water_ml : Z;
  macro_percentages : Percentages
}.

(** [user_profile.get(key)] *)
Definition get (user_profile : gmap string pyval) (key : string) : pyval :=
  default PNone (user_profile !! key).

(** One entry of [macro_percentages]:
    [int(self.MACRO_RATIOS.get(FitnessGoal(goal), {}).get(name, dflt) * 100)];
    the enum lookup is not guarded here. *)
Definition macro_percentage (goal : pyval) (field : Ratios -> float)
           (dflt : float) : result Z :=
  g <- FitnessGoal_of goal ;;
  let ratio := match MACRO_RATIOS g with
               | Some r => field r
               | None => dflt
               end in
  int (mul (Flt ratio) (Int 100)).

Definition calculate_all (user_profile : gmap string pyval) : result Stats :=
  let weight := get user_profile "weight_kg" in
  let height := get user_profile "height_cm" in
  let age := get user_profile "age" in
  let gender := get user_profile "gender" in
  let activity := get user_profile "activity_level" in
  let goal := get user_profile "fitness_goal" in
  bmi_v <- calculate_bmi weight height ;;
  let category := get_bmi_category bmi_v in
  bmr_v <- calculate_bmr weight height age gender ;;
  tdee_v <- calculate_tdee bmr_v activity ;;
  calories <- calculate_daily_calories tdee_v goal ;;
  macros <- calculate_macros calories goal ;;
  height_m <- truediv (as_num height) (Int 100) ;;
  iw_min <- round (mul (Flt 18.5) (pow2 (Ok height_m))) 1 ;;
  iw_max <- round (mul (Flt 24.9) (pow2 (Ok height_m))) 1 ;;
  water <- int (mul (as_num weight) (Int 35)) ;;
  bmi_r <- round (Ok bmi_v) 1 ;;
  bmr_i <- int (Ok bmr_v) ;;
  tdee_i <- int (Ok tdee_v) ;;
  pp <- macro_percentage goal protein 0.3 ;;
  pc <- macro_percentage goal carbs 0.4 ;;
  pf <- macro_percentage goal fats 0.3 ;;
  Ok {| bmi := bmi_r;
        bmi_category := category;
        bmr := bmr_i;
        tdee := tdee_i;
        daily_calories := calories;
        stats_protein_g := protein_g macros;
        stats_carbs_g := carbs_g macros;
        stats_fats_g := fats_g macros;
        ideal_weight_min := iw_min;
        ideal_weight_max := iw_max;
        water_ml := water;
        macro_percentages := mkPercentages pp pc pf |}.

End CalorieService.

(** ** hashlib.md5

    The digest [_generate_chunk_id] takes (RFC 1321), on the bytes of a
    string; words are 32-bit integers held in [Z] with the wrap-around
    written out. *)
Module Md5.

Definition mask32 (x : Z) : Z := Z.land x 0xffffffff.

Definition rotl32 (x c : Z) : Z :=
  mask32 (Z.lor (Z.shiftl x c) (Z.shiftr x (32 - c))).

Definition not32 (x : Z) : Z := Z.lxor x 0xffffffff.

(** [K[i] = floor(2^32 * |sin(i + 1)|)] *)
Definition K : list Z :=
  [ 0xd76aa478; 0xe8c7b756; 0x242070db; 0xc1bdceee;
    0xf57c0faf; 0x4787c62a; 0xa8304613; 0xfd469501;
    0x698098d8; 0x8b44f7af; 0xffff5bb1; 0x895cd7be;
    0x6b901122; 0xfd987193; 0xa679438e; 0x49b40821;
    0xf61e2562; 0xc040b340; 0x265e5a51; 0xe9b6c7aa;
    0xd62f105d; 0x02441453; 0xd8a1e681; 0xe7d3fbc8;
    0x21e1cde6; 0xc33707d6; 0xf4d50d87; 0x455a14ed;
    0xa9e3e905; 0xfcefa3f8; 0x676f02d9; 0x8d2a4c8a;
    0xfffa3942; 0x8771f681; 0x6d9d6122; 0xfde5380c;
    0xa4beea44; 0x4bdecfa9; 0xf6bb4b60; 0xbebfbc70;
    0x289b7ec6; 0xeaa127fa; 0xd4ef3085; 0x04881d05;
    0xd9d4d039; 0xe6db99e5; 0x1fa27cf8; 0xc4ac5665;
    0xf4292244; 0x432aff97; 0xab9423a7; 0xfc93a039;
    0x655b59c3; 0x8f0ccc92; 0xffeff47d; 0x85845dd1;
    0x6fa87e4f; 0xfe2ce6e0; 0xa3014314; 0x4e0811a1;
    0xf7537e82; 0xbd3af235; 0x2ad7d2bb; 0xeb86d391 ].

Definition SHIFTS : list Z :=
  [ 7; 12; 17; 22; 7; 12; 17; 22; 7; 12; 17; 22; 7; 12; 17; 22;
    5; 9; 14; 20; 5; 9; 14; 20; 5; 9; 14; 20; 5; 9; 14; 20;
    4; 11; 16; 23; 4; 11; 16; 23; 4; 11; 16; 23; 4; 11; 16; 23;
    6; 10; 15; 21; 6; 10; 15; 21; 6; 10; 15; 21; 6; 10; 15; 21 ].

Fixpoint bytes_of_string (s : string) : list Z :=
  match s with
  | EmptyString => []
  | String c r => Z.of_N (Ascii.N_of_ascii c) :: bytes_of_string r
  end.

(** The [n] low bytes of [x], least significant first. *)
Fixpoint le_bytes (n : nat) (x : Z) : list Z :=
  match n with
  | O => []
  | S k => Z.land x 0xff :: le_bytes k (Z.shiftr x 8)
  end.

(** Padding: a 1 bit, zeros up to 56 modulo 64 bytes, then the bit length
    on 8 bytes. *)
Definition pad (msg : list Z) : list Z :=
  let len := Z.of_nat (length msg) in
  msg ++ [0x80] ++ replicate (Z.to_nat ((55 - len) mod 64)) 0
      ++ le_bytes 8 (8 * len).

(** Little-endian 32-bit words of a byte list. *)
Fixpoint words (fuel : nat) (bs : list Z) : list Z :=
  match fuel, bs with
  | S k, b0 :: b1 :: b2 :: b3 :: rest =>
      (b0 + Z.shiftl b1 8 + Z.shiftl b2 16 + Z.shiftl b3 24) :: words k rest
  | _, _ => []
  end.

Record state : Type := mkState { sa : Z; sb : Z; sc : Z; sd : Z }.

Definition init : state :=
  mkState 0x67452301 0xefcdab89 0x98badcfe 0x10325476.

Definition nth_word (l : list Z) (i : Z) : Z := default 0 (l !! Z.to_nat i).

(** Operation [i] of the main loop on the block [m]. *)
Definition step (m : list Z) (st : state) (i : Z) : state :=
  let '(mkState a b c d) := st in
  let '(f, g) :=
    if i <? 16 then (Z.lor (Z.land b c) (Z.land (not32 b) d), i)
    else if i <? 32 then (Z.lor (Z.land d b) (Z.land (not32 d) c), (5 * i + 1) mod 16)
    else if i <? 48 then (Z.lxor (Z.lxor b c) d, (3 * i + 5) mod 16)
    else (Z.lxor c (Z.lor b (not32 d)), (7 * i) mod 16) in
  let f := mask32 (f + a + nth_word K i + nth_word m g) in
  mkState d (mask32 (b + rotl32 f (nth_word SHIFTS i))) b c.

Definition process_block (st : state) (block : list Z) : state :=
  let m := words 16 block in
  let r := foldl (step m) st (map Z.of_nat (seq 0 64)) in
  mkState (mask32 (sa st + sa r)) (mask32 (sb st + sb r))
          (mask32 (sc st + sc r)) (mask32 (sd st + sd r)).

Fixpoint process (blocks : nat) (bs : list Z) (st : state) : state :=
  match blocks with
  | O => st
  | S k => process k (drop 64 bs) (process_block st (take 64 bs))
  end.

Definition hex_digit (n : Z) : string :=
  String (Ascii.ascii_of_N (Z.to_N (if n <? 10 then 48 + n else 87 + n))) "".

Definition hex_byte (b : Z) : string :=
  hex_digit (Z.shiftr b 4) +:+ hex_digit (Z.land b 0xf).

(** [hashlib.md5(data).hexdigest()] *)
Definition hexdigest (data : string) : string :=
  let bs := pad (bytes_of_string data) in
  let st := process (length bs / 64)%nat bs init in
  foldr (fun b acc => hex_byte b +:+ acc) ""
        (le_bytes 4 (sa st) ++ le_bytes 4 (sb st)
           ++ le_bytes 4 (sc st) ++ le_bytes 4 (sd st)).

End Md5.

(** ** backend/rag/ingestion.py *)
Module Ingestion.
Import Py.

(** A value decoded by [json.load]. *)
Inductive json : Type :=
| JNull
| JBool (b : bool)
| JInt (z : Z)
| JFloat (f : float)
| JStr (s : string)
| JList (l : list json)
| JDict (d : list (string * json)).

Definition nl : string := String (Ascii.ascii_of_N 10) "".

Definition json_truthy (v : json) : bool :=
  match v with
  | JNull => false
  | JBool b => b
  | JInt z => negb (z =? 0)
  | JFloat f => negb (PrimFloat.eqb f 0%float)
  | JStr s => negb (String.eqb s "")
  | JList l => match l with [] => false | _ => true end
  | JDict d => match d with [] => false | _ => true end
  end.

(** The binding of [key] in the items of a dictionary. *)
Fixpoint assoc (d : list (string * json)) (key : string) : option json :=
  match d with
  | [] => None
  | (k, v) :: rest => if String.eqb k key then Some v else assoc rest key
  end.

(** [d.get(key, dflt)] *)
Definition get_or (d : list (string * json)) (key : string) (dflt : json) : json :=
  default dflt (assoc d key).

(** [if d.get(key):] *)
Definition has_truthy (d : list (string * json)) (key : string) : bool :=
  json_truthy (get_or d key JNull).

(** The receiver of [.get]: only a dictionary has the method. *)
Definition as_dict (v : json) : result (list (string * json)) :=
  match v with
  | JDict d => Ok d
  | _ => Raise AttributeError
  end.

(** Whether a byte continues a UTF-8 character (10xxxxxx). *)
Definition continuation_byte (c : Ascii.ascii) : bool :=
  let n := Ascii.N_of_ascii c in ((128 <=? n) && (n <? 192))%N.

(** The characters of a string held as UTF-8 bytes: each byte that starts a
    character, with the bytes that continue it. *)
Fixpoint utf8_chars (s : string) : list string :=
  match s with
  | EmptyString => []
  | String c r =>
      let rest := utf8_chars r in
      match r with
      | EmptyString => [String c ""]
      | String c' _ =>
          if continuation_byte c' then
            match rest with
            | first :: others => String c first :: others
            | [] => [String c ""]
            end
          else String c "" :: rest
      end
  end.

Definition chars (s : string) : list json := map JStr (utf8_chars s).

(** [for x in v]: a list yields its elements, a dictionary its keys, a
    string its characters; nothing else is iterable. *)
Definition iterate (v : json) : result (list json) :=
  match v with
  | JList l => Ok l
  | JDict d => Ok (map (fun kv => JStr (fst kv)) d)
  | JStr s => Ok (chars s)
  | _ => Raise TypeError
  end.

(** Sequencing a loop body over a list, stopping at the first exception. *)
Fixpoint for_each {A B : Type} (body : A -> result B) (l : list A) : result (list B) :=
  match l with
  | [] => Ok []
  | x :: rest =>
      y <- body x ;;
      ys <- for_each body rest ;;
      Ok (y :: ys)
  end.

Definition _generate_chunk_id (source : string) (item_idx chunk_idx : Z) : string :=
  let content := source +:+ "_" +:+ str_of_int item_idx +:+ "_" +:+ str_of_int chunk_idx in
  Md5.hexdigest content.

Record ChunkMetadata : Type := mkChunkMetadata {
  source_file : string;
  doc_type : string;
  type : json;
  title : json;
  experience_level : json;
  location : json;
  dietary_type : json;
  goal : json;
  chunk_index : Z;
  ingested_at : string
}.

Record Chunk : Type := mkChunk {
  id : string;
  text : string;
  metadata : ChunkMetadata
}.

Section ingestion.
(** [str(value)] of a decoded JSON value, as an f-string formats it: Python's
    builtin, taken as given. *)
Variable str : json -> string.

(** [RecursiveCharacterTextSplitter(chunk_size, chunk_overlap,
    separators).split_text]: the library's splitter, taken as given. *)
Variable split_text : string -> list string.

(** [datetime.utcnow().isoformat()]: the text of the n-th reading of the
    clock. *)
Variable utcnow_isoformat : nat -> string.

(** The line of one key of [['level', 'goal', 'location', 'duration',
    'calories']]; [titled] is [key.title()]. *)
Definition field_line (d : list (string * json)) (key titled : string) : list string :=
  if has_truthy d key then [titled +:+ ": " +:+ str (get_or d key JNull)] else [].

Definition exercise_line (exercise : json) : result string :=
  e <- as_dict exercise ;;
  let ex_text := "- " +:+ str (get_or e "name" (JStr "Exercise")) in
  let ex_text :=
    if has_truthy e "sets"
    then ex_text +:+ ": " +:+ str (get_or e "sets" JNull) +:+ " sets"
    else ex_text in
  let ex_text :=
    if has_truthy e "reps"
    then ex_text +:+ " x " +:+ str (get_or e "reps" JNull)
    else ex_text in
  Ok ex_text.

Definition food_line (food : json) : string :=
  match food with
  | JDict f =>
      "- " +:+ str (get_or f "name" (JStr "Food")) +:+ ": "
        +:+ str (get_or f "portion" (JStr ""))
  | _ => "- " +:+ str food
  end.

Definition meal_lines (meal : json) : result (list string) :=
  m <- as_dict meal ;;
  let head := nl +:+ "### " +:+ str (get_or m "name" (JStr "Meal")) in
  if has_truthy m "items" then
    foods <- iterate (get_or m "items" JNull) ;;
    Ok (head :: map food_line foods)
  else Ok [head].

Definition _json_to_text (item : json) (doc_type : string) : result string :=
  d <- as_dict item ;;
  let parts := ["# " +:+ str (get_or d "name" (get_or d "title" (JStr "Item")))] in
  let parts :=
    if has_truthy d "description"
    then parts ++ [nl +:+ str (get_or d "description" JNull)]
    else parts in
  let parts :=
    parts ++ field_line d "level" "Level" ++ field_line d "goal" "Goal"
          ++ field_line d "location" "Location"
          ++ field_line d "duration" "Duration"
          ++ field_line d "calories" "Calories" in
  parts <-
    (if has_truthy d "exercises" then
       exercises <- iterate (get_or d "exercises" JNull) ;;
       lines <- for_each exercise_line exercises ;;
       Ok (parts ++ [nl +:+ "## Exercises:"] ++ lines)
     else Ok parts) ;;
  parts <-
    (if has_truthy d "meals" then
       meals <- iterate (get_or d "meals" JNull) ;;
       blocks <- for_each meal_lines meals ;;
       Ok (parts ++ [nl +:+ "## Meals:"] ++ concat blocks)
     else Ok parts) ;;
  Ok (join nl parts).

(** The chunks of one item.  The clock is read once per chunk: [clock] counts
    the readings made so far and is returned advanced. *)
Definition _chunk_json_item (item : json) (source_file : string) (idx : Z)
           (doc_type : string) (clock : nat) : result (list Chunk * nat) :=
  text_content <- _json_to_text item doc_type ;;
  d <- as_dict item ;;
  let text_chunks := split_text text_content in
  let chunks :=
    imap (fun chunk_idx chunk_text =>
            let chunk_id := _generate_chunk_id source_file idx (Z.of_nat chunk_idx) in
            let metadata :=
              {| source_file := source_file;
                 doc_type := doc_type;
                 type := get_or d "type" (JStr doc_type);
                 title := get_or d "name"
                            (get_or d "title"
                               (JStr (doc_type +:+ "_" +:+ str_of_int idx)));
                 experience_level :=
                   get_or d "level" (get_or d "experience_level" (JStr "all"));
                 location := get_or d "location" (JStr "both");
                 dietary_type :=
                   get_or d "dietary_type" (get_or d "preference" (JStr "all"));
                 goal := get_or d "goal" (JStr "general");
                 chunk_index := Z.of_nat chunk_idx;
                 ingested_at := utcnow_isoformat (clock + chunk_idx) |} in
            mkChunk chunk_id chunk_text metadata)
         text_chunks in
  Ok (chunks, (clock + length text_chunks)%nat).

(** [for idx, item in enumerate(items): chunks.extend(...)], from [idx]. *)
Fixpoint chunk_items (items : list json) (source_file : string) (idx : Z)
         (doc_type : string) (clock : nat) : result (list Chunk * nat) :=
  match items with
  | [] => Ok ([], clock)
  | item :: rest =>
      r <- _chunk_json_item item source_file idx doc_type clock ;;
      rs <- chunk_items rest source_file (idx + 1) doc_type (snd r) ;;
      Ok (fst r ++ fst rs, snd rs)
  end.

(** [_process_json_file] on the decoded content [data] of the file whose
    name without extension is [stem]. *)
Definition _process_json_file (data : json) (stem : string) (doc_type : string)
           (clock : nat) : result (list Chunk * nat) :=
  match data with
  | JList items => chunk_items items stem 0 doc_type clock
  | JDict d =>
      match assoc d "items" with
      | Some v =>
          items <- iterate v ;;
          chunk_items items stem 0 doc_type clock
      | None => _chunk_json_item data stem 0 doc_type clock
      end
  | _ => Ok ([], clock)
  end.

End ingestion.

End Ingestion.

(** ** backend/rag/retriever.py *)
Module Retriever.
Import Py.

(** A LangChain [Document]. *)
Record Document : Type := mkDocument {
  page_content : string;
  metadata : gmap string pyval
}.

(** One entry of the list [PineconeManager.query] returns: the dictionary
    with the keys [id], [score], [metadata] and [text]. *)
Record QueryResult : Type := mkQueryResult {
  result_id : pyval;
  result_score : pyval;
  result_metadata : gmap string pyval;
  result_text : string
}.

(** A Pinecone metadata filter: field name to condition, a condition being
    a dictionary such as [{"$eq": value}]. *)
Abbreviation Filter := (gmap string (gmap string pyval)).

(** The two gateways the retriever holds.  [PineconeManager.query] catches
    every exception of the provider and of the embedding call and returns
    the empty list then, so it is a total function to a list. *)
Record Gateways : Type := mkGateways {
  pinecone_is_available : bool;
  embedding_is_available : bool;
  pinecone_query : string -> Z -> string -> option Filter -> list QueryResult
}.

Definition nl : string := String (Ascii.ascii_of_N 10) "".

(** [value != 'both'] *)
Definition ne_str (v : pyval) (s : string) : bool :=
  match v with
  | PStr t => negb (String.eqb t s)
  | _ => true
  end.

(** [filters if filters else None] *)
Definition nonempty_or_None (filters : Filter) : option Filter :=
  if decide (filters = ∅) then None else Some filters.

Definition _build_workout_filter (user_profile : gmap string pyval) : option Filter :=
  let filters : Filter := ∅ in
  let filters :=
    match user_profile !! "experience_level" with
    | Some level =>
        if truthy level
        then <["experience_level" := {[ "$eq" := level ]}]> filters
        else filters
    | None => filters
    end in
  let filters :=
    match user_profile !! "workout_location" with
    | Some location =>
        if truthy location
        then if ne_str location "both"
             then <["location" := {[ "$eq" := location ]}]> filters
             else filters
        else filters
    | None => filters
    end in
  nonempty_or_None filters.

Definition _build_diet_filter (user_profile : gmap string pyval) : option Filter :=
  let filters : Filter := ∅ in
  let filters :=
    match user_profile !! "dietary_preference" with
    | Some preference =>
        if truthy preference
        then <["dietary_type" := {[ "$eq" := preference ]}]> filters
        else filters
    | None => filters
    end in
  nonempty_or_None filters.

Definition _get_fallback_workout_docs : list Document :=
  [ mkDocument
      (join nl
         [ "";
           "                # General Workout Guidelines";
           "                ";
           "                ## Beginner Full Body Workout (3 days/week)";
           "                - Squats: 3 sets x 10-12 reps";
           "                - Push-ups: 3 sets x 8-12 reps";
           "                - Dumbbell Rows: 3 sets x 10 reps each arm";
           "                - Lunges: 3 sets x 10 reps each leg";
           "                - Plank: 3 sets x 30 seconds";
           "                ";
           "                ## Intermediate Split (4 days/week)";
           "                Day 1: Chest & Triceps";
           "                Day 2: Back & Biceps";
           "                Day 3: Rest";
           "                Day 4: Legs";
           "                Day 5: Shoulders & Core";
           "                ";
           "                ## Important Notes";
           "                - Always warm up for 5-10 minutes";
           "                - Rest 60-90 seconds between sets";
           "                - Stay hydrated";
           "                - Progressive overload is key";
           "                " ])
      {[ "type" := PStr "workout"; "source" := PStr "fallback";
         "score" := PFloat 0.5 ]} ].

Definition _get_fallback_diet_docs : list Document :=
  [ mkDocument
      (join nl
         [ "";
           "                # General Diet Guidelines";
           "                ";
           "                ## Indian Vegetarian High Protein Foods";
           "                - Paneer: 18g protein per 100g";
           "                - Dal (Lentils): 9g protein per 100g";
           "                - Chickpeas: 19g protein per 100g";
           "                - Greek Yogurt: 10g protein per 100g";
           "                - Soy chunks: 52g protein per 100g";
           "                ";
           "                ## Sample Meal Plan (2000 kcal)";
           "                Breakfast: Paneer bhurji with 2 rotis (500 kcal)";
           "                Snack: Sprouts chaat (200 kcal)";
           "                Lunch: Rajma chawal with salad (600 kcal)";
           "                Snack: Protein shake with banana (250 kcal)";
           "                Dinner: Dal with roti and vegetables (450 kcal)";
           "                ";
           "                ## Macro Split for Muscle Gain";
           "                - Protein: 30% (150g)";
           "                - Carbs: 45% (225g)";
           "                - Fats: 25% (55g)";
           "                " ])
      {[ "type" := PStr "diet"; "source" := PStr "fallback";
         "score" := PFloat 0.5 ]} ].

Definition _results_to_documents (results : list QueryResult) : list Document :=
  map (fun result =>
         mkDocument
           (result_text result)
           (result_metadata result
              ∪ {[ "id" := result_id result; "score" := result_score result ]}))
      results.

Section retriever.
(** [repr] of a float, the shortest decimal that reads back as the same
    double: Python's builtin, taken as given. *)
Variable float_repr : float -> string.

(** [str(value)], as an f-string formats a value. *)
Definition str (v : pyval) : string :=
  match v with
  | PNone => "None"
  | PBool b => if b then "True" else "False"
  | PInt z => str_of_int z
  | PFloat f => float_repr f
  | PStr s => s
  end.

(** One optional hint of [_enhance_query]:
    [if user_profile.get(key): enhancements.append(f"<label>: {user_profile[key]}")] *)
Definition hint (user_profile : gmap string pyval) (key label : string)
  : list string :=
  match user_profile !! key with
  | Some v => if truthy v then [label +:+ ": " +:+ str v] else []
  | None => []
  end.

Definition _enhance_query (query : string) (user_profile : gmap string pyval)
           (context_type : string) : string :=
  let enhancements :=
    if String.eqb context_type "workout" then
      hint user_profile "fitness_goal" "Goal"
        ++ hint user_profile "experience_level" "Level"
        ++ hint user_profile "workout_location" "Location"
    else if String.eqb context_type "diet" then
      hint user_profile "dietary_preference" "Preference"
        ++ hint user_profile "fitness_goal" "Goal"
    else [] in
  match enhancements with
  | [] => query
  | _ => query +:+ " [" +:+ join " | " enhancements +:+ "]"
  end.

Variable gateways : Gateways.

Definition is_available : bool :=
  pinecone_is_available gateways && embedding_is_available gateways.

Definition retrieve_workout_context (query : string)
           (user_profile : gmap string pyval) (top_k : Z) : list Document :=
  if negb is_available then _get_fallback_workout_docs
  else
    let filter_dict := _build_workout_filter user_profile in
    let enhanced_query := _enhance_query query user_profile "workout" in
    let results :=
      pinecone_query gateways enhanced_query top_k "workouts" filter_dict in
    let docs := _results_to_documents results in
    match docs with
    | [] => _get_fallback_workout_docs
    | _ => docs
    end.

Definition retrieve_diet_context (query : string)
           (user_profile : gmap string pyval) (top_k : Z) : list Document :=
  if negb is_available then _get_fallback_diet_docs
  else
    let filter_dict := _build_diet_filter user_profile in
    let enhanced_query := _enhance_query query user_profile "diet" in
    let results :=
      pinecone_query gateways enhanced_query top_k "diets" filter_dict in
    let docs := _results_to_documents results in
    match docs with
    | [] => _get_fallback_diet_docs
    | _ => docs
    end.

(** The dictionary with the keys ['workouts'] and ['diets']. *)
Record Context : Type := mkContext {
  workouts : list Document;
  diets : list Document
}.

Definition retrieve_combined_context (query : string)
           (user_profile : gmap string pyval) (top_k_each : Z) : Context :=
  let workout_docs := retrieve_workout_context query user_profile top_k_each in
  let diet_docs := retrieve_diet_context query user_profile top_k_each in
  mkContext workout_docs diet_docs.

End retriever.

End Retriever.

(** ** backend/rag/chain.py *)
Module Chain.
Import Py.
Import CalorieService.
Import Retriever.

(** One record of the [sources] list. *)
Record Source : Type := mkSource {
  source_id : pyval;
  source_type : string;
  source_score : pyval;
  source_title : pyval
}.

(** The dictionary [generate_plan] returns. *)
Record PlanResult : Type := mkPlanResult {
  response : string;
  sources : list Source;
  stats : Stats;
  follow_up_questions : list string
}.

(** The progress context [ProgressService.get_progress_context_for_rag]
    hands over, with the three entries the chain reads. *)
Record ProgressData : Type := mkProgressData {
  weight_history : list float;
  workout_completion : float;
  calorie_adherence : float
}.

(** The variables of the RAG prompt. *)
Record PromptInputs : Type := mkPromptInputs {
  in_user_name : pyval;
  in_age : pyval;
  in_gender : pyval;
  in_height_cm : pyval;
  in_weight_kg : pyval;
  in_bmi : num;
  in_fitness_goal : pyval;
  in_activity_level : pyval;
  in_experience_level : pyval;
  in_workout_location : pyval;
  in_workout_days : pyval;
  in_dietary_preference : pyval;
  in_medical_conditions : pyval;
  in_allergies : pyval;
  in_daily_calories : Z;
  in_protein_g : Z;
  in_carbs_g : Z;
  in_fats_g : Z;
  in_progress_context : string;
  in_workout_context : string;
  in_diet_context : string;
  in_user_query : string
}.

Definition _extract_sources (context : Context) : list Source :=
  map (fun doc =>
         mkSource (default PNone (metadata doc !! "id")) "workout"
                  (default PNone (metadata doc !! "score"))
                  (default (PStr "Workout Routine") (metadata doc !! "title")))
      (workouts context)
  ++ map (fun doc =>
            mkSource (default PNone (metadata doc !! "id")) "diet"
                     (default PNone (metadata doc !! "score"))
                     (default (PStr "Diet Plan") (metadata doc !! "title")))
         (diets context).

(** [plan_type in [a, b]] *)
Definition in2 (plan_type a b : string) : bool :=
  String.eqb plan_type a || String.eqb plan_type b.

Definition _generate_follow_ups (user_profile : gmap string pyval)
           (plan_type : string) : list string :=
  let questions := [] in
  let questions :=
    if negb (get_truthy (user_profile !! "medical_conditions"))
    then questions ++ ["Do you have any medical conditions or injuries I should consider?"]
    else questions in
  let questions :=
    if negb (get_truthy (user_profile !! "allergies"))
    then questions ++ ["Do you have any food allergies or intolerances?"]
    else questions in
  let questions :=
    if in2 plan_type "workout" "both"
    then questions ++ ["Do you have access to specific gym equipment?";
                       "How much time can you dedicate to each workout session?"]
    else questions in
  let questions :=
    if in2 plan_type "diet" "both"
    then questions ++ ["Do you prefer meal prepping or cooking fresh daily?";
                       "Are there any specific foods you dislike?"]
    else questions in
  take 3 questions.

(** [seq[-5:]] *)
Definition last5 {A : Type} (l : list A) : list A := drop (length l - 5) l.

Definition _format_progress (progress_data : ProgressData) : string :=
  let parts := [] in
  let parts :=
    match weight_history progress_data with
    | [] => parts
    | history =>
        let weights := last5 history in
        parts ++ ["Recent weights: "
                    +:+ join ", " (map (fun w => format_fixed_float 1 w +:+ "kg") weights)]
    end in
  let parts :=
    let rate := workout_completion progress_data in
    if truthy (PFloat rate)
    then parts ++ ["Workout completion rate: " +:+ format_fixed_float 1 rate +:+ "%"]
    else parts in
  let parts :=
    let adherence := calorie_adherence progress_data in
    if truthy (PFloat adherence)
    then parts ++ ["Calorie adherence: " +:+ format_fixed_float 1 adherence +:+ "%"]
    else parts in
  match parts with
  | [] => "No progress data available."
  | _ => join nl parts
  end.

Section chain.
Variable float_repr : float -> string.
Variable gateways : Gateways.

(** The generation backend: [None] when no model is configured; otherwise
    what the invocation [(prompt | llm | StrOutputParser()).invoke(inputs)]
    does, an answer or an exception. *)
Variable llm : option (PromptInputs -> result string).

Definition is_available : bool :=
  match llm with Some _ => true | None => false end.

Definition _format_documents (documents : list Document) : string :=
  match documents with
  | [] => "No relevant documents found."
  | _ =>
      let formatted :=
        imap (fun i doc =>
                let content := page_content doc in
                let score := default (PStr "N/A") (metadata doc !! "score") in
                let score_str :=
                  match score with
                  | PFloat f => format_fixed_float 2 f
                  | _ => str float_repr score
                  end in
                let source_info :=
                  "[Source " +:+ str_of_int (Z.of_nat i + 1) +:+ ", Relevance: "
                    +:+ score_str +:+ "]" in
                source_info +:+ nl +:+ content)
             documents in
      join (nl +:+ nl +:+ "---" +:+ nl +:+ nl) formatted
  end.

Definition _generate_fallback_response (user_profile : gmap string pyval)
           (stats : Stats) (workout_context diet_context : string)
           (context : Context) : result PlanResult :=
  let name := str float_repr (default (PStr "User") (user_profile !! "name")) in
  bmi_text <- format_fixed 1 (bmi stats) ;;
  let response :=
    nl +:+ "# Personalized Fitness & Diet Plan for " +:+ name +:+ nl
    +:+ nl +:+ "## Your Stats" +:+ nl
    +:+ "- **BMI:** " +:+ bmi_text +:+ " (" +:+ bmi_category stats +:+ ")" +:+ nl
    +:+ "- **Daily Calories:** " +:+ str_of_int (daily_calories stats) +:+ " kcal" +:+ nl
    +:+ "- **Protein:** " +:+ str_of_int (stats_protein_g stats)
    +:+ "g | **Carbs:** " +:+ str_of_int (stats_carbs_g stats)
    +:+ "g | **Fats:** " +:+ str_of_int (stats_fats_g stats) +:+ "g" +:+ nl
    +:+ nl +:+ "## Workout Plan" +:+ nl
    +:+ workout_context +:+ nl
    +:+ nl +:+ "## Diet Plan" +:+ nl
    +:+ diet_context +:+ nl
    +:+ nl +:+ "---" +:+ nl
    +:+ "*Note: This is a basic plan generated from our knowledge base. For more personalized AI-generated plans, please configure the Google API key.*"
    +:+ nl in
  Ok {| response := response;
        sources := _extract_sources context;
        stats := stats;
        follow_up_questions :=
          [ "Do you have any specific exercises you'd like to include?";
            "Are there any foods you particularly enjoy?";
            "What time do you prefer to workout?" ] |}.

Definition generate_plan (user_profile : gmap string pyval) (user_query : string)
           (plan_type : string) (progress_data : option ProgressData)
  : result PlanResult :=
  stats <- calculate_all user_profile ;;
  let context := retrieve_combined_context float_repr gateways user_query user_profile 3 in
  let workout_context := _format_documents (workouts context) in
  let diet_context := _format_documents (diets context) in
  let progress_context :=
    match progress_data with
    | Some data => _format_progress data
    | None => "No previous progress data available."
    end in
  match llm with
  | None =>
      _generate_fallback_response user_profile stats workout_context diet_context context
  | Some invoke =>
      bmi_1 <- round (Ok (bmi stats)) 1 ;;
      let prompt_inputs :=
        {| in_user_name := default (PStr "User") (user_profile !! "name");
           in_age := get user_profile "age";
           in_gender := get user_profile "gender";
           in_height_cm := get user_profile "height_cm";
           in_weight_kg := get user_profile "weight_kg";
           in_bmi := bmi_1;
           in_fitness_goal := get user_profile "fitness_goal";
           in_activity_level := get user_profile "activity_level";
           in_experience_level := get user_profile "experience_level";
           in_workout_location := get user_profile "workout_location";
           in_workout_days := get user_profile "workout_days_per_week";
           in_dietary_preference := get user_profile "dietary_preference";
           in_medical_conditions :=
             default (PStr "None reported") (user_profile !! "medical_conditions");
           in_allergies := default (PStr "None reported") (user_profile !! "allergies");
           in_daily_calories := daily_calories stats;
           in_protein_g := stats_protein_g stats;
           in_carbs_g := stats_carbs_g stats;
           in_fats_g := stats_fats_g stats;
           in_progress_context := progress_context;
           in_workout_context := workout_context;
           in_diet_context := diet_context;
           in_user_query := user_query |} in
      match invoke prompt_inputs with
      | Raise _ =>
          _generate_fallback_response user_profile stats workout_context diet_context
                                      context
      | Ok response =>
          let sources := _extract_sources context in
          let follow_ups := _generate_follow_ups user_profile plan_type in
          Ok {| response := response;
                sources := sources;
                stats := stats;
                follow_up_questions := follow_ups |}
      end
  end.

End chain.

End Chain.

(** ** backend/rag/ingestion.py: the ingestion entry points *)
Module IngestionPipeline.
Import Py.
Import Ingestion.

(** A [*.json] file of a data directory: its name without extension and what
    [open] and [json.load] give, the decoded content or their exception. *)
Record JsonFile : Type := mkJsonFile {
  stem : string;
  content : result json
}.

(** What the ingester asks of the vector-index gateway.  Each call catches
    its own exceptions ([create_index_if_not_exists], [upsert_documents] and
    [delete_namespace] all do), so a call is an event and nothing else. *)
Inductive event : Type :=
| CreateIndex (dimension : Z)
| Upsert (namespace : string) (chunks : list Chunk)
| DeleteNamespace (namespace : string).

(** The state an entry point threads: the clock readings made so far and the
    gateway calls made so far, oldest first. *)
Record state : Type := mkPipelineState {
  clock : nat;
  calls : list event
}.

(** The dictionary [ingest_all] returns. *)
Record IngestStats : Type := mkIngestStats {
  workouts_processed : Z;
  diets_processed : Z;
  total_chunks : Z
}.

(** The two fixed subdirectories of the data directory, each with its
    [*.json] files in the order [glob] lists them; [None] when the
    subdirectory does not exist. *)
Record DataDir : Type := mkDataDir {
  workouts_dir : option (list JsonFile);
  diets_dir : option (list JsonFile)
}.

Section pipeline.
Variable str : json -> string.
Variable split_text : string -> list string.
Variable utcnow_isoformat : nat -> string.

(** [self.pinecone_manager.is_available] *)
Variable pinecone_is_available : bool.

(** The clock readings [chunk_items] makes before it returns or raises: one
    per chunk of every item up to the first one that raises. *)
Fixpoint readings_of_items (items : list json) (doc_type : string) : nat :=
  match items with
  | [] => 0
  | item :: rest =>
      match _json_to_text str item doc_type with
      | Ok text_content =>
          (length (split_text text_content) + readings_of_items rest doc_type)%nat
      | Raise _ => 0%nat
      end
  end.

(** The clock readings [_process_json_file] makes on [data]. *)
Definition readings_of_file (data : json) (doc_type : string) : nat :=
  match data with
  | JList items => readings_of_items items doc_type
  | JDict d =>
      match assoc d "items" with
      | Some v =>
          match iterate v with
          | Ok items => readings_of_items items doc_type
          | Raise _ => 0%nat
          end
      | None => readings_of_items [data] doc_type
      end
  | _ => 0%nat
  end.

(** The body of the loop of [_ingest_directory] for one file, inside its
    [try]: [total_chunks] and the state after it. *)
Definition ingest_file (namespace : string) (acc : Z * state) (file : JsonFile)
  : Z * state :=
  let '(total_chunks, st) := acc in
  match content file with
  | Raise _ => (total_chunks, st)
  | Ok data =>
      match _process_json_file str split_text utcnow_isoformat data (stem file)
                               namespace (clock st) with
      | Ok (chunks, clock') =>
          (total_chunks + Z.of_nat (length chunks),
           mkPipelineState clock'
             (match chunks with
              | [] => calls st
              | _ => calls st ++ [Upsert namespace chunks]
              end))
      | Raise _ =>
          (total_chunks,
           mkPipelineState (clock st + readings_of_file data namespace) (calls st))
      end
  end.

Definition _ingest_directory (files : list JsonFile) (namespace : string)
           (st : state) : Z * state :=
  foldl (ingest_file namespace) (0, st) files.

Definition ingest_all (data_dir : DataDir) (st : state) : IngestStats * state :=
  let stats := mkIngestStats 0 0 0 in
  if negb pinecone_is_available then (stats, st)
  else
    let st := mkPipelineState (clock st) (calls st ++ [CreateIndex 768]) in
    let '(stats, st) :=
      match workouts_dir data_dir with
      | Some files =>
          let '(workout_chunks, st) := _ingest_directory files "workouts" st in
          (mkIngestStats (Z.of_nat (length files)) (diets_processed stats)
                         (total_chunks stats + workout_chunks), st)
      | None => (stats, st)
      end in
    match diets_dir data_dir with
    | Some files =>
        let '(diet_chunks, st) := _ingest_directory files "diets" st in
        (mkIngestStats (workouts_processed stats) (Z.of_nat (length files))
                       (total_chunks stats + diet_chunks), st)
    | None => (stats, st)
    end.

Definition ingest_single_document (document : json) (doc_type : string)
           (st : state) : result (Z * state) :=
  if negb pinecone_is_available then Ok (0, st)
  else
    let namespace := doc_type +:+ "s" in
    r <- _chunk_json_item str split_text utcnow_isoformat document "manual_entry" 0
                          namespace (clock st) ;;
    let '(chunks, clock') := r in
    Ok (Z.of_nat (length chunks),
        mkPipelineState clock'
          (match chunks with
           | [] => calls st
           | _ => calls st ++ [Upsert namespace chunks]
           end)).

Definition clear_namespace (namespace : string) (st : state) : state :=
  if pinecone_is_available
  then mkPipelineState (clock st) (calls st ++ [DeleteNamespace namespace])
  else st.

(** The response of the [/ingest] route of [backend/api/routes/rag.py]. *)
Record IngestionResponse : Type := mkIngestionResponse {
  success : bool;
  documents_processed : Z;
  chunks_created : Z
}.

(** The loop of the route: [total_chunks += ingest_single_document(doc, ...)];
    the state is the one reached when the loop ends or raises. *)
Fixpoint ingest_each (documents : list json) (document_type : string)
         (total_chunks : Z) (st : state) : result Z * state :=
  match documents with
  | [] => (Ok total_chunks, st)
  | doc :: rest =>
      match ingest_single_document doc document_type st with
      | Ok (chunks, st') => ingest_each rest document_type (total_chunks + chunks) st'
      | Raise e => (Raise e, st)
      end
  end.

(** [ingest_documents] of the route, on the request's [documents],
    [document_type] and [overwrite]. *)
Definition ingest_documents (documents : list json) (document_type : string)
           (overwrite : bool) (st : state) : IngestionResponse * state :=
  let st :=
    if overwrite then clear_namespace (document_type +:+ "s") st else st in
  match ingest_each documents document_type 0 st with
  | (Ok total_chunks, st) =>
      (mkIngestionResponse true (Z.of_nat (length documents)) total_chunks, st)
  | (Raise _, st) => (mkIngestionResponse false 0 0, st)
  end.

End pipeline.

End IngestionPipeline.

(** ** backend/rag/vectorstore.py: upserting chunks *)
Module VectorStore.
Import Py.
Import Ingestion.

(** Whether a byte continues a UTF-8 character (10xxxxxx). *)
Definition is_continuation (c : Ascii.ascii) : bool :=
  let n := Ascii.N_of_ascii c in ((128 <=? n) && (n <? 192))%N.

(** [text[:n]]: the first [n] characters of a string held as UTF-8 bytes.  A
    byte that starts a character is taken while characters remain to be
    taken; the bytes that continue it follow it. *)
Fixpoint str_prefix (n : nat) (s : string) : string :=
  match s with
  | EmptyString => ""
  | String c r =>
      if is_continuation c then String c (str_prefix n r)
      else match n with
           | O => ""
           | S k => String c (str_prefix k r)
           end
  end.

(** [range(0, n, step)], for [step > 0]. *)
Definition range_step (n step : nat) : list nat :=
  map (fun j => (j * step)%nat) (seq 0 ((n + step - 1) / step)).

(** [seq[i:i + size]] *)
Definition slice {A : Type} (l : list A) (i size : nat) : list A :=
  take size (drop i l).

(** The slices [upsert_documents] sends, [batch_size] records each. *)
Definition batches {A : Type} (vectors : list A) (batch_size : nat) : list (list A) :=
  map (fun i => slice vectors i batch_size) (range_step (length vectors) batch_size).

Section upsert.
(** An embedding vector. *)
Variable V : Type.

(** The record sent for one chunk: the dictionary with [id], [values] and
    [metadata], the latter being the chunk's metadata and a [text] entry. *)
Record VectorRecord : Type := mkVectorRecord {
  vec_id : string;
  vec_values : V;
  vec_metadata : ChunkMetadata;
  vec_text : string
}.

Variable pinecone_is_available : bool.
Variable embedding_is_available : bool.

(** [embedding_manager.embed_documents], the provider's call. *)
Variable embed_documents : list string -> result (list V).

(** [self.get_index()]: [None], or the index whose [upsert] is the
    provider's call. *)
Variable index : option (list VectorRecord -> string -> result unit).

(** Sends the batches in order; stops at the first call that raises.  The
    calls that returned are listed, oldest first. *)
Fixpoint send (upsert : list VectorRecord -> string -> result unit)
         (namespace : string) (todo : list (list VectorRecord))
         (sent : list (list VectorRecord)) : result unit * list (list VectorRecord) :=
  match todo with
  | [] => (Ok tt, sent)
  | batch :: rest =>
      match upsert batch namespace with
      | Ok _ => send upsert namespace rest (sent ++ [batch])
      | Raise e => (Raise e, sent)
      end
  end.

(** [upsert_documents]: the count it returns and the batches the index
    accepted. *)
Definition upsert_documents (documents : list Chunk) (namespace : string)
  : Z * list (list VectorRecord) :=
  if negb pinecone_is_available then (0, [])
  else if negb embedding_is_available then (0, [])
  else
    let texts := map text documents in
    match embed_documents texts with
    | Raise _ => (0, [])
    | Ok embeddings =>
        let vectors :=
          zip_with (fun doc embedding =>
                      mkVectorRecord (id doc) embedding (metadata doc)
                                     (str_prefix 1000 (text doc)))
                   documents embeddings in
        match index with
        | None => (Z.of_nat (length vectors), [])
        | Some upsert =>
            let batch_size := 100%nat in
            match send upsert namespace (batches vectors batch_size) [] with
            | (Ok _, sent) => (Z.of_nat (length vectors), sent)
            | (Raise _, sent) => (0, sent)
            end
        end
    end.

End upsert.

End VectorStore.

(** ** backend/rag/chain.py: the single-purpose plans *)
Module ChainPlans.
Import Py.
Import CalorieService.
Import Retriever.
Import Chain.

(** One record of the [sources] list of a workout or diet plan. *)
Record PlanSource : Type := mkPlanSource {
  plan_source_id : pyval;
  plan_source_score : pyval
}.

(** The dictionary [generate_workout_plan] returns. *)
Record WorkoutPlan : Type := mkWorkoutPlan {
  workout_plan : string;
  workout_sources : list PlanSource
}.

(** The dictionary [generate_diet_plan] returns. *)
Record DietPlan : Type := mkDietPlan {
  diet_plan : string;
  diet_stats : Stats;
  diet_sources : list PlanSource
}.

(** The variables of the workout prompt. *)
Record WorkoutInputs : Type := mkWorkoutInputs {
  w_user_profile : string;
  w_workout_context : string;
  w_workout_days : pyval;
  w_fitness_goal : pyval;
  w_experience_level : pyval;
  w_workout_location : pyval
}.

(** The variables of the diet prompt. *)
Record DietInputs : Type := mkDietInputs {
  d_user_profile : string;
  d_diet_context : string;
  d_daily_calories : Z;
  d_protein_g : Z;
  d_carbs_g : Z;
  d_fats_g : Z;
  d_dietary_preference : pyval;
  d_allergies : pyval
}.

(** [[{"id": doc.metadata.get("id"), "score": doc.metadata.get("score")}
     for doc in context]] *)
Definition plan_sources (context : list Document) : list PlanSource :=
  map (fun doc =>
         mkPlanSource (default PNone (metadata doc !! "id"))
                      (default PNone (metadata doc !! "score")))
      context.

Section plans.
Variable float_repr : float -> string.
Variable gateways : Gateways.

(** The generation backend under the workout prompt and under the diet
    prompt: [None] when no model is configured, else what the invocation of
    the chain does. *)
Variable llm_workout : option (WorkoutInputs -> result string).
Variable llm_diet : option (DietInputs -> result string).

Definition _format_user_profile (profile : gmap string pyval) : string :=
  let field key := str float_repr (get profile key) in
  nl +:+ "- Name: " +:+ str float_repr (default (PStr "User") (profile !! "name")) +:+ nl
  +:+ "- Age: " +:+ field "age" +:+ " years" +:+ nl
  +:+ "- Gender: " +:+ field "gender" +:+ nl
  +:+ "- Height: " +:+ field "height_cm" +:+ " cm" +:+ nl
  +:+ "- Weight: " +:+ field "weight_kg" +:+ " kg" +:+ nl
  +:+ "- Goal: " +:+ field "fitness_goal" +:+ nl
  +:+ "- Activity Level: " +:+ field "activity_level" +:+ nl
  +:+ "- Experience: " +:+ field "experience_level" +:+ nl
  +:+ "- Workout Location: " +:+ field "workout_location" +:+ nl
  +:+ "- Days/Week: " +:+ field "workout_days_per_week" +:+ nl
  +:+ "- Diet Preference: " +:+ field "dietary_preference" +:+ nl.

Definition generate_workout_plan (user_profile : gmap string pyval)
           (progress_data : option ProgressData) : WorkoutPlan :=
  let query :=
    "Complete " +:+ str float_repr (get user_profile "workout_days_per_week")
    +:+ "-day workout plan for " +:+ str float_repr (get user_profile "fitness_goal")
    +:+ " goal" in
  let context := retrieve_workout_context float_repr gateways query user_profile 7 in
  let workout_context := _format_documents float_repr context in
  match llm_workout with
  | None => mkWorkoutPlan workout_context (plan_sources context)
  | Some invoke =>
      let prompt_inputs :=
        {| w_user_profile := _format_user_profile user_profile;
           w_workout_context := workout_context;
           w_workout_days := get user_profile "workout_days_per_week";
           w_fitness_goal := get user_profile "fitness_goal";
           w_experience_level := get user_profile "experience_level";
           w_workout_location := get user_profile "workout_location" |} in
      let response :=
        match invoke prompt_inputs with
        | Ok response => response
        | Raise _ => workout_context
        end in
      mkWorkoutPlan response (plan_sources context)
  end.

Definition generate_diet_plan (user_profile : gmap string pyval)
           (progress_data : option ProgressData) : result DietPlan :=
  stats <- calculate_all user_profile ;;
  let query :=
    "Diet plan for " +:+ str float_repr (get user_profile "dietary_preference")
    +:+ " with " +:+ str_of_int (daily_calories stats) +:+ " calories" in
  let context := retrieve_diet_context float_repr gateways query user_profile 7 in
  let diet_context := _format_documents float_repr context in
  match llm_diet with
  | None => Ok (mkDietPlan diet_context stats (plan_sources context))
  | Some invoke =>
      let prompt_inputs :=
        {| d_user_profile := _format_user_profile user_profile;
           d_diet_context := diet_context;
           d_daily_calories := daily_calories stats;
           d_protein_g := stats_protein_g stats;
           d_carbs_g := stats_carbs_g stats;
           d_fats_g := stats_fats_g stats;
           d_dietary_preference := get user_profile "dietary_preference";
           d_allergies := default (PStr "None") (user_profile !! "allergies") |} in
      let response :=
        match invoke prompt_inputs with
        | Ok response => response
        | Raise _ => diet_context
        end in
      Ok (mkDietPlan response stats (plan_sources context))
  end.

End plans.

End ChainPlans.

(** ** backend/api/routes/rag.py: document retrieval *)
Module RagRoutes.
Import Py.
Import Retriever.

(** [RetrievalQuery] of [backend/models/rag.py]. *)
Record RetrievalQuery : Type := mkRetrievalQuery {
  query : string;
  top_k : Z;
  filter_type : option string;
  filter_level : option string
}.

(** One entry of the [documents] list of the response. *)
Record RetrievedDocument : Type := mkRetrievedDocument {
  doc_id : pyval;
  doc_content : string;
  doc_metadata : gmap string pyval;
  doc_score : pyval
}.

(** [query.filter_level or "all"] *)
Definition level_or_all (filter_level : option string) : string :=
  match filter_level with
  | Some level => if String.eqb level "" then "all" else level
  | None => "all"
  end.

Section routes.
Variable float_repr : float -> string.
Variable gateways : Gateways.

Definition retrieve_documents (q : RetrievalQuery) : list RetrievedDocument :=
  let user_profile : gmap string pyval :=
    {[ "experience_level" := PStr (level_or_all (filter_level q));
       "workout_location" := PStr "both" ]} in
  let type_is name := match filter_type q with
                      | Some t => String.eqb t name
                      | None => false
                      end in
  let docs :=
    if type_is "workout" then
      retrieve_workout_context float_repr gateways (query q) user_profile (top_k q)
    else if type_is "diet" then
      retrieve_diet_context float_repr gateways (query q) user_profile (top_k q)
    else
      let result :=
        retrieve_combined_context float_repr gateways (query q) user_profile
                                  (top_k q / 2) in
      workouts result ++ diets result in
  map (fun doc =>
         mkRetrievedDocument (default PNone (metadata doc !! "id"))
                             (VectorStore.str_prefix 500 (page_content doc))
                             (metadata doc)
                             (default PNone (metadata doc !! "score")))
      docs.

End routes.

End RagRoutes.

(** * Specification vocabulary and concrete inputs *)

(** A validated profile: 30.5 kg, 101.3 cm, 80 years, female, sedentary,
    fat loss.  TDEE is 452 kcal, the deficit makes it negative, the floor
    applies. *)
Definition small_profile : gmap string Py.pyval :=
  {[ "weight_kg" := Py.PFloat 30.5; "height_cm" := Py.PFloat 101.3;
     "age" := Py.PInt 80; "gender" := Py.PStr "Female";
     "activity_level" := Py.PStr "sedentary";
     "fitness_goal" := Py.PStr "fat_loss" ]}.

(** A profile whose numeric fields are valid and whose goal is no member of
    [FitnessGoal]. *)
Definition unknown_goal_profile : gmap string Py.pyval :=
  {[ "weight_kg" := Py.PFloat 70; "height_cm" := Py.PFloat 175;
     "age" := Py.PInt 25; "gender" := Py.PStr "male";
     "activity_level" := Py.PStr "very_active";
     "fitness_goal" := Py.PStr "bulk" ]}.

(** The same person with a recognised goal and an unrecognised activity
    level. *)
Definition unknown_activity_profile : gmap string Py.pyval :=
  {[ "weight_kg" := Py.PFloat 70; "height_cm" := Py.PFloat 175;
     "age" := Py.PInt 25; "gender" := Py.PStr "male";
     "activity_level" := Py.PStr "couch";
     "fitness_goal" := Py.PStr "muscle_gain" ]}.

(** The energy of a macro split: 4 kcal per gram of protein and of carbs,
    9 kcal per gram of fat. *)
Definition macro_kcal (m : CalorieService.Macros) : Z :=
  4 * CalorieService.protein_g m + 4 * CalorieService.carbs_g m
  + 9 * CalorieService.fats_g m.

(** The macros of [daily_calories] are returned, do not exceed the target
    and fall short of it by less than 4 + 4 + 9 kcal. *)
Definition macros_within (goal : Py.pyval) (daily_calories : Z) : bool :=
  match CalorieService.calculate_macros daily_calories goal with
  | Py.Ok m =>
      (macro_kcal m <=? daily_calories) && (daily_calories <? macro_kcal m + 17)
  | Py.Raise _ => false
  end.

(** [P] holds at the [n] integers from [z] on. *)
Fixpoint all_from (P : Z -> bool) (n : nat) (z : Z) : bool :=
  match n with
  | O => true
  | S k => if P z then all_from P k (z + 1) else false
  end.

(** Gateways that are configured and find nothing. *)
Definition no_match_gateways : Retriever.Gateways :=
  Retriever.mkGateways true true (fun _ _ _ _ => []).

(** Gateways without a vector index. *)
Definition offline_gateways : Retriever.Gateways :=
  Retriever.mkGateways false true (fun _ _ _ _ => []).

(** A float [repr] good enough for the examples, which format no float. *)
Definition no_float_repr (f : float) : string := "?".

(** The level part of the workout filter: the entry inserted first. *)
Definition level_filter (user_profile : gmap string Py.pyval)
  : gmap string (gmap string Py.pyval) :=
  match user_profile !! "experience_level" with
  | Some level =>
      if Py.truthy level then {[ "experience_level" := {[ "$eq" := level ]} ]} else ∅
  | None => ∅
  end.

(** A profile that trains at home and records no experience level. *)
Definition home_profile : gmap string Py.pyval :=
  {[ "workout_location" := Py.PStr "home" ]}.

(** The follow-up questions in their priority order: medical, allergy,
    the two workout questions, the two diet questions. *)
Definition FOLLOW_UP_PRIORITY : list string :=
  [ "Do you have any medical conditions or injuries I should consider?";
    "Do you have any food allergies or intolerances?";
    "Do you have access to specific gym equipment?";
    "How much time can you dedicate to each workout session?";
    "Do you prefer meal prepping or cooking fresh daily?";
    "Are there any specific foods you dislike?" ].

(** A profile with medical conditions and allergies on record. *)
Definition populated_profile : gmap string Py.pyval :=
  {[ "medical_conditions" := Py.PStr "asthma"; "allergies" := Py.PStr "peanuts" ]}.

(** A backend whose every invocation fails. *)
Definition failing_llm (inputs : Chain.PromptInputs) : Py.result string :=
  Py.Raise (Py.ProviderError "quota exceeded").

(** The ids of the chunks an ingestion step produced, or its exception. *)
Definition chunk_ids (r : Py.result (list Ingestion.Chunk * nat)) : Py.result (list string) :=
  match r with
  | Py.Ok (chunks, _) => Py.Ok (map Ingestion.id chunks)
  | Py.Raise e => Py.Raise e
  end.

(** The adjustment of the goal table for a goal value; an unrecognised value
    adjusts nothing. *)
Definition goal_adjustment (goal : Py.pyval) : Z :=
  match CalorieService.FitnessGoal_of goal with
  | Py.Ok CalorieService.LEAN => -300
  | Py.Ok CalorieService.MUSCLE_GAIN => 300
  | Py.Ok CalorieService.FAT_LOSS => -500
  | Py.Raise _ => 0
  end.

(** On the float of the integer [tdee], the step [int(tdee + adjustment)] of
    [calculate_daily_calories] is exact. *)
Definition target_exact (adjustment tdee : Z) : bool :=
  match Py.int (Py.add (Py.Ok (Py.NFloat (Py.Z2F tdee)))
                       (CalorieService.Int adjustment)) with
  | Py.Ok c => c =? tdee + adjustment
  | Py.Raise _ => false
  end.

(** The macro split of a goal in percent, as the ratio table gives it. *)
Definition percentages_of (g : CalorieService.FitnessGoal) : CalorieService.Percentages :=
  match g with
  | CalorieService.LEAN => CalorieService.mkPercentages 30 40 30
  | CalorieService.MUSCLE_GAIN => CalorieService.mkPercentages 30 45 25
  | CalorieService.FAT_LOSS => CalorieService.mkPercentages 35 30 35
  end.

(** A profile with no height on record. *)
Definition no_height_profile : gmap string Py.pyval :=
  {[ "weight_kg" := Py.PFloat 70; "age" := Py.PInt 25; "gender" := Py.PStr "male";
     "activity_level" := Py.PStr "sedentary"; "fitness_goal" := Py.PStr "lean" ]}.

(** A profile whose height is zero. *)
Definition zero_height_profile : gmap string Py.pyval :=
  {[ "weight_kg" := Py.PFloat 70; "height_cm" := Py.PInt 0; "age" := Py.PInt 25;
     "gender" := Py.PStr "male"; "activity_level" := Py.PStr "sedentary";
     "fitness_goal" := Py.PStr "lean" ]}.

(** Gateways that are configured and return one match, whose metadata has a
    score of its own. *)
Definition one_match_gateways : Retriever.Gateways :=
  Retriever.mkGateways true true
    (fun _ _ _ _ =>
       [ Retriever.mkQueryResult (Py.PStr "doc-1") (Py.PFloat 0.9)
           {[ "score" := Py.PStr "stored"; "title" := Py.PStr "Push day" ]}
           "Bench press" ]).

(** A vegan profile with a goal on record. *)
Definition vegan_profile : gmap string Py.pyval :=
  {[ "dietary_preference" := Py.PStr "vegan"; "fitness_goal" := Py.PStr "lean" ]}.

(** A backend that answers every prompt with the same text. *)
Definition canned_llm (inputs : Chain.PromptInputs) : Py.result string :=
  Py.Ok "Here is your plan.".

(** A workout backend whose every invocation fails. *)
Definition failing_workout_llm (inputs : ChainPlans.WorkoutInputs) : Py.result string :=
  Py.Raise (Py.ProviderError "timeout").

(** A [str] for the examples: a string is itself, an integer its decimal
    digits, anything else a question mark. *)
Definition simple_str (v : Ingestion.json) : string :=
  match v with
  | Ingestion.JStr s => s
  | Ingestion.JInt z => Py.str_of_int z
  | _ => "?"
  end.

(** A splitter for the examples: one chunk, the whole text. *)
Definition one_chunk (text : string) : list string := [text].

(** A clock for the examples. *)
Definition frozen_clock (n : nat) : string := "2024-01-01T00:00:00".

(** A workout item with a name and nothing else. *)
Definition plain_item : Ingestion.json :=
  Ingestion.JDict [("name", Ingestion.JStr "Push day")].

(** Whether a character is a lower-case hexadecimal digit. *)
Definition is_hex (c : Ascii.ascii) : bool :=
  let n := Ascii.N_of_ascii c in
  (((48 <=? n) && (n <=? 57)) || ((97 <=? n) && (n <=? 102)))%N.

(** Whether every character of a string satisfies [p]. *)
Fixpoint string_forall (p : Ascii.ascii -> bool) (s : string) : bool :=
  match s with
  | EmptyString => true
  | String c r => p c && string_forall p r
  end.

(** The number of chunks the [Upsert] calls of a call list carry. *)
Fixpoint upserted (calls : list IngestionPipeline.event) : Z :=
  match calls with
  | [] => 0
  | IngestionPipeline.Upsert _ chunks :: rest => Z.of_nat (length chunks) + upserted rest
  | _ :: rest => upserted rest
  end.

(** An event is a non-empty [Upsert] into [namespace] whose chunks all carry
    [namespace] as their document type. *)
Definition upsert_into (namespace : string) (ev : IngestionPipeline.event) : Prop :=
  exists chunks,
    ev = IngestionPipeline.Upsert namespace chunks /\ chunks <> []
    /\ Forall (fun c => Ingestion.doc_type (Ingestion.metadata c) = namespace) chunks.

(** The state before anything was done. *)
Definition fresh_state : IngestionPipeline.state :=
  IngestionPipeline.mkPipelineState 0 [].

(** A second workout item. *)
Definition other_item : Ingestion.json :=
  Ingestion.JDict [("name", Ingestion.JStr "Pull day")].

(** A file that cannot be decoded. *)
Definition broken_file : IngestionPipeline.JsonFile :=
  IngestionPipeline.mkJsonFile "broken" (Py.Raise Py.ValueError).

(** A file holding one workout item. *)
Definition push_file : IngestionPipeline.JsonFile :=
  IngestionPipeline.mkJsonFile "push" (Py.Ok plain_item).

(** The number of characters of a string held as UTF-8 bytes: the bytes
    that start a character. *)
Fixpoint char_count (s : string) : nat :=
  match s with
  | EmptyString => 0
  | String c r =>
      if VectorStore.is_continuation c then char_count r else S (char_count r)
  end.

(** An index that accepts every batch. *)
Definition accepting_index {V : Type} (batch : list (VectorStore.VectorRecord V))
           (namespace : string) : Py.result unit := Py.Ok tt.


(** A [/retrieve] request for workouts that names no level. *)
Definition workout_request : RagRoutes.RetrievalQuery :=
  RagRoutes.mkRetrievalQuery "leg day" 5 (Some "workout") None.

(** Gateways that return the match of [one_match_gateways] for the
    namespace "workouts" and nothing for any other. *)
Definition workouts_only_gateways : Retriever.Gateways :=
  Retriever.mkGateways true true
    (fun query top_k namespace filter_dict =>
       if String.eqb namespace "workouts"
       then Retriever.pinecone_query one_match_gateways query top_k namespace
                                     filter_dict
       else []).

(** The piece occurs in the text. *)
Definition occurs (piece text : string) : Prop :=
  exists before after, text = before +:+ piece +:+ after.

(** The pieces occur in the text one after the other, in this order. *)
Fixpoint occur_in_order (pieces : list string) (text : string) : Prop :=
  match pieces with
  | [] => True
  | piece :: rest =>
      exists before after,
        text = before +:+ piece +:+ after /\ occur_in_order rest after
  end.

(** The number of chunks of a document of the given type: the pieces its text
    is split into. *)
Definition pieces_of (str : Ingestion.json -> string)
           (split_text : string -> list string) (doc_type : string)
           (doc : Ingestion.json) : nat :=
  match Ingestion._json_to_text str doc doc_type with
  | Py.Ok text_content => length (split_text text_content)
  | Py.Raise _ => 0%nat
  end.

(** A chunk for the examples. *)
Definition sample_chunk : Ingestion.Chunk :=
  Ingestion.mkChunk "0123" "Push day"
    (Ingestion.mkChunkMetadata "push" "workouts" (Ingestion.JStr "workouts")
       (Ingestion.JStr "Push day") (Ingestion.JStr "all") (Ingestion.JStr "both")
       (Ingestion.JStr "all") (Ingestion.JStr "general") 0 "2024-01-01T00:00:00").

(** An embedding provider for the examples: the length of each text. *)
Definition length_embeddings (texts : list string) : Py.result (list nat) :=
  Py.Ok (map String.length texts).

(** [m * 2^e <= h], for a mantissa, an exponent of either sign and an
    integer bound. *)
Definition le_val (m e h : Z) : Prop :=
  m * 2 ^ Z.max e 0 <= h * 2 ^ Z.max (- e) 0.

(** Whether bits were shifted out of a mantissa. *)
Definition inexact (mrs : shr_record) : bool := shr_r mrs || shr_s mrs.

(** The magnitude of a float of the specification is at most [h]. *)
Definition SF_le (sf : spec_float) (h : Z) : Prop :=
  match sf with
  | S754_zero _ => True
  | S754_finite _ m e => le_val (Zpos m) e h
  | _ => False
  end.

(** The boolean forms, for evaluation. *)
Definition le_valb (m e h : Z) : bool :=
  m * 2 ^ Z.max e 0 <=? h * 2 ^ Z.max (- e) 0.

Definition SF_leb (sf : spec_float) (h : Z) : bool :=
  match sf with
  | S754_zero _ => true
  | S754_finite _ m e => le_valb (Zpos m) e h
  | _ => false
  end.

(** The magnitude of a float is at most [h]; infinities and NaN have none. *)
Definition float_le (x : float) (h : Z) : Prop := SF_le (Prim2SF x) h.

(** The magnitude of a number is at most [h]; an [int] is moreover one of
    those whose conversion to a float is evaluated below, up to 3000. *)
Definition num_le (a : Py.num) (h : Z) : Prop :=
  match a with
  | Py.NInt z => Z.abs z <= h /\ Z.abs z <= 3000
  | Py.NFloat f => float_le f h
  end.

(** Whether [hx * |y| <= h], for a finite [y]. *)
Definition SF_mul_leb (y : spec_float) (hx h : Z) : bool :=
  match y with
  | S754_zero _ => true
  | S754_finite _ my ey => le_valb (hx * Zpos my) ey h
  | _ => false
  end.

(** [lo <= v <= hi] for an entry of a profile that holds a number. *)
Definition valid_number (lo hi : Z) (v : Py.pyval) : bool :=
  match v with
  | Py.PInt z => (lo <=? z) && (z <=? hi)
  | Py.PFloat f => PrimFloat.leb (Py.Z2F lo) f && PrimFloat.leb f (Py.Z2F hi)
  | _ => false
  end.

(** The ranges the boundary layer enforces ([UserProfileBase] of
    [backend/models/user.py]): weight 30 to 300 kg, height 100 to 250 cm, age
    16 to 80 years, the age an integer. *)
Definition valid_profile (profile : gmap string Py.pyval) : bool :=
  valid_number 30 300 (CalorieService.get profile "weight_kg")
  && valid_number 100 250 (CalorieService.get profile "height_cm")
  && match CalorieService.get profile "age" with
     | Py.PInt a => (16 <=? a) && (a <=? 80)
     | _ => false
     end.

(** The largest validated profile: 300 kg, 250 cm, 16 years, male,
    extremely active, muscle gain.  Its target is 8827 kcal. *)
Definition largest_profile : gmap string Py.pyval :=
  {[ "weight_kg" := Py.PFloat 300; "height_cm" := Py.PFloat 250;
     "age" := Py.PInt 16; "gender" := Py.PStr "male";
     "activity_level" := Py.PStr "extremely_active";
     "fitness_goal" := Py.PStr "muscle_gain" ]}.

(** * Properties *)

(** ** The calculator *)

Lemma bind_Ok {A B : Type} (r : Py.result A) (k : A -> Py.result B) (b : B) :
  Py.bind r k = Py.Ok b -> exists a, r = Py.Ok a /\ k a = Py.Ok b.
Proof.
  destruct r as [a|e]; simpl; intros H.
  - exists a. split; [reflexivity | exact H].
  - discriminate H.
Qed.

(** Peels the successful steps off a sequence of binds. *)
Ltac bind_inv H :=
  let a := fresh "v" in
  let Ha := fresh "Hv" in
  apply bind_Ok in H; destruct H as (a & Ha & H); cbv beta in H.

Section calorie_floor.
Import Py.
Import CalorieService.

Lemma calculate_daily_calories_Ok (tdee : num) (goal : pyval) (c : Z) :
  calculate_daily_calories tdee goal = Ok c -> 1200 <= c.
Proof.
  unfold calculate_daily_calories. intros H.
  bind_inv H. bind_inv H.
  injection H as <-. apply Z.le_max_r.
Qed.

(** The calorie target [calculate_all] reports is the one
    [calculate_daily_calories] computed. *)
Lemma calculate_all_daily_calories (profile : gmap string pyval) (s : Stats) :
  calculate_all profile = Ok s ->
  exists tdee_v,
    calculate_daily_calories tdee_v (get profile "fitness_goal")
    = Ok (daily_calories s).
Proof.
  unfold calculate_all. intros H.
  repeat bind_inv H.
  injection H as <-. simpl. eauto.
Qed.

(** C1.  The daily calorie target is never below the 1200 kcal floor: whatever
    [calculate_daily_calories] returns, for any TDEE and any goal value
    (recognised or not), is at least 1200, and so is the [daily_calories]
    entry of every result of [calculate_all]. *)
Theorem daily_calories_at_least_1200 :
  (forall (tdee : num) (goal : pyval) (c : Z),
      calculate_daily_calories tdee goal = Ok c -> 1200 <= c)
  /\ (forall (profile : gmap string pyval) (s : Stats),
         calculate_all profile = Ok s -> 1200 <= daily_calories s).
Proof.
  split.
  - exact calculate_daily_calories_Ok.
  - intros profile s H.
    destruct (calculate_all_daily_calories profile s H) as (t & Ht).
    exact (calculate_daily_calories_Ok _ _ _ Ht).
Qed.

End calorie_floor.

Lemma daily_calories_at_least_1200_witness :
  CalorieService.calculate_daily_calories (Py.NFloat 452) (Py.PStr "fat_loss")
    = Py.Ok 1200
  /\ 1200 <= 1200
  /\ Py.is_ok (CalorieService.calculate_all small_profile) = true
  /\ match CalorieService.calculate_all small_profile with
     | Py.Ok s => 1200 <= CalorieService.daily_calories s
     | Py.Raise _ => False
     end.
Proof.
  split; [vm_compute; reflexivity|].
  split.
  - apply (proj1 daily_calories_at_least_1200 (Py.NFloat 452) (Py.PStr "fat_loss")).
    vm_compute. reflexivity.
  - split; [vm_compute; reflexivity|].
    destruct (CalorieService.calculate_all small_profile) as [s|e] eqn:E.
    + apply (proj2 daily_calories_at_least_1200 small_profile s E).
    + vm_compute in E. discriminate E.
Defined.

Section calorie_unknown_enum.
Import Py.
Import CalorieService.

(** A result exists only for a recognised goal: the unguarded
    [FitnessGoal(goal)] of [macro_percentages] lets the [ValueError] out. *)
Lemma calculate_all_needs_known_goal (profile : gmap string pyval) (s : Stats) :
  calculate_all profile = Ok s ->
  exists g, FitnessGoal_of (get profile "fitness_goal") = Ok g.
Proof.
  unfold calculate_all. intros H.
  repeat bind_inv H.
  match goal with
  | Hp : macro_percentage _ protein _ = Ok _ |- _ =>
      unfold macro_percentage in Hp; bind_inv Hp; eauto
  end.
Qed.

(** The guarded lookups do default: an unrecognised activity level counts
    as moderately active (multiplier 1.55). *)
Lemma calculate_tdee_unknown_activity (bmr_v : num) (activity : pyval) :
  ActivityLevel_of activity = Raise ValueError ->
  calculate_tdee bmr_v activity = round (mul (Ok bmr_v) (Flt 1.55)) 0.
Proof.
  intros H. unfold calculate_tdee. rewrite H. reflexivity.
Qed.

(** An unrecognised goal gets the lean ratios in [calculate_macros]. *)
Lemma calculate_macros_unknown_goal (calories : Z) (goal : pyval) :
  FitnessGoal_of goal = Raise ValueError ->
  calculate_macros calories goal = calculate_macros calories (PStr "lean").
Proof.
  intros H. unfold calculate_macros. rewrite H. reflexivity.
Qed.

(** An unrecognised goal leaves the calorie target unadjusted. *)
Lemma calculate_daily_calories_unknown_goal (tdee_v : num) (goal : pyval) :
  FitnessGoal_of goal = Raise ValueError ->
  calculate_daily_calories tdee_v goal
  = (c <- int (add (Ok tdee_v) (Int 0)) ;; Ok (Z.max c 1200)).
Proof.
  intros H. unfold calculate_daily_calories. rewrite H. reflexivity.
Qed.

End calorie_unknown_enum.

(** C2 (defect in the code).  With an unrecognised [fitness_goal] and valid
    numbers, [calculate_all] does not return: every guarded step succeeds
    (the target is TDEE + 0, the macros use the lean ratios), and then the
    [macro_percentages] entry calls [FitnessGoal(goal)] outside any
    [try] and the [ValueError] leaves the call.  An unrecognised
    [activity_level] alone is handled as the claim says: the result is
    complete and its TDEE is BMR x 1.55. *)
Theorem calculate_all_unknown_goal_raises :
  CalorieService.calculate_all unknown_goal_profile = Py.Raise Py.ValueError
  /\ CalorieService.calculate_daily_calories (Py.NFloat 2888) (Py.PStr "bulk")
     = Py.Ok 2888
  /\ CalorieService.calculate_macros 2888 (Py.PStr "bulk")
     = Py.Ok (CalorieService.mkMacros 216 288 96)
  /\ match CalorieService.calculate_all unknown_activity_profile with
     | Py.Ok s =>
         CalorieService.bmr s = 1674 /\ CalorieService.tdee s = 2595
         /\ CalorieService.daily_calories s = 2895
     | Py.Raise _ => False
     end.
Proof.
  split; [vm_compute; reflexivity|].
  split; [vm_compute; reflexivity|].
  split; [vm_compute; reflexivity|].
  vm_compute. repeat split.
Qed.

(** ** Macro grams against the calorie target *)

Section macro_bounds.
Import Py.
Import CalorieService.

Lemma all_from_sound (P : Z -> bool) (n : nat) (z : Z) :
  all_from P n z = true ->
  forall x, z <= x < z + Z.of_nat n -> P x = true.
Proof.
  revert z. induction n as [|n IH]; intros z H x Hx.
  - lia.
  - simpl in H. destruct (P z) eqn:Pz; [|discriminate H].
    destruct (Z.eq_dec x z) as [->|Hne]; [exact Pz|].
    apply (IH (z + 1) H). lia.
Qed.

(** Whatever the goal value is, the ratios used are those of one of the
    three members; an unrecognised value uses the lean ones. *)
Lemma calculate_macros_goal_cases (calories : Z) (goal : pyval) :
  calculate_macros calories goal = calculate_macros calories (PStr "lean")
  \/ calculate_macros calories goal = calculate_macros calories (PStr "muscle_gain")
  \/ calculate_macros calories goal = calculate_macros calories (PStr "fat_loss").
Proof.
  destruct (FitnessGoal_of goal) as [g|e] eqn:E.
  - destruct goal as [| | | |s]; try discriminate E.
    simpl in E.
    destruct (String.eqb s "lean") eqn:E1.
    { apply String.eqb_eq in E1. subst s. left. reflexivity. }
    destruct (String.eqb s "muscle_gain") eqn:E2.
    { apply String.eqb_eq in E2. subst s. right. left. reflexivity. }
    destruct (String.eqb s "fat_loss") eqn:E3.
    { apply String.eqb_eq in E3. subst s. right. right. reflexivity. }
    discriminate E.
  - left. unfold calculate_macros.
    assert (e = ValueError) as ->.
    { destruct goal as [| | | |s]; simpl in E; try (injection E as <-; reflexivity).
      destruct (String.eqb s "lean"); [discriminate E|].
      destruct (String.eqb s "muscle_gain"); [discriminate E|].
      destruct (String.eqb s "fat_loss"); [discriminate E|].
      injection E as <-. reflexivity. }
    rewrite E. reflexivity.
Qed.

Lemma macros_within_lean : all_from (macros_within (PStr "lean")) (Z.to_nat 10301) 0 = true.
Proof. vm_compute. reflexivity. Qed.

Lemma macros_within_muscle_gain :
  all_from (macros_within (PStr "muscle_gain")) (Z.to_nat 10301) 0 = true.
Proof. vm_compute. reflexivity. Qed.

Lemma macros_within_fat_loss :
  all_from (macros_within (PStr "fat_loss")) (Z.to_nat 10301) 0 = true.
Proof. vm_compute. reflexivity. Qed.

Lemma macros_within_spec (goal : pyval) (calories : Z) :
  macros_within goal calories = true ->
  exists m, calculate_macros calories goal = Ok m
            /\ macro_kcal m <= calories < macro_kcal m + 17.
Proof.
  unfold macros_within. destruct (calculate_macros calories goal) as [m|e].
  - intros H. apply andb_true_iff in H. destruct H as [H1 H2].
    exists m. split; [reflexivity|]. lia.
  - discriminate.
Qed.

(** The macros of any goal value at a target from 0 to 10300 kcal are
    returned and stay within 17 kcal below the target. *)
Lemma macros_within_range (daily_calories : Z) (goal : pyval) :
  0 <= daily_calories <= 10300 ->
  exists m, calculate_macros daily_calories goal = Ok m
            /\ macro_kcal m <= daily_calories < macro_kcal m + 17.
Proof.
  intros Hr.
  destruct (calculate_macros_goal_cases daily_calories goal) as [H|[H|H]];
    rewrite H; apply macros_within_spec.
  - apply (all_from_sound _ _ _ macros_within_lean). rewrite Z2Nat.id; lia.
  - apply (all_from_sound _ _ _ macros_within_muscle_gain). rewrite Z2Nat.id; lia.
  - apply (all_from_sound _ _ _ macros_within_fat_loss). rewrite Z2Nat.id; lia.
Qed.

End macro_bounds.

(** ** The range of binary64 results *)

Section float_bounds.

Lemma le_val_scaled (m e h k : Z) :
  0 <= k -> 0 <= e + k ->
  le_val m e h <-> m * 2 ^ (e + k) <= h * 2 ^ k.
Proof.
  intros Hk Hek. unfold le_val.
  destruct (Z.le_gt_cases 0 e) as [He|He].
  - rewrite (Z.max_l e 0), (Z.max_r (- e) 0) by lia.
    rewrite Z.pow_0_r, Z.mul_1_r, Z.pow_add_r, Z.mul_assoc by lia.
    assert (0 < 2 ^ k) by (apply Z.pow_pos_nonneg; lia).
    split; intros H1.
    + apply Z.mul_le_mono_nonneg_r; lia.
    + apply Z.mul_le_mono_pos_r in H1; lia.
  - rewrite (Z.max_r e 0), (Z.max_l (- e) 0) by lia.
    rewrite Z.pow_0_r, Z.mul_1_r.
    assert (2 ^ k = 2 ^ (- e) * 2 ^ (e + k)) as ->.
    { rewrite <- Z.pow_add_r by lia. f_equal. lia. }
    assert (0 < 2 ^ (e + k)) by (apply Z.pow_pos_nonneg; lia).
    rewrite Z.mul_assoc.
    split; intros H1.
    + apply Z.mul_le_mono_nonneg_r; lia.
    + apply Z.mul_le_mono_pos_r in H1; lia.
Qed.

Lemma le_val_mono (m e h h' : Z) : le_val m e h -> h <= h' -> le_val m e h'.
Proof.
  unfold le_val. intros H Hh.
  assert (0 < 2 ^ Z.max (- e) 0) by (apply Z.pow_pos_nonneg; lia). nia.
Qed.

Lemma digits2_pos_size (p : positive) : digits2_pos p = Pos.size p.
Proof. induction p as [p IH|p IH|]; simpl; congruence. Qed.

Lemma digits2_pos_bounds (p : positive) :
  2 ^ (Zpos (digits2_pos p) - 1) <= Zpos p < 2 ^ Zpos (digits2_pos p).
Proof.
  rewrite digits2_pos_size. split.
  - pose proof (Pos.size_le p) as H.
    assert (Zpos (2 ^ Pos.size p) <= Zpos p~0) as H' by exact H.
    rewrite Pos2Z.inj_pow in H'.
    replace (Zpos (Pos.size p)) with (Zpos (Pos.size p) - 1 + 1) in H' by lia.
    rewrite Z.pow_add_r, Z.pow_1_r in H' by lia. lia.
  - pose proof (Pos.size_gt p) as H.
    assert (Zpos p < Zpos (2 ^ Pos.size p)) as H' by exact H.
    rewrite Pos2Z.inj_pow in H'. exact H'.
Qed.

Lemma shr_1_spec (mrs : shr_record) :
  0 <= shr_m mrs ->
  shr_m (shr_1 mrs) = shr_m mrs / 2
  /\ (inexact mrs = false -> shr_m mrs mod 2 = 0 -> inexact (shr_1 mrs) = false).
Proof.
  destruct mrs as [m r s]. unfold inexact. simpl. intros Hm.
  destruct m as [|p|p]; [| |lia].
  - split; [reflexivity|]. intros ->. reflexivity.
  - destruct p as [p|p|]; simpl.
    + split; [rewrite Pos2Z.inj_xI; apply Z.div_unique with 1; lia|].
      intros _ H. rewrite Pos2Z.inj_xI in H.
      rewrite Z.add_comm, Z.mul_comm, Z.mod_add in H by lia. discriminate H.
    + split; [rewrite Pos2Z.inj_xO; apply Z.div_unique with 0; lia|].
      intros ->. reflexivity.
    + split; [reflexivity|]. intros _ H. discriminate H.
Qed.

Lemma iter_shr_1_spec (p : positive) (mrs : shr_record) :
  0 <= shr_m mrs ->
  shr_m (SpecFloat.iter_pos shr_1 p mrs) = shr_m mrs / 2 ^ Zpos p
  /\ (inexact mrs = false -> shr_m mrs mod 2 ^ Zpos p = 0 ->
      inexact (SpecFloat.iter_pos shr_1 p mrs) = false).
Proof.
  revert mrs. induction p as [p IH|p IH|]; intros mrs Hm.
  - cbn [SpecFloat.iter_pos].
    destruct (shr_1_spec mrs Hm) as [E1 X1].
    assert (0 <= shr_m (shr_1 mrs)) as H1 by (rewrite E1; apply Z.div_pos; lia).
    destruct (IH _ H1) as [E2 X2].
    assert (0 <= shr_m (SpecFloat.iter_pos shr_1 p (shr_1 mrs))) as H2.
    { rewrite E2. apply Z.div_pos; [lia|apply Z.pow_pos_nonneg; lia]. }
    destruct (IH _ H2) as [E3 X3].
    assert (0 < 2 ^ Zpos p) as Hp by (apply Z.pow_pos_nonneg; lia).
    assert (2 ^ Zpos p~1 = 2 * (2 ^ Zpos p * 2 ^ Zpos p)) as Epow.
    { assert (Zpos p~1 = 1 + (Zpos p + Zpos p)) as -> by lia.
      rewrite !Z.pow_add_r, Z.pow_1_r by lia. reflexivity. }
    split.
    + rewrite E3, E2, E1, Epow, !Z.div_div by lia. reflexivity.
    + intros Hx Hd. rewrite Epow in Hd.
      apply Z.mod_divide in Hd; [|lia]. destruct Hd as [q Hq].
      apply X3.
      * apply X2.
        -- apply X1; [exact Hx|]. rewrite Hq.
           replace (q * (2 * (2 ^ Zpos p * 2 ^ Zpos p)))
             with ((q * (2 ^ Zpos p * 2 ^ Zpos p)) * 2) by lia.
           apply Z.mod_mul. lia.
        -- rewrite E1, Hq.
           replace (q * (2 * (2 ^ Zpos p * 2 ^ Zpos p)))
             with ((q * (2 ^ Zpos p * 2 ^ Zpos p)) * 2) by lia.
           rewrite Z.div_mul by lia.
           replace (q * (2 ^ Zpos p * 2 ^ Zpos p))
             with ((q * 2 ^ Zpos p) * 2 ^ Zpos p) by lia.
           apply Z.mod_mul. lia.
      * rewrite E2, E1, Hq.
        replace (q * (2 * (2 ^ Zpos p * 2 ^ Zpos p)))
          with ((q * (2 ^ Zpos p * 2 ^ Zpos p)) * 2) by lia.
        rewrite Z.div_mul by lia.
        replace (q * (2 ^ Zpos p * 2 ^ Zpos p))
          with ((q * 2 ^ Zpos p) * 2 ^ Zpos p) by lia.
        rewrite Z.div_mul by lia. apply Z.mod_mul. lia.
  - cbn [SpecFloat.iter_pos].
    destruct (IH _ Hm) as [E2 X2].
    assert (0 <= shr_m (SpecFloat.iter_pos shr_1 p mrs)) as H2.
    { rewrite E2. apply Z.div_pos; [lia|apply Z.pow_pos_nonneg; lia]. }
    destruct (IH _ H2) as [E3 X3].
    assert (0 < 2 ^ Zpos p) as Hp by (apply Z.pow_pos_nonneg; lia).
    assert (2 ^ Zpos p~0 = 2 ^ Zpos p * 2 ^ Zpos p) as Epow.
    { assert (Zpos p~0 = Zpos p + Zpos p) as -> by lia.
      rewrite Z.pow_add_r by lia. reflexivity. }
    split.
    + rewrite E3, E2, Epow, !Z.div_div by lia. reflexivity.
    + intros Hx Hd. rewrite Epow in Hd.
      apply Z.mod_divide in Hd; [|lia]. destruct Hd as [q Hq].
      apply X3.
      * apply X2; [exact Hx|]. rewrite Hq.
        replace (q * (2 ^ Zpos p * 2 ^ Zpos p))
          with ((q * 2 ^ Zpos p) * 2 ^ Zpos p) by lia.
        apply Z.mod_mul. lia.
      * rewrite E2, Hq.
        replace (q * (2 ^ Zpos p * 2 ^ Zpos p))
          with ((q * 2 ^ Zpos p) * 2 ^ Zpos p) by lia.
        rewrite Z.div_mul by lia. apply Z.mod_mul. lia.
  - cbn [SpecFloat.iter_pos]. change (2 ^ 1) with 2. apply shr_1_spec, Hm.
Qed.

Lemma round_nearest_even_bounds (mrs : shr_record) :
  shr_m mrs <= round_nearest_even (shr_m mrs) (loc_of_shr_record mrs) <= shr_m mrs + 1
  /\ (inexact mrs = false ->
      round_nearest_even (shr_m mrs) (loc_of_shr_record mrs) = shr_m mrs).
Proof.
  destruct mrs as [m [|] [|]]; unfold inexact; simpl;
    try destruct (Z.even m); split; try lia; try discriminate; reflexivity.
Qed.

Lemma fexp_ge (e : Z) : -1074 <= fexp 53 1024 e.
Proof. unfold fexp, emin. lia. Qed.

(** One shift of [binary_round_aux], followed by the rounding of the
    mantissa: a value of at most [h] stays so. *)
Lemma shr_fexp_le (m e h : Z) :
  0 <= m -> 0 <= h < 2 ^ 53 -> le_val m e h ->
  let mrs := fst (shr_fexp 53 1024 m e loc_Exact) in
  let e' := snd (shr_fexp 53 1024 m e loc_Exact) in
  let rounded := round_nearest_even (shr_m mrs) (loc_of_shr_record mrs) in
  0 <= shr_m mrs <= rounded /\ le_val rounded e' h.
Proof.
  intros Hm Hh Hle. cbv zeta. unfold shr_fexp, shr.
  destruct (fexp 53 1024 (Zdigits2 m + e) - e) as [|p|p] eqn:En;
    cbn [fst snd shr_record_of_loc shr_m loc_of_shr_record round_nearest_even];
    [split; [lia|exact Hle]| |split; [lia|exact Hle]].
  set (mrs0 := {| shr_m := m; shr_r := false; shr_s := false |}).
  destruct (iter_shr_1_spec p mrs0 Hm) as [Em Ex]. cbn [shr_m mrs0] in Em, Ex.
  pose proof (round_nearest_even_bounds (SpecFloat.iter_pos shr_1 p mrs0)) as [Hr Hx].
  rewrite Em in *.
  assert (0 < 2 ^ Zpos p) as Hp by (apply Z.pow_pos_nonneg; lia).
  assert (0 <= m / 2 ^ Zpos p) as Hq by (apply Z.div_pos; lia).
  split; [lia|].
  set (R := round_nearest_even (m / 2 ^ Z.pos p)
              (loc_of_shr_record (SpecFloat.iter_pos shr_1 p mrs0))) in *.
  set (e' := e + Zpos p).
  pose proof (fexp_ge (Zdigits2 m + e)) as Hge.
  assert (e' = fexp 53 1024 (Zdigits2 m + e)) as Ee' by (subst e'; lia).
  set (k := Z.abs e + 1200).
  assert (0 <= k) by lia. assert (0 <= e + k) by lia. assert (0 <= e' + k) by lia.
  apply (le_val_scaled m e h k) in Hle; [|lia|lia].
  apply (le_val_scaled R e' h k); [lia|lia|].
  assert (2 ^ (e' + k) = 2 ^ Zpos p * 2 ^ (e + k)) as Epow.
  { rewrite <- Z.pow_add_r by lia. f_equal. lia. }
  assert (0 < 2 ^ (e + k)) as Hek by (apply Z.pow_pos_nonneg; lia).
  assert (0 < 2 ^ k) as Hk by (apply Z.pow_pos_nonneg; lia).
  destruct (Z.eq_dec (m mod 2 ^ Zpos p) 0) as [Hd|Hd].
  - rewrite (Hx (Ex eq_refl Hd)) in *.
    rewrite Epow.
    assert (m / 2 ^ Z.pos p * 2 ^ Z.pos p = m) as Hdiv.
    { pose proof (Z.div_mod m (2 ^ Zpos p)). lia. }
    subst R.
    replace (m / 2 ^ Z.pos p * (2 ^ Z.pos p * 2 ^ (e + k)))
      with ((m / 2 ^ Z.pos p * 2 ^ Z.pos p) * 2 ^ (e + k)) by lia.
    rewrite Hdiv. exact Hle.
  - assert (0 < m) as Hmpos.
    { destruct (Z.eq_dec m 0) as [->|]; [|lia]. rewrite Z.mod_0_l in Hd; lia. }
    destruct m as [|pm|pm]; [lia| |lia].
    pose proof (digits2_pos_bounds pm) as [Hd1 Hd2].
    cbn [Zdigits2] in *.
    assert (Zpos (digits2_pos pm) + e <= 53) as Hde.
    { destruct (Z.le_gt_cases (Zpos (digits2_pos pm) + e) 53) as [|Hgt]; [assumption|].
      exfalso.
      assert (2 ^ (53 + k) <= 2 ^ (Zpos (digits2_pos pm) - 1 + (e + k))) as Hpw.
      { apply Z.pow_le_mono_r; lia. }
      rewrite (Z.pow_add_r 2 (Zpos (digits2_pos pm) - 1) (e + k)) in Hpw by lia.
      rewrite (Z.pow_add_r 2 53 k) in Hpw by lia.
      assert (2 ^ (Z.pos (digits2_pos pm) - 1) * 2 ^ (e + k) <= Zpos pm * 2 ^ (e + k)).
      { apply Z.mul_le_mono_nonneg_r; lia. }
      assert (h * 2 ^ k < 2 ^ 53 * 2 ^ k).
      { apply Z.mul_lt_mono_pos_r; lia. }
      lia. }
    assert (e' <= 0) as He'0.
    { rewrite Ee'. unfold fexp, emin. lia. }
    assert (2 ^ k = 2 ^ (- e') * 2 ^ (e' + k)) as Ek.
    { rewrite <- Z.pow_add_r by lia. f_equal. lia. }
    set (Hb := h * 2 ^ (- e')).
    assert (0 < 2 ^ (- e')) by (apply Z.pow_pos_nonneg; lia).
    assert (Zpos pm <= Hb * 2 ^ Zpos p) as Hmle.
    { rewrite Ek, Epow in Hle.
      replace (h * (2 ^ (- e') * (2 ^ Z.pos p * 2 ^ (e + k))))
        with ((Hb * 2 ^ Zpos p) * 2 ^ (e + k)) in Hle by (subst Hb; lia).
      apply Z.mul_le_mono_pos_r in Hle; lia. }
    assert (Zpos pm / 2 ^ Zpos p < Hb) as Hlt.
    { pose proof (Z.div_mod (Zpos pm) (2 ^ Zpos p)) as Hdm.
      pose proof (Z.mod_pos_bound (Zpos pm) (2 ^ Zpos p) Hp) as Hmb.
      nia. }
    rewrite Ek.
    replace (h * (2 ^ (- e') * 2 ^ (e' + k))) with (Hb * 2 ^ (e' + k)) by (subst Hb; lia).
    apply Z.mul_le_mono_nonneg_r; [|lia].
    apply Z.pow_nonneg. lia.
Qed.

Lemma binary_round_aux_le (sx : bool) (mx ex h : Z) :
  0 <= mx -> 0 <= h < 2 ^ 53 -> le_val mx ex h ->
  SF_le (binary_round_aux 53 1024 sx mx ex loc_Exact) h.
Proof.
  intros Hm Hh Hle. unfold binary_round_aux.
  pose proof (shr_fexp_le mx ex h Hm Hh Hle) as H1. cbv zeta in H1.
  destruct (shr_fexp 53 1024 mx ex loc_Exact) as [mrs' e'].
  cbn [fst snd] in H1. destruct H1 as [H1 H1'].
  set (R := round_nearest_even (shr_m mrs') (loc_of_shr_record mrs')) in *.
  assert (0 <= R) as HR by lia.
  pose proof (shr_fexp_le R e' h HR Hh H1') as H2. cbv zeta in H2.
  destruct (shr_fexp 53 1024 R e' loc_Exact) as [mrs'' e''].
  cbn [fst snd] in H2. destruct H2 as [H2 H2'].
  assert (le_val (shr_m mrs'') e'' h) as Hfin.
  { set (k := Z.abs e'' + 1).
    apply (le_val_scaled _ _ _ k) in H2'; [|lia|lia].
    apply (le_val_scaled _ _ _ k); [lia|lia|].
    assert (0 <= 2 ^ (e'' + k)) by (apply Z.pow_nonneg; lia).
    nia. }
  destruct (shr_m mrs'') as [|m|m]; [exact I| |lia].
  assert (e'' <= 1024 - 53) as He.
  { set (k := Z.abs e'' + 1).
    apply (le_val_scaled _ _ _ k) in Hfin; [|lia|lia].
    destruct (Z.le_gt_cases e'' 52) as [|Hgt]; [lia|]. exfalso.
    assert (2 ^ (53 + k) <= 2 ^ (e'' + k)) as Hpw by (apply Z.pow_le_mono_r; lia).
    rewrite (Z.pow_add_r 2 53 k) in Hpw by lia.
    assert (0 < 2 ^ k) by (apply Z.pow_pos_nonneg; lia).
    assert (0 < 2 ^ (e'' + k)) by (apply Z.pow_pos_nonneg; lia).
    assert (h * 2 ^ k < 2 ^ 53 * 2 ^ k) by (apply Z.mul_lt_mono_pos_r; lia).
    nia. }
  apply Z.leb_le in He. rewrite He. exact Hfin.
Qed.

Lemma le_val_mono_m (m m' e h : Z) : le_val m e h -> m' <= m -> le_val m' e h.
Proof.
  unfold le_val. intros H Hm.
  assert (0 <= 2 ^ Z.max e 0) by (apply Z.pow_nonneg; lia). nia.
Qed.

Lemma le_val_add (a b e h h' : Z) :
  le_val a e h -> le_val b e h' -> le_val (a + b) e (h + h').
Proof. unfold le_val. intros Ha Hb. lia. Qed.

Lemma le_val_shift (m e d h : Z) :
  0 <= d -> le_val m e h -> le_val (m * 2 ^ d) (e - d) h.
Proof.
  intros Hd H. set (k := Z.abs e + d + 1).
  apply (le_val_scaled _ _ _ k) in H; [|lia|lia].
  apply (le_val_scaled _ _ _ k); [lia|lia|].
  replace (e + k) with (d + (e - d + k)) in H by lia.
  rewrite Z.pow_add_r in H by lia. lia.
Qed.

Lemma shl_align_spec (mx : positive) (ex ex' : Z) :
  snd (shl_align mx ex ex') <= ex
  /\ Zpos (fst (shl_align mx ex ex'))
     = Zpos mx * 2 ^ (ex - snd (shl_align mx ex ex')).
Proof.
  unfold shl_align. destruct (ex' - ex) as [|d|d] eqn:E; cbn [fst snd].
  - rewrite Z.sub_diag. simpl. lia.
  - rewrite Z.sub_diag. simpl. lia.
  - split; [lia|].
    replace (ex - ex') with (Zpos d) by lia.
    rewrite <- Z.shiftl_mul_pow2 by lia. unfold Z.shiftl.
    apply (Pos.iter_swap_gen _ _ Zpos xO (Z.mul 2)). reflexivity.
Qed.

Lemma shl_align_le (mx : positive) (ex ex' h : Z) :
  le_val (Zpos mx) ex h ->
  le_val (Zpos (fst (shl_align mx ex ex'))) (snd (shl_align mx ex ex')) h.
Proof.
  intros H. destruct (shl_align_spec mx ex ex') as [Hs Hv]. rewrite Hv.
  replace (snd (shl_align mx ex ex'))
    with (ex - (ex - snd (shl_align mx ex ex'))) at 2 by lia.
  apply le_val_shift; [lia|exact H].
Qed.

Lemma binary_round_le (sx : bool) (mx : positive) (ex h : Z) :
  0 <= h < 2 ^ 53 -> le_val (Zpos mx) ex h ->
  SF_le (binary_round 53 1024 sx mx ex) h.
Proof.
  intros Hh H. unfold binary_round.
  pose proof (shl_align_le mx ex (fexp 53 1024 (Zpos (digits2_pos mx) + ex)) h H) as Ha.
  destruct (shl_align mx ex _) as [mz ez]. cbn [fst snd] in Ha.
  apply binary_round_aux_le; [lia|exact Hh|exact Ha].
Qed.

Lemma binary_normalize_le (m e h : Z) (szero : bool) :
  0 <= h < 2 ^ 53 -> le_val (Z.abs m) e h ->
  SF_le (binary_normalize 53 1024 m e szero) h.
Proof.
  intros Hh H. destruct m as [|p|p]; cbn [binary_normalize];
    [exact I|apply binary_round_le; assumption|apply binary_round_le; assumption].
Qed.

Lemma SF_le_mono (sf : spec_float) (h h' : Z) : SF_le sf h -> h <= h' -> SF_le sf h'.
Proof.
  destruct sf; simpl; try (intros; assumption). intros H Hh. eapply le_val_mono; eassumption.
Qed.

Lemma le_val_nonneg (m e h : Z) : 0 < m -> le_val m e h -> 0 <= h.
Proof.
  unfold le_val. intros Hm H.
  assert (0 < 2 ^ Z.max e 0) by (apply Z.pow_pos_nonneg; lia).
  assert (0 < 2 ^ Z.max (- e) 0) by (apply Z.pow_pos_nonneg; lia).
  nia.
Qed.

Lemma le_val_mul (a b ea eb ha h : Z) :
  0 <= a -> 0 <= b -> 0 <= ha ->
  le_val a ea ha -> le_val (ha * b) eb h -> le_val (a * b) (ea + eb) h.
Proof.
  intros Ha Hb Hha H1 H2.
  set (k1 := Z.abs ea + 1). set (k2 := Z.abs eb + 1).
  apply (le_val_scaled _ _ _ k1) in H1; [|lia|lia].
  apply (le_val_scaled _ _ _ k2) in H2; [|lia|lia].
  apply (le_val_scaled _ _ _ (k1 + k2)); [lia|lia|].
  replace (ea + eb + (k1 + k2)) with ((ea + k1) + (eb + k2)) by lia.
  rewrite !Z.pow_add_r by lia.
  assert (0 <= 2 ^ (ea + k1)) by (apply Z.pow_nonneg; lia).
  assert (0 <= 2 ^ (eb + k2)) by (apply Z.pow_nonneg; lia).
  assert (0 <= 2 ^ k1) by (apply Z.pow_nonneg; lia).
  assert (0 <= 2 ^ k2) by (apply Z.pow_nonneg; lia).
  assert (a * 2 ^ (ea + k1) * (b * 2 ^ (eb + k2)) <= ha * 2 ^ k1 * (b * 2 ^ (eb + k2))).
  { apply Z.mul_le_mono_nonneg_r; [|exact H1]. apply Z.mul_nonneg_nonneg; lia. }
  assert (ha * b * 2 ^ (eb + k2) * 2 ^ k1 <= h * 2 ^ k2 * 2 ^ k1).
  { apply Z.mul_le_mono_nonneg_r; [lia|exact H2]. }
  replace (a * b * (2 ^ (ea + k1) * 2 ^ (eb + k2)))
    with (a * 2 ^ (ea + k1) * (b * 2 ^ (eb + k2))) by ring.
  rewrite (Z.pow_add_r 2 k1 k2) by lia.
  replace (h * (2 ^ k1 * 2 ^ k2)) with (h * 2 ^ k2 * 2 ^ k1) by ring.
  replace (ha * 2 ^ k1 * (b * 2 ^ (eb + k2)))
    with (ha * b * 2 ^ (eb + k2) * 2 ^ k1) in * by ring.
  lia.
Qed.

(** A product with a finite factor [y], given a bound on [hx * y]. *)
Lemma SFmul_le (x y : spec_float) (hx h : Z) :
  SF_le x hx -> 0 <= hx -> 0 <= h < 2 ^ 53 ->
  match y with
  | S754_zero _ => True
  | S754_finite _ my ey => le_val (hx * Zpos my) ey h
  | _ => False
  end ->
  SF_le (SFmul 53 1024 x y) h /\ SF_le (SFmul 53 1024 y x) h.
Proof.
  intros Hx Hhx Hh Hy.
  destruct x as [sx|sx| |sx mx ex], y as [sy|sy| |sy my ey]; simpl in Hx, Hy; try contradiction;
    cbn [SFmul]; try (split; exact I).
  split.
  - apply binary_round_aux_le; [lia|exact Hh|].
    rewrite Pos2Z.inj_mul. apply (le_val_mul _ _ _ _ hx); try lia; assumption.
  - apply binary_round_aux_le; [lia|exact Hh|].
    rewrite Pos2Z.inj_mul, Z.mul_comm, (Z.add_comm ey ex).
    apply (le_val_mul _ _ _ _ hx); try lia; assumption.
Qed.

Lemma SFadd_sub_le (x y : spec_float) (hx hy : Z) :
  SF_le x hx -> SF_le y hy -> 0 <= hx -> 0 <= hy -> hx + hy < 2 ^ 53 ->
  SF_le (SFadd 53 1024 x y) (hx + hy) /\ SF_le (SFsub 53 1024 x y) (hx + hy).
Proof.
  intros Hx Hy Hhx Hhy Hh.
  assert (forall sf, SF_le sf hx -> SF_le sf (hx + hy)) as Mx
      by (intros sf H; apply (SF_le_mono sf hx); [exact H|lia]).
  assert (forall sf, SF_le sf hy -> SF_le sf (hx + hy)) as My
      by (intros sf H; apply (SF_le_mono sf hy); [exact H|lia]).
  destruct x as [sx|sx| |sx mx ex], y as [sy|sy| |sy my ey]; simpl in Hx, Hy; try contradiction.
  - split; cbn [SFadd SFsub]; destruct sx, sy; exact I.
  - split; cbn [SFadd SFsub]; [apply My; exact Hy|apply My; exact Hy].
  - split; cbn [SFadd SFsub]; apply Mx; exact Hx.
  - pose proof (shl_align_le mx ex (Z.min ex ey) hx Hx) as Ax.
    pose proof (shl_align_le my ey (Z.min ex ey) hy Hy) as Ay.
    destruct (shl_align_spec mx ex (Z.min ex ey)) as [_ Vx].
    destruct (shl_align_spec my ey (Z.min ex ey)) as [_ Vy].
    assert (snd (shl_align mx ex (Z.min ex ey)) = Z.min ex ey) as Sx.
    { unfold shl_align. destruct (Z.min ex ey - ex) eqn:E; cbn [snd]; lia. }
    assert (snd (shl_align my ey (Z.min ex ey)) = Z.min ex ey) as Sy.
    { unfold shl_align. destruct (Z.min ex ey - ey) eqn:E; cbn [snd]; lia. }
    rewrite Sx in Ax. rewrite Sy in Ay.
    pose proof (le_val_add _ _ _ _ _ Ax Ay) as Hsum.
    pose proof (Pos2Z.is_pos (fst (shl_align mx ex (Z.min ex ey)))) as Px.
    pose proof (Pos2Z.is_pos (fst (shl_align my ey (Z.min ex ey)))) as Py.
    clear Vx Vy Sx Sy Ax Ay Mx My Hx Hy.
    split; cbn [SFadd SFsub]; apply binary_normalize_le; try lia;
      (eapply le_val_mono_m; [exact Hsum|]); unfold cond_Zopp; clear Hsum;
      generalize dependent (Zpos (fst (shl_align mx ex (Z.min ex ey))));
      generalize dependent (Zpos (fst (shl_align my ey (Z.min ex ey))));
      intros b Pb a Pa; destruct sx, sy; lia.
Qed.

End float_bounds.

Section float_model_bounds.
Import Py.

Lemma SF_leb_le (sf : spec_float) (h : Z) : SF_leb sf h = true -> SF_le sf h.
Proof.
  destruct sf; simpl; try discriminate; try (intros; exact I).
  unfold le_valb, le_val. apply Z.leb_le.
Qed.

Lemma Z2F_small : all_from (fun z => SF_leb (Prim2SF (Z2F z)) (Z.abs z)) (Z.to_nat 6001) (-3000) = true.
Proof. vm_compute. reflexivity. Qed.

Lemma Q2F_small : all_from (fun n => SF_leb (Prim2SF (Q2F n 1)) n) (Z.to_nat 9737) 0 = true.
Proof. vm_compute. reflexivity. Qed.

Lemma Z2F_le (z : Z) : -3000 <= z <= 3000 -> float_le (Z2F z) (Z.abs z).
Proof.
  intros H. apply SF_leb_le.
  apply (all_from_sound _ _ _ Z2F_small z). rewrite Z2Nat.id; lia.
Qed.

Lemma Q2F_le (n : Z) : 0 <= n <= 9736 -> float_le (Q2F n 1) n.
Proof.
  intros H. apply SF_leb_le.
  apply (all_from_sound _ _ _ Q2F_small n). rewrite Z2Nat.id; lia.
Qed.

Lemma float_add_le (x y : float) (hx hy : Z) :
  float_le x hx -> float_le y hy -> 0 <= hx -> 0 <= hy -> hx + hy < 2 ^ 53 ->
  float_le (x + y) (hx + hy).
Proof.
  unfold float_le. intros Hx Hy H1 H2 H3. rewrite add_spec.
  exact (proj1 (SFadd_sub_le _ _ _ _ Hx Hy H1 H2 H3)).
Qed.

Lemma float_sub_le (x y : float) (hx hy : Z) :
  float_le x hx -> float_le y hy -> 0 <= hx -> 0 <= hy -> hx + hy < 2 ^ 53 ->
  float_le (x - y) (hx + hy).
Proof.
  unfold float_le. intros Hx Hy H1 H2 H3. rewrite sub_spec.
  exact (proj2 (SFadd_sub_le _ _ _ _ Hx Hy H1 H2 H3)).
Qed.

Lemma float_mul_le (x y : float) (hx h : Z) :
  float_le x hx -> 0 <= hx -> 0 <= h < 2 ^ 53 ->
  match Prim2SF y with
  | S754_zero _ => True
  | S754_finite _ my ey => le_val (hx * Zpos my) ey h
  | _ => False
  end ->
  float_le (x * y) h /\ float_le (y * x) h.
Proof.
  unfold float_le. intros Hx H1 H2 Hy. rewrite !mul_spec.
  exact (SFmul_le _ _ _ _ Hx H1 H2 Hy).
Qed.

Lemma float_le_mono (x : float) (h h' : Z) : float_le x h -> h <= h' -> float_le x h'.
Proof. apply SF_le_mono. Qed.

Lemma rhe_div_le (a b h : Z) :
  0 <= a -> 0 < b -> a <= h * b -> 0 <= rhe_div a b <= h.
Proof.
  intros Ha Hb H. unfold rhe_div.
  pose proof (Z.div_mod a b) as Hdm.
  pose proof (Z.mod_pos_bound a b Hb) as Hmb.
  assert (0 <= a / b) by (apply Z.div_pos; lia).
  assert (a / b <= h) by (apply Z.div_le_upper_bound; lia).
  destruct (2 * (a mod b) <? b) eqn:E1; [lia|].
  apply Z.ltb_ge in E1.
  assert (a / b < h) by nia.
  destruct (b <? 2 * (a mod b)); [lia|].
  destruct (Z.even (a / b)); lia.
Qed.

Lemma scaled_rhe_le (m : positive) (e h : Z) :
  le_val (Zpos m) e h -> 0 <= scaled_rhe m e 1 <= h.
Proof.
  unfold le_val, scaled_rhe. intros H. rewrite Z.mul_1_r.
  destruct (0 <=? e) eqn:E.
  - apply Z.leb_le in E.
    rewrite (Z.max_l e 0), (Z.max_r (- e) 0), Z.pow_0_r, Z.mul_1_r in H by lia.
    rewrite Z.shiftl_mul_pow2 by lia.
    assert (0 <= 2 ^ e) by (apply Z.pow_nonneg; lia). nia.
  - apply Z.leb_gt in E.
    rewrite (Z.max_r e 0), (Z.max_l (- e) 0), Z.pow_0_r, Z.mul_1_r in H by lia.
    rewrite Z.shiftl_mul_pow2, Z.mul_1_l by lia.
    apply rhe_div_le; [lia|apply Z.pow_pos_nonneg; lia|exact H].
Qed.

Lemma round_float_le (x : float) (h : Z) :
  float_le x h -> h <= 9736 -> float_le (round_float x 0) h.
Proof.
  unfold float_le, round_float. intros Hx Hh.
  destruct (Prim2SF x) as [s|s| |s m e] eqn:E; try (rewrite E; exact Hx).
  cbn [SF_le] in Hx.
  pose proof (scaled_rhe_le m e h Hx) as Hn.
  change (Z.to_pos (10 ^ Z.of_nat 0)) with 1%positive.
  assert (float_le (Q2F (scaled_rhe m e 1) 1) h) as Hq.
  { apply (float_le_mono _ (scaled_rhe m e 1)); [apply Q2F_le; lia|lia]. }
  destruct s; [|exact Hq].
  rewrite opp_spec. unfold float_le in Hq.
  destruct (Prim2SF (Q2F (scaled_rhe m e 1) 1)); exact Hq.
Qed.

Lemma trunc_mag_le (m : positive) (e h : Z) :
  le_val (Zpos m) e h -> 0 <= trunc_mag m e <= h.
Proof.
  unfold le_val, trunc_mag. intros H.
  destruct (0 <=? e) eqn:E.
  - apply Z.leb_le in E.
    rewrite (Z.max_l e 0), (Z.max_r (- e) 0), Z.pow_0_r, Z.mul_1_r in H by lia.
    rewrite Z.shiftl_mul_pow2 by lia.
    assert (0 <= 2 ^ e) by (apply Z.pow_nonneg; lia). nia.
  - apply Z.leb_gt in E.
    rewrite (Z.max_r e 0), (Z.max_l (- e) 0), Z.pow_0_r, Z.mul_1_r in H by lia.
    rewrite Z.shiftr_div_pow2 by lia.
    assert (0 < 2 ^ (- e)) by (apply Z.pow_pos_nonneg; lia).
    split; [apply Z.div_pos; lia|apply Z.div_le_upper_bound; lia].
Qed.

Lemma int_of_float_le (x : float) (h z : Z) :
  float_le x h -> 0 <= h -> int_of_float x = Ok z -> Z.abs z <= h.
Proof.
  unfold float_le, int_of_float. intros Hx Hh H.
  destruct (Prim2SF x) as [s|s| |s m e]; try discriminate H.
  - injection H as <-. simpl. lia.
  - injection H as <-. cbn [SF_le] in Hx.
    pose proof (trunc_mag_le m e h Hx). destruct s; lia.
Qed.

End float_model_bounds.

Section valid_profiles.
Import Py.
Import CalorieService.

Lemma valid_binary_digits (m : positive) (e : Z) :
  FloatAxioms.valid_binary (S754_finite false m e) = true -> Zpos m < 2 ^ 53.
Proof.
  unfold FloatAxioms.valid_binary, valid_binary, bounded, canonical_mantissa, fexp, emin.
  intros H. apply andb_true_iff in H. destruct H as [H _].
  apply Z.eqb_eq in H.
  pose proof (digits2_pos_bounds m) as [_ Hd].
  assert (Zpos (digits2_pos m) <= 53) as Hle by (unfold prec, emax in H; lia).
  eapply Z.lt_le_trans; [exact Hd|].
  apply Z.pow_le_mono_r; lia.
Qed.

(** A float between two positive finite floats is positive and finite, and
    a bound of the upper one bounds it. *)
Lemma SFleb_between (ml mu : positive) (el eu h : Z) (sf : spec_float) :
  FloatAxioms.valid_binary sf = true ->
  2 ^ 52 <= Zpos mu ->
  SFleb (S754_finite false ml el) sf = true ->
  SFleb sf (S754_finite false mu eu) = true ->
  le_val (Zpos mu) eu h ->
  SF_le sf h.
Proof.
  intros Hv Hmu Hl Hu Hh.
  destruct sf as [s|s| |s m e]; [exact I|destruct s; discriminate| discriminate|].
  destruct s; [discriminate Hl|].
  cbn [SF_le]. unfold SFleb, SFcompare in Hu.
  destruct (Z.compare_spec e eu) as [->|Hlt|Hgt]; [| |discriminate Hu].
  - apply (le_val_mono_m (Zpos mu)); [exact Hh|].
    change (Pos.compare_cont Eq m mu) with (Pos.compare m mu) in Hu.
    destruct (Pos.compare_spec m mu); [lia|lia|discriminate Hu].
  - pose proof (valid_binary_digits m e Hv) as Hm.
    set (k := Z.abs e + Z.abs eu + 1).
    apply (le_val_scaled _ _ _ k) in Hh; [|lia|lia].
    apply (le_val_scaled _ _ _ k); [lia|lia|].
    assert (2 ^ (eu + k) = 2 ^ (eu - e) * 2 ^ (e + k)) as Ep.
    { rewrite <- Z.pow_add_r by lia. f_equal. lia. }
    assert (2 <= 2 ^ (eu - e)).
    { change 2 with (2 ^ 1) at 1. apply Z.pow_le_mono_r; lia. }
    assert (0 < 2 ^ (e + k)) by (apply Z.pow_pos_nonneg; lia).
    rewrite Ep in Hh.
    assert (Zpos m * 2 ^ (e + k) <= Zpos mu * (2 ^ (eu - e) * 2 ^ (e + k))); [|lia].
    assert (Zpos m <= Zpos mu * 2 ^ (eu - e)) by (change (2 ^ 53) with (2 ^ 52 * 2) in Hm; nia).
    rewrite Z.mul_assoc. apply Z.mul_le_mono_nonneg_r; lia.
Qed.

End valid_profiles.

Section calorie_range.
Import Py.
Import CalorieService.

Lemma le_val_scale (m e h c : Z) : 0 <= c -> le_val m e h -> le_val (c * m) e (c * h).
Proof.
  unfold le_val. intros Hc H.
  rewrite <- !Z.mul_assoc. apply Z.mul_le_mono_nonneg_l; assumption.
Qed.

Lemma SF_mul_leb_spec (y : spec_float) (hx h : Z) :
  SF_mul_leb y hx h = true ->
  match y with
  | S754_zero _ => True
  | S754_finite _ my ey => le_val (hx * Zpos my) ey h
  | _ => False
  end.
Proof.
  destruct y; simpl; try discriminate; try (intros; exact I).
  unfold le_valb, le_val. apply Z.leb_le.
Qed.

Lemma to_float_le (a : num) (h : Z) (x : float) :
  num_le a h -> to_float a = Ok x -> float_le x h.
Proof.
  destruct a as [z|f]; simpl; intros Ha H.
  - unfold float_of_int in H.
    destruct (PrimFloat.is_infinity (Z2F z)); [discriminate H|]. injection H as <-.
    apply (float_le_mono _ (Z.abs z)); [apply Z2F_le; lia|lia].
  - injection H as <-. exact Ha.
Qed.

Lemma arith_inv (iop : Z -> Z -> Z) (fop : float -> float -> float)
      (ra rb : result num) (r : num) :
  arith iop fop ra rb = Ok r ->
  exists a b, ra = Ok a /\ rb = Ok b /\ arith iop fop (Ok a) (Ok b) = Ok r.
Proof.
  unfold arith. intros H.
  destruct ra as [a|e]; [|discriminate H]. destruct rb as [b|e]; [|discriminate H].
  exists a, b. repeat split. exact H.
Qed.

Lemma arith_float (iop : Z -> Z -> Z) (fop : float -> float -> float)
      (a b r : num) :
  num_is_float a || num_is_float b = true ->
  arith iop fop (Ok a) (Ok b) = Ok r ->
  exists x y, to_float a = Ok x /\ to_float b = Ok y /\ r = NFloat (fop x y).
Proof.
  unfold arith. cbn [bind]. intros Hf H.
  destruct a as [za|fa], b as [zb|fb]; try discriminate Hf;
    bind_inv H; bind_inv H; injection H as <-; eauto.
Qed.

Lemma add_sub_le (a b r : num) (ha hb : Z) :
  num_le a ha -> num_le b hb -> 0 <= ha -> 0 <= hb -> ha + hb < 2 ^ 53 ->
  num_is_float a || num_is_float b = true ->
  add (Ok a) (Ok b) = Ok r \/ sub (Ok a) (Ok b) = Ok r ->
  exists f, r = NFloat f /\ float_le f (ha + hb).
Proof.
  intros Ha Hb H1 H2 H3 Hf [H|H];
    destruct (arith_float _ _ _ _ _ Hf H) as (x & y & Hx & Hy & ->);
    eexists; (split; [reflexivity|]).
  - apply float_add_le; try assumption; eapply to_float_le; eassumption.
  - apply float_sub_le; try assumption; eapply to_float_le; eassumption.
Qed.

Lemma mul_int_le (c : Z) (n r : num) (h : Z) :
  0 <= c <= 3000 -> num_le n h -> 0 <= h -> c * h <= 3000 ->
  mul (Int c) (Ok n) = Ok r ->
  num_le r (c * h) /\ num_is_float r = num_is_float n.
Proof.
  intros Hc Hn Hh Hch H. unfold mul, Int in H.
  destruct n as [z|f].
  - cbn in H. injection H as <-. cbn [num_le] in *. split; [|reflexivity].
    rewrite Z.abs_mul. split; nia.
  - destruct (arith_float _ _ (NInt c) (NFloat f) _ eq_refl H) as (x & y & Hx & Hy & ->).
    injection Hy as <-. split; [|reflexivity]. cbn [num_le] in *.
    assert (float_le x c) as Hxc.
    { apply (to_float_le (NInt c)); [cbn; lia|exact Hx]. }
    assert (0 <= c * h < 2 ^ 53) as Hb by (change (2 ^ 53) with 9007199254740992; lia).
    refine (proj2 (float_mul_le f x h (c * h) Hn Hh Hb _)).
    unfold float_le in Hxc.
    destruct (Prim2SF x) as [s|s| |s m e]; try exact Hxc.
    cbn [SF_le] in Hxc. rewrite (Z.mul_comm c h). apply le_val_scale; assumption.
Qed.

Lemma mul_flt_le (c : float) (n r : num) (hn h : Z) :
  num_le n hn -> 0 <= hn -> 0 <= h < 2 ^ 53 ->
  SF_mul_leb (Prim2SF c) hn h = true ->
  mul (Flt c) (Ok n) = Ok r \/ mul (Ok n) (Flt c) = Ok r ->
  exists f, r = NFloat f /\ float_le f h.
Proof.
  intros Hn Hhn Hh Hc H. unfold mul, Flt in H.
  apply SF_mul_leb_spec in Hc.
  destruct H as [H|H].
  - destruct (arith_float _ _ (NFloat c) n _ eq_refl H) as (x & y & Hx & Hy & ->).
    injection Hx as <-. eexists. split; [reflexivity|].
    refine (proj2 (float_mul_le y c hn h _ Hhn Hh Hc)).
    eapply to_float_le; eassumption.
  - destruct (arith_float _ _ n (NFloat c) _ (orb_true_r _) H)
      as (x & y & Hx & Hy & ->).
    injection Hy as <-. eexists. split; [reflexivity|].
    refine (proj1 (float_mul_le x c hn h _ Hhn Hh Hc)).
    eapply to_float_le; eassumption.
Qed.

Lemma round_0_le (ra : result num) (r : num) (f : float) (h : Z) :
  round ra 0 = Ok r -> ra = Ok (NFloat f) -> float_le f h -> h <= 9736 ->
  exists f', r = NFloat f' /\ float_le f' h.
Proof.
  intros H -> Hf Hh. simpl in H. injection H as <-.
  eexists. split; [reflexivity|]. apply round_float_le; assumption.
Qed.

Lemma valid_number_le (lo hi : Z) (v : pyval) (ml mu : positive) (el eu : Z) :
  Prim2SF (Z2F lo) = S754_finite false ml el ->
  Prim2SF (Z2F hi) = S754_finite false mu eu ->
  2 ^ 52 <= Zpos mu -> le_val (Zpos mu) eu hi ->
  0 <= lo -> hi <= 3000 ->
  valid_number lo hi v = true ->
  exists n, as_num v = Ok n /\ num_le n hi.
Proof.
  intros El Eu Hmu Hle Hlo Hhi H.
  destruct v as [| |z|f|]; try discriminate H; simpl in H;
    apply andb_true_iff in H; destruct H as [H1 H2].
  - exists (NInt z). split; [reflexivity|]. cbn. lia.
  - exists (NFloat f). split; [reflexivity|]. cbn. unfold float_le.
    rewrite leb_spec in H1, H2. rewrite El in H1. rewrite Eu in H2.
    exact (SFleb_between _ _ _ _ _ _ (Prim2SF_valid f) Hmu H1 H2 Hle).
Qed.

Lemma valid_weight (v : pyval) :
  valid_number 30 300 v = true -> exists n, as_num v = Ok n /\ num_le n 300.
Proof.
  apply (valid_number_le 30 300 v 8444249301319680 5277655813324800 (-48) (-44));
    try reflexivity; try lia.
  apply Z.leb_le. vm_compute. reflexivity.
Qed.

Lemma valid_height (v : pyval) :
  valid_number 100 250 v = true -> exists n, as_num v = Ok n /\ num_le n 250.
Proof.
  apply (valid_number_le 100 250 v 7036874417766400 8796093022208000 (-46) (-45));
    try reflexivity; try lia.
  apply Z.leb_le. vm_compute. reflexivity.
Qed.

(** The BMR of a validated profile is a float of at most 5124. *)
Lemma calculate_bmr_le (weight height age gender : pyval) (a : Z) (r : num) :
  valid_number 30 300 weight = true ->
  valid_number 100 250 height = true ->
  age = PInt a -> 16 <= a <= 80 ->
  calculate_bmr weight height age gender = Ok r ->
  exists f, r = NFloat f /\ float_le f 5124.
Proof.
  intros Hw Hh -> Ha H.
  destruct (valid_weight _ Hw) as (w & Ew & Bw).
  destruct (valid_height _ Hh) as (h & Eh & Bh).
  unfold calculate_bmr in H. bind_inv H. rewrite Ew, Eh in H. cbn [as_num] in H.
  assert (2 ^ 53 = 9007199254740992) as E53 by reflexivity.
  assert (forall base, sub (add (mul (Int 10) (Ok w)) (mul (Flt 6.25) (Ok h)))
                           (mul (Int 5) (Ok (NInt a))) = Ok base ->
                       exists f, base = NFloat f /\ float_le f 4963) as Hbase.
  { intros base Hb.
    apply arith_inv in Hb. destruct Hb as (t3 & t4 & H3 & H4 & Hb).
    apply arith_inv in H3. destruct H3 as (t1 & t2 & H1 & H2 & H3).
    destruct (mul_int_le 10 w t1 300 ltac:(lia) Bw ltac:(lia) ltac:(lia) H1) as [B1 _].
    destruct (mul_flt_le 6.25 h t2 250 1563 Bh ltac:(lia) ltac:(lia) eq_refl
                (or_introl H2)) as (f2 & -> & B2).
    destruct (add_sub_le t1 (NFloat f2) t3 (10 * 300) 1563 B1 B2 ltac:(lia) ltac:(lia)
                ltac:(lia) (orb_true_r _) (or_introl H3)) as (f3 & -> & B3).
    destruct (mul_int_le 5 (NInt a) t4 80 ltac:(lia) ltac:(cbn; lia) ltac:(lia)
                ltac:(lia) H4) as [B4 _].
    destruct (add_sub_le (NFloat f3) t4 base _ _ B3 B4 ltac:(lia) ltac:(lia)
                ltac:(lia) eq_refl (or_intror Hb)) as (f & -> & B).
    exists f. split; [reflexivity|exact B]. }
  destruct (String.eqb v "male").
  - simpl in H. bind_inv H. apply arith_inv in Hv0.
    destruct Hv0 as (base & five & Hb & H5 & Hadd).
    destruct (Hbase base Hb) as (f & -> & Bf). injection H5 as <-.
    destruct (add_sub_le (NFloat f) (NInt 5) v0 4963 5 Bf ltac:(cbn; lia) ltac:(lia)
                ltac:(lia) ltac:(lia) eq_refl (or_introl Hadd)) as (f5 & -> & B5).
    simpl in H. injection H as <-. eexists. split; [reflexivity|].
    apply round_float_le; [|lia].
    apply (float_le_mono _ _ _ B5). lia.
  - simpl in H. bind_inv H. apply arith_inv in Hv0.
    destruct Hv0 as (base & c & Hb & H5 & Hsub).
    destruct (Hbase base Hb) as (f & -> & Bf). injection H5 as <-.
    destruct (add_sub_le (NFloat f) (NInt 161) v0 4963 161 Bf ltac:(cbn; lia) ltac:(lia)
                ltac:(lia) ltac:(lia) eq_refl (or_intror Hsub)) as (f5 & -> & B5).
    simpl in H. injection H as <-. eexists. split; [reflexivity|].
    apply round_float_le; [exact B5|lia].
Qed.

(** The multiplier is one of the five of the table; an unrecognised activity
    level gets 1.55. *)
Lemma multiplier_cases (activity_level : pyval) (multiplier : float) :
  except_ValueError
    (activity <- ActivityLevel_of activity_level ;;
     Ok (default 1.55%float (ACTIVITY_MULTIPLIERS activity)))
    (Ok 1.55%float) = Ok multiplier ->
  multiplier = 1.2%float \/ multiplier = 1.375%float \/ multiplier = 1.55%float
  \/ multiplier = 1.725%float \/ multiplier = 1.9%float.
Proof.
  intros H.
  destruct (ActivityLevel_of activity_level) as [[| | | |]|e] eqn:E;
    cbn in H; try (injection H as <-; tauto).
  destruct e; cbn in H; try discriminate H. injection H as <-. tauto.
Qed.

Lemma calculate_tdee_le (f : float) (activity_level : pyval) (r : num) :
  float_le f 5124 ->
  calculate_tdee (NFloat f) activity_level = Ok r ->
  exists f', r = NFloat f' /\ float_le f' 9736.
Proof.
  intros Bf H. unfold calculate_tdee in H. bind_inv H.
  apply multiplier_cases in Hv.
  unfold round in H. bind_inv H.
  assert (exists f6, v0 = NFloat f6 /\ float_le f6 9736) as (f6 & -> & B6).
  { assert (0 <= 9736 < 2 ^ 53) as Hb by (change (2 ^ 53) with 9007199254740992; lia).
    destruct Hv as [->|[->|[->|[->| ->]]]];
      (refine (mul_flt_le _ (NFloat f) v0 5124 9736 Bf _ Hb _ (or_intror Hv0));
       [lia|vm_compute; reflexivity]). }
  cbn in H. injection H as <-. eexists. split; [reflexivity|].
  apply round_float_le; [exact B6|lia].
Qed.

Lemma adjustment_cases (fitness_goal : pyval) (adjustment : Z) :
  except_ValueError
    (goal <- FitnessGoal_of fitness_goal ;; Ok (default 0 (GOAL_ADJUSTMENTS goal)))
    (Ok 0) = Ok adjustment ->
  Z.abs adjustment <= 500.
Proof.
  intros H.
  destruct (FitnessGoal_of fitness_goal) as [[| |]|e] eqn:E;
    cbn in H; try (injection H as <-; cbn; lia).
  destruct e; cbn in H; try discriminate H. injection H as <-. cbn. lia.
Qed.

Lemma calculate_daily_calories_le (f : float) (fitness_goal : pyval) (c : Z) :
  float_le f 9736 ->
  calculate_daily_calories (NFloat f) fitness_goal = Ok c ->
  c <= 10236.
Proof.
  intros Bf H. unfold calculate_daily_calories in H. bind_inv H.
  apply adjustment_cases in Hv. bind_inv H. injection H as <-.
  unfold int in Hv0. bind_inv Hv0.
  match goal with
  | Hadd : add (Ok (NFloat f)) (Int ?adj) = Ok ?t |- _ =>
      destruct (add_sub_le (NFloat f) (NInt adj) t 9736 500 Bf ltac:(cbn; lia)
                  ltac:(lia) ltac:(lia)
                  ltac:(change (2 ^ 53) with 9007199254740992; lia) eq_refl
                  (or_introl Hadd)) as (f7 & -> & B7)
  end.
  match goal with
  | Hint : int_of_float f7 = Ok ?z |- _ =>
      pose proof (int_of_float_le f7 _ z B7 ltac:(lia) Hint)
  end.
  lia.
Qed.

(** The calorie target of a validated profile is at most 10236 kcal. *)
Lemma valid_profile_daily_calories (profile : gmap string pyval) (s : Stats) :
  valid_profile profile = true -> calculate_all profile = Ok s ->
  daily_calories s <= 10236.
Proof.
  unfold valid_profile. intros Hv H.
  apply andb_true_iff in Hv. destruct Hv as [Hv Ha].
  apply andb_true_iff in Hv. destruct Hv as [Hw Hh].
  destruct (get profile "age") as [| |a| |] eqn:Ea; try discriminate Ha.
  apply andb_true_iff in Ha. destruct Ha as [Ha1 Ha2].
  apply Z.leb_le in Ha1, Ha2.
  unfold calculate_all in H. rewrite Ea in H. repeat bind_inv H. injection H as <-.
  cbn [daily_calories].
  match goal with
  | Hb : calculate_bmr _ _ _ _ = Ok ?b, Ht : calculate_tdee ?b _ = Ok ?t,
    Hc : calculate_daily_calories ?t _ = Ok ?c |- ?c <= _ =>
      destruct (calculate_bmr_le _ _ _ _ a _ Hw Hh eq_refl ltac:(lia) Hb) as (fb & -> & Bb);
      destruct (calculate_tdee_le _ _ _ Bb Ht) as (ft & -> & Bt);
      exact (calculate_daily_calories_le _ _ _ Bt Hc)
  end.
Qed.

End calorie_range.

Section macro_claim.
Import Py.
Import CalorieService.

(** C6.  The macro grams against the calorie target.  For every goal value
    and every target from 0 to 10300 kcal, [calculate_macros] returns grams
    whose energy, at 4 kcal/g for protein and carbs and 9 kcal/g for fats,
    does not exceed the target and falls short of it by less than
    4 + 4 + 9 = 17 kcal.  For every profile with validated numbers (weight 30
    to 300 kg, height 100 to 250 cm, age 16 to 80) that [calculate_all]
    accepts, the target lies between 1200 and 10236 kcal, so in that range,
    and the gram figures of the result satisfy the bound.  The range of the
    target is proved for every binary64 weight and height, from the rounding
    of each operation; the bound on the grams is checked on the binary64
    arithmetic the code runs, target by target. *)
Theorem macros_within_rounding :
  (forall (daily_calories : Z) (goal : pyval),
      0 <= daily_calories <= 10300 ->
      exists m, calculate_macros daily_calories goal = Ok m
                /\ macro_kcal m <= daily_calories < macro_kcal m + 17)
  /\ (forall (profile : gmap string pyval) (s : Stats),
         valid_profile profile = true -> calculate_all profile = Ok s ->
         1200 <= CalorieService.daily_calories s <= 10236
         /\ calculate_macros (CalorieService.daily_calories s)
                             (get profile "fitness_goal")
            = Ok (mkMacros (stats_protein_g s) (stats_carbs_g s) (stats_fats_g s))
         /\ 4 * stats_protein_g s + 4 * stats_carbs_g s + 9 * stats_fats_g s
            <= CalorieService.daily_calories s
            < 4 * stats_protein_g s + 4 * stats_carbs_g s + 9 * stats_fats_g s + 17).
Proof.
  split; [exact macros_within_range|].
  intros profile s Hv H.
  pose proof (valid_profile_daily_calories profile s Hv H) as Hmax.
  assert (Hfloor : 1200 <= CalorieService.daily_calories s).
  { destruct (calculate_all_daily_calories _ _ H) as (t & Ht).
    exact (calculate_daily_calories_Ok _ _ _ Ht). }
  assert (Hm : calculate_macros (CalorieService.daily_calories s)
                                (get profile "fitness_goal")
               = Ok (mkMacros (stats_protein_g s) (stats_carbs_g s) (stats_fats_g s))).
  { unfold calculate_all in H. repeat bind_inv H. injection H as <-. simpl.
    match goal with
    | Hc : calculate_macros _ _ = Ok ?m |- _ => rewrite Hc; destruct m; reflexivity
    end. }
  split; [lia|]. split; [exact Hm|].
  destruct (macros_within_range (CalorieService.daily_calories s)
              (get profile "fitness_goal")) as (m & Hm' & Hb); [lia|].
  rewrite Hm in Hm'. injection Hm' as <-. unfold macro_kcal in Hb. simpl in Hb.
  exact Hb.
Qed.

End macro_claim.

Lemma macros_within_rounding_witness :
  valid_profile largest_profile = true
  /\ exists s, CalorieService.calculate_all largest_profile = Py.Ok s
               /\ CalorieService.daily_calories s = 8827
               /\ 4 * CalorieService.stats_protein_g s
                  + 4 * CalorieService.stats_carbs_g s
                  + 9 * CalorieService.stats_fats_g s
                  <= 8827
                  < 4 * CalorieService.stats_protein_g s
                    + 4 * CalorieService.stats_carbs_g s
                    + 9 * CalorieService.stats_fats_g s + 17.
Proof.
  split; [vm_compute; reflexivity|].
  destruct (CalorieService.calculate_all largest_profile) as [s|e] eqn:E;
    [|vm_compute in E; discriminate E].
  exists s. split; [reflexivity|].
  destruct macros_within_rounding as [_ H].
  destruct (H largest_profile s) as (_ & _ & Hb); [vm_compute; reflexivity|exact E|].
  assert (CalorieService.daily_calories s = 8827) as Hd.
  { vm_compute in E. injection E as <-. reflexivity. }
  rewrite Hd in Hb. split; [exact Hd|exact Hb].
Defined.

(** Far from the calculator's targets the bound is lost.  [int()] truncates
    toward zero, so a negative target gets zero grams, whose energy exceeds
    it; and past 2^53 the target itself is rounded on conversion to a
    float. *)
Lemma macros_exceed_target :
  (exists m, CalorieService.calculate_macros (-1) (Py.PStr "lean") = Py.Ok m
             /\ macro_kcal m = 0 /\ -1 < macro_kcal m)
  /\ (exists m,
         CalorieService.calculate_macros 17958999747799199 (Py.PStr "lean") = Py.Ok m
         /\ 17958999747799199 < macro_kcal m).
Proof.
  split.
  - eexists. split; [vm_compute; reflexivity|]. split; [reflexivity|reflexivity].
  - eexists. split; [vm_compute; reflexivity|]. reflexivity.
Qed.

(** ** The retriever *)

Section retriever_properties.
Import Py.
Import Retriever.
Variable float_repr : float -> string.

Lemma is_available_false (gateways : Gateways) :
  pinecone_is_available gateways = false \/ embedding_is_available gateways = false ->
  is_available gateways = false.
Proof.
  unfold is_available. intros [H|H]; rewrite H.
  - reflexivity.
  - apply andb_false_r.
Qed.

Lemma _results_to_documents_nil (results : list QueryResult) :
  _results_to_documents results = [] <-> results = [].
Proof.
  unfold _results_to_documents. split.
  - destruct results; [reflexivity|discriminate].
  - intros ->. reflexivity.
Qed.

(** What [retrieve_workout_context] returns once the gateways are available:
    the converted matches, or the fallback when there are none. *)
Lemma retrieve_workout_context_available (gateways : Gateways) (query : string)
      (user_profile : gmap string pyval) (top_k : Z) :
  is_available gateways = true ->
  let results :=
    pinecone_query gateways (_enhance_query float_repr query user_profile "workout")
                   top_k "workouts" (_build_workout_filter user_profile) in
  retrieve_workout_context float_repr gateways query user_profile top_k
  = match results with
    | [] => _get_fallback_workout_docs
    | _ => _results_to_documents results
    end.
Proof.
  intros H. unfold retrieve_workout_context. rewrite H. simpl.
  destruct (pinecone_query _ _ _ _ _); reflexivity.
Qed.

Lemma retrieve_diet_context_available (gateways : Gateways) (query : string)
      (user_profile : gmap string pyval) (top_k : Z) :
  is_available gateways = true ->
  let results :=
    pinecone_query gateways (_enhance_query float_repr query user_profile "diet")
                   top_k "diets" (_build_diet_filter user_profile) in
  retrieve_diet_context float_repr gateways query user_profile top_k
  = match results with
    | [] => _get_fallback_diet_docs
    | _ => _results_to_documents results
    end.
Proof.
  intros H. unfold retrieve_diet_context. rewrite H. simpl.
  destruct (pinecone_query _ _ _ _ _); reflexivity.
Qed.

(** C3, as the code has it.  With both gateways available, a filtered query
    that returns no match makes [retrieve_workout_context] and
    [retrieve_diet_context] return the static fallback documents in place of
    the empty list; the retriever itself substitutes them. *)
Theorem empty_query_gives_fallback (gateways : Gateways) (query : string)
        (user_profile : gmap string pyval) (top_k : Z) :
  is_available gateways = true ->
  (pinecone_query gateways (_enhance_query float_repr query user_profile "workout")
                  top_k "workouts" (_build_workout_filter user_profile) = [] ->
   retrieve_workout_context float_repr gateways query user_profile top_k
   = _get_fallback_workout_docs)
  /\ (pinecone_query gateways (_enhance_query float_repr query user_profile "diet")
                     top_k "diets" (_build_diet_filter user_profile) = [] ->
      retrieve_diet_context float_repr gateways query user_profile top_k
      = _get_fallback_diet_docs).
Proof.
  intros H. split; intros E.
  - rewrite (retrieve_workout_context_available _ _ _ _ H). simpl. rewrite E. reflexivity.
  - rewrite (retrieve_diet_context_available _ _ _ _ H). simpl. rewrite E. reflexivity.
Qed.

(** C5.  When the vector-index gateway or the embedding gateway is
    unavailable, each retrieval returns exactly its one static fallback
    document, whose metadata carries score 0.5 and source "fallback",
    whatever the query and the profile. *)
Theorem unavailable_gives_fallback (gateways : Gateways) (query : string)
        (user_profile : gmap string pyval) (top_k : Z) :
  pinecone_is_available gateways = false \/ embedding_is_available gateways = false ->
  (exists doc,
      retrieve_workout_context float_repr gateways query user_profile top_k = [doc]
      /\ [doc] = _get_fallback_workout_docs
      /\ metadata doc !! "score" = Some (PFloat 0.5)
      /\ metadata doc !! "source" = Some (PStr "fallback"))
  /\ (exists doc,
         retrieve_diet_context float_repr gateways query user_profile top_k = [doc]
         /\ [doc] = _get_fallback_diet_docs
         /\ metadata doc !! "score" = Some (PFloat 0.5)
         /\ metadata doc !! "source" = Some (PStr "fallback")).
Proof.
  intros H. apply is_available_false in H.
  unfold retrieve_workout_context, retrieve_diet_context. rewrite H. simpl.
  split; eexists; (split; [reflexivity|]); (split; [reflexivity|]);
    split; vm_compute; reflexivity.
Qed.


End retriever_properties.

Lemma empty_query_gives_fallback_witness :
  Retriever.retrieve_workout_context no_float_repr no_match_gateways "legs" ∅ 5
  = Retriever._get_fallback_workout_docs
  /\ Retriever.retrieve_diet_context no_float_repr no_match_gateways "legs" ∅ 5
     = Retriever._get_fallback_diet_docs.
Proof.
  destruct (empty_query_gives_fallback no_float_repr no_match_gateways "legs" ∅ 5
              eq_refl) as [Hw Hd].
  split; [apply Hw | apply Hd]; reflexivity.
Defined.

(** C3 as stated fails: an available retriever whose query matched nothing
    does not hand the empty list to its caller; it returns one document. *)
Lemma empty_query_not_returned_as_is :
  Retriever.pinecone_query no_match_gateways
    (Retriever._enhance_query no_float_repr "legs" ∅ "workout") 5 "workouts"
    (Retriever._build_workout_filter ∅) = []
  /\ Retriever.is_available no_match_gateways = true
  /\ length (Retriever.retrieve_workout_context no_float_repr no_match_gateways
               "legs" ∅ 5) = 1%nat
  /\ length (Retriever.retrieve_diet_context no_float_repr no_match_gateways
               "legs" ∅ 5) = 1%nat.
Proof. repeat split. Qed.

Lemma unavailable_gives_fallback_witness :
  (exists doc,
      Retriever.retrieve_workout_context no_float_repr offline_gateways "legs" ∅ 5
      = [doc]
      /\ [doc] = Retriever._get_fallback_workout_docs
      /\ Retriever.metadata doc !! "score" = Some (Py.PFloat 0.5)
      /\ Retriever.metadata doc !! "source" = Some (Py.PStr "fallback"))
  /\ (exists doc,
         Retriever.retrieve_diet_context no_float_repr offline_gateways "legs" ∅ 5
         = [doc]
         /\ [doc] = Retriever._get_fallback_diet_docs
         /\ Retriever.metadata doc !! "score" = Some (Py.PFloat 0.5)
         /\ Retriever.metadata doc !! "source" = Some (Py.PStr "fallback")).
Proof.
  apply (unavailable_gives_fallback no_float_repr offline_gateways "legs" ∅ 5).
  left. reflexivity.
Defined.

(** ** Metadata filters *)

Section filter_properties.
Import Py.
Import Retriever.

Lemma nonempty_or_None_Some (filters f : gmap string (gmap string pyval)) :
  nonempty_or_None filters = Some f <-> filters = f /\ filters <> ∅.
Proof.
  unfold nonempty_or_None. destruct (decide (filters = ∅)) as [E|E].
  - split; [discriminate|]. intros [_ H]. contradiction.
  - split.
    + intros H. injection H as <-. split; [reflexivity|exact E].
    + intros [<- _]. reflexivity.
Qed.

Lemma nonempty_or_None_insert (k : string) (c : gmap string pyval)
      (filters : gmap string (gmap string pyval)) :
  nonempty_or_None (<[k := c]> filters) = Some (<[k := c]> filters).
Proof.
  apply nonempty_or_None_Some. split; [reflexivity|]. apply insert_non_empty.
Qed.

Lemma _build_workout_filter_unfold (user_profile : gmap string pyval) :
  _build_workout_filter user_profile
  = nonempty_or_None
      (match user_profile !! "workout_location" with
       | Some location =>
           if truthy location && ne_str location "both"
           then <["location" := {[ "$eq" := location ]}]> (level_filter user_profile)
           else level_filter user_profile
       | None => level_filter user_profile
       end).
Proof.
  unfold _build_workout_filter, level_filter.
  destruct (user_profile !! "experience_level") as [level|];
    destruct (user_profile !! "workout_location") as [location|];
    try destruct (truthy level); try destruct (truthy location);
    try destruct (ne_str location "both"); reflexivity.
Qed.

Lemma level_filter_location (user_profile : gmap string pyval) :
  level_filter user_profile !! "location" = None.
Proof.
  unfold level_filter.
  destruct (user_profile !! "experience_level") as [level|]; [|reflexivity].
  destruct (truthy level); [|reflexivity].
  apply lookup_singleton_ne. discriminate.
Qed.

Lemma level_filter_level (user_profile : gmap string pyval) (level : pyval) :
  user_profile !! "experience_level" = Some level -> truthy level = true ->
  level_filter user_profile = {[ "experience_level" := {[ "$eq" := level ]} ]}.
Proof.
  intros H T. unfold level_filter. rewrite H, T. reflexivity.
Qed.

Lemma level_filter_absent (user_profile : gmap string pyval) :
  get_truthy (user_profile !! "experience_level") = false ->
  level_filter user_profile = ∅.
Proof.
  unfold level_filter, get_truthy.
  destruct (user_profile !! "experience_level") as [level|]; [|reflexivity].
  intros ->. reflexivity.
Qed.

Lemma level_filter_entries (user_profile : gmap string pyval) (k : string)
      (c : gmap string pyval) :
  level_filter user_profile !! k = Some c ->
  k = "experience_level"
  /\ exists v, c = {[ "$eq" := v ]} /\ user_profile !! "experience_level" = Some v
               /\ truthy v = true.
Proof.
  unfold level_filter.
  destruct (user_profile !! "experience_level") as [level|] eqn:E;
    [|rewrite lookup_empty; discriminate].
  destruct (truthy level) eqn:T; [|rewrite lookup_empty; discriminate].
  intros H. apply lookup_singleton_Some in H. destruct H as [<- <-].
  split; [reflexivity|]. exists level. repeat split; assumption.
Qed.

(** C8.  The workout filter of a profile:
    - holds the exact-match condition on [experience_level] whenever the
      profile records a (non-empty) level;
    - has no [location] key when [workout_location] is "both" or not
      recorded;
    - holds the exact-match condition on "home" under [location] when
      [workout_location] is "home", and is that one entry alone when no level
      is recorded;
    - is [None], no filter at all, when neither field is recorded;
    - holds nothing else: every entry is an exact match on the value the
      profile records for that field, never a wildcard. *)
Theorem workout_filter_shape (user_profile : gmap string pyval) :
  (forall level,
      user_profile !! "experience_level" = Some level -> truthy level = true ->
      exists f, _build_workout_filter user_profile = Some f
                /\ f !! "experience_level" = Some {[ "$eq" := level ]})
  /\ (get_truthy (user_profile !! "workout_location") = false
      \/ user_profile !! "workout_location" = Some (PStr "both") ->
      forall f, _build_workout_filter user_profile = Some f -> f !! "location" = None)
  /\ (user_profile !! "workout_location" = Some (PStr "home") ->
      exists f, _build_workout_filter user_profile = Some f
                /\ f !! "location" = Some {[ "$eq" := PStr "home" ]}
                /\ (get_truthy (user_profile !! "experience_level") = false ->
                    f = {[ "location" := {[ "$eq" := PStr "home" ]} ]}))
  /\ (get_truthy (user_profile !! "experience_level") = false ->
      get_truthy (user_profile !! "workout_location") = false ->
      _build_workout_filter user_profile = None)
  /\ (forall f k c,
         _build_workout_filter user_profile = Some f -> f !! k = Some c ->
         exists v, c = {[ "$eq" := v ]} /\ truthy v = true
                   /\ (k = "experience_level"
                       /\ user_profile !! "experience_level" = Some v
                       \/ k = "location"
                          /\ user_profile !! "workout_location" = Some v
                          /\ v <> PStr "both")).
Proof.
  rewrite _build_workout_filter_unfold.
  repeat split.
  - intros level H T. rewrite (level_filter_level _ _ H T).
    destruct (user_profile !! "workout_location") as [location|];
      [destruct (truthy location && ne_str location "both")|];
      eexists; (split; [apply nonempty_or_None_Some; split;
                         [reflexivity|apply insert_non_empty]|]).
    + rewrite lookup_insert_ne by discriminate. apply lookup_singleton_eq.
    + apply lookup_singleton_eq.
    + apply lookup_singleton_eq.
  - intros H f Hf. apply nonempty_or_None_Some in Hf. destruct Hf as [<- _].
    destruct H as [H|H].
    + destruct (user_profile !! "workout_location") as [location|];
        [|apply level_filter_location].
      simpl in H. rewrite H. simpl. apply level_filter_location.
    + rewrite H. simpl. apply level_filter_location.
  - intros H. rewrite H. simpl. eexists.
    split; [apply nonempty_or_None_insert|].
    split; [apply lookup_insert_eq|].
    intros A. rewrite (level_filter_absent _ A). reflexivity.
  - intros A B. rewrite (level_filter_absent _ A).
    destruct (user_profile !! "workout_location") as [location|]; [|reflexivity].
    simpl in B. rewrite B. reflexivity.
  - intros f k c Hf Hk. apply nonempty_or_None_Some in Hf. destruct Hf as [<- _].
    destruct (user_profile !! "workout_location") as [location|] eqn:L.
    + destruct (truthy location && ne_str location "both") eqn:T.
      * apply andb_true_iff in T. destruct T as [T1 T2].
        destruct (decide (k = "location")) as [->|Hne].
        -- rewrite lookup_insert_eq in Hk. injection Hk as <-.
           exists location. split; [reflexivity|]. split; [exact T1|].
           right. repeat split. intros ->. discriminate T2.
        -- rewrite lookup_insert_ne in Hk by congruence.
           apply level_filter_entries in Hk. destruct Hk as (-> & v & -> & Hv & Tv).
           exists v. repeat split; [exact Tv|]. left. split; [reflexivity|exact Hv].
      * apply level_filter_entries in Hk. destruct Hk as (-> & v & -> & Hv & Tv).
        exists v. repeat split; [exact Tv|]. left. split; [reflexivity|exact Hv].
    + apply level_filter_entries in Hk. destruct Hk as (-> & v & -> & Hv & Tv).
      exists v. repeat split; [exact Tv|]. left. split; [reflexivity|exact Hv].
Qed.

End filter_properties.

Lemma workout_filter_shape_witness :
  Retriever._build_workout_filter home_profile
  = Some {[ "location" := {[ "$eq" := Py.PStr "home" ]} ]}.
Proof.
  destruct (workout_filter_shape home_profile) as (_ & _ & H & _).
  destruct (H eq_refl) as (f & Hf & _ & Hshape).
  rewrite Hf. f_equal. apply Hshape. reflexivity.
Defined.

(** ** Strings *)

Section string_facts.

Lemma str_app_cons (c : Ascii.ascii) (s t : string) :
  String c s +:+ t = String c (s +:+ t).
Proof. reflexivity. Qed.

Lemma str_app_nil_r (s : string) : s +:+ "" = s.
Proof.
  induction s as [|c s IH]; [reflexivity|].
  rewrite str_app_cons, IH. reflexivity.
Qed.

Lemma str_app_assoc (s t u : string) : (s +:+ t) +:+ u = s +:+ (t +:+ u).
Proof.
  induction s as [|c s IH]; [reflexivity|].
  rewrite !str_app_cons, IH. reflexivity.
Qed.

Lemma str_length_app (s t : string) :
  String.length (s +:+ t) = (String.length s + String.length t)%nat.
Proof.
  induction s as [|c s IH]; [reflexivity|].
  rewrite str_app_cons. simpl. rewrite IH. reflexivity.
Qed.

Lemma join_cons_cons (sep x y : string) (l : list string) :
  Py.join sep (x :: y :: l) = x +:+ sep +:+ Py.join sep (y :: l).
Proof. reflexivity. Qed.

(** Every part of a join appears in it. *)
Lemma join_contains (sep : string) (parts : list string) (i : nat) (p : string) :
  parts !! i = Some p -> exists before after, Py.join sep parts = before +:+ p +:+ after.
Proof.
  revert i. induction parts as [|x l IH]; intros i H; [discriminate H|].
  destruct i as [|i].
  - injection H as ->. destruct l as [|y l].
    + exists "", "". simpl. symmetry. apply str_app_nil_r.
    + exists "", (sep +:+ Py.join sep (y :: l)). reflexivity.
  - simpl in H. destruct (IH i H) as (b & a & E).
    destruct l as [|y l]; [discriminate H|].
    exists (x +:+ sep +:+ b), a.
    rewrite join_cons_cons, E, !str_app_assoc. reflexivity.
Qed.

End string_facts.

(** ** The RAG chain *)

Section follow_up_properties.
Import Py.
Import Chain.

Lemma sublist_take {A : Type} (n : nat) (l : list A) : sublist (take n l) l.
Proof.
  rewrite <- (take_drop n l) at 2. apply sublist_inserts_r. reflexivity.
Qed.

(** C4, as the code has it.  With medical conditions and allergies both
    recorded and [plan_type = "both"], the generator returns three
    questions: equipment, session time and meal prep; the fourth rule's
    second question (disliked foods) is cut by the cap.  For every profile
    and plan type the result has at most 3 questions and keeps the priority
    order medical, allergy, workout, diet. *)
Theorem follow_ups_capped_in_priority_order :
  (forall user_profile : gmap string pyval,
      get_truthy (user_profile !! "medical_conditions") = true ->
      get_truthy (user_profile !! "allergies") = true ->
      _generate_follow_ups user_profile "both"
      = [ "Do you have access to specific gym equipment?";
          "How much time can you dedicate to each workout session?";
          "Do you prefer meal prepping or cooking fresh daily?" ])
  /\ (forall (user_profile : gmap string pyval) (plan_type : string),
         (length (_generate_follow_ups user_profile plan_type) <= 3)%nat
         /\ sublist (_generate_follow_ups user_profile plan_type) FOLLOW_UP_PRIORITY).
Proof.
  split.
  - intros user_profile Hm Ha. unfold _generate_follow_ups.
    rewrite Hm, Ha. reflexivity.
  - intros user_profile plan_type. split.
    + unfold _generate_follow_ups. rewrite length_take. lia.
    + unfold _generate_follow_ups.
      etransitivity; [apply sublist_take|].
      destruct (get_truthy (user_profile !! "medical_conditions"));
        destruct (get_truthy (user_profile !! "allergies"));
        destruct (in2 plan_type "workout" "both");
        destruct (in2 plan_type "diet" "both"); simpl;
        unfold FOLLOW_UP_PRIORITY;
        repeat first [apply sublist_nil | apply sublist_skip | apply sublist_cons].
Qed.

End follow_up_properties.

Lemma follow_ups_capped_in_priority_order_witness :
  Chain._generate_follow_ups populated_profile "both"
  = [ "Do you have access to specific gym equipment?";
      "How much time can you dedicate to each workout session?";
      "Do you prefer meal prepping or cooking fresh daily?" ].
Proof.
  apply (proj1 follow_ups_capped_in_priority_order populated_profile);
    reflexivity.
Defined.

(** C4 as stated fails: equipment and session time are two questions, so the
    populated profile with "both" gets three questions, not two. *)
Lemma follow_ups_populated_both_are_three :
  length (Chain._generate_follow_ups populated_profile "both") = 3%nat
  /\ Chain._generate_follow_ups populated_profile "both" !! 1%nat
     = Some "How much time can you dedicate to each workout session?"
  /\ Chain._generate_follow_ups populated_profile "both" !! 2%nat
     = Some "Do you prefer meal prepping or cooking fresh daily?".
Proof. repeat split. Qed.

Section generation_fallback.
Import Py.
Import CalorieService.
Import Retriever.
Import Chain.
Variable float_repr : float -> string.
Variable gateways : Gateways.

Lemma truediv_float (ra rb : result num) (n : num) :
  truediv ra rb = Ok n -> exists f, n = NFloat f.
Proof.
  unfold truediv. intros H. bind_inv H. bind_inv H.
  destruct v as [x|x], v0 as [y|y].
  - destruct y as [|p|p]; [discriminate H| |];
      match type of H with
      | (if ?c then _ else _) = _ => destruct c; [discriminate H|]
      end; injection H as <-; eauto.
  - bind_inv H. bind_inv H. destruct (PrimFloat.eqb v0 0); [discriminate H|].
    injection H as <-. eauto.
  - bind_inv H. bind_inv H. destruct (PrimFloat.eqb v0 0); [discriminate H|].
    injection H as <-. eauto.
  - bind_inv H. bind_inv H. destruct (PrimFloat.eqb v0 0); [discriminate H|].
    injection H as <-. eauto.
Qed.

(** The BMI [calculate_all] reports is a float. *)
Lemma calculate_all_bmi_float (profile : gmap string pyval) (s : Stats) :
  calculate_all profile = Ok s -> exists f, bmi s = NFloat f.
Proof.
  unfold calculate_all. intros H. repeat bind_inv H.
  injection H as <-. simpl.
  match goal with
  | Hb : calculate_bmi _ _ = Ok ?b, Hr : round (Ok ?b) _ = Ok ?r |- exists f, ?r = _ =>
      unfold calculate_bmi in Hb; do 2 bind_inv Hb;
      apply truediv_float in Hb; destruct Hb as (f & ->);
      simpl in Hr; injection Hr as <-; eauto
  end.
Qed.

Lemma occur_in_order_skip (pieces : list string) (skipped text : string) :
  occur_in_order pieces text -> occur_in_order pieces (skipped +:+ text).
Proof.
  destruct pieces as [|piece rest]; [exact (fun H => H)|].
  intros (before & after & -> & H).
  exists (skipped +:+ before), after. rewrite str_app_assoc. split; [reflexivity|exact H].
Qed.

Lemma occur_in_order_here (piece : string) (rest : list string) (after : string) :
  occur_in_order rest after -> occur_in_order (piece :: rest) (piece +:+ after).
Proof. intros H. exists "", after. split; [reflexivity|exact H]. Qed.

Lemma occur_in_order_here_app (a piece : string) (rest : list string) (text : string) :
  (exists after, text = piece +:+ after /\ occur_in_order rest after) ->
  exists after, a +:+ text = (a +:+ piece) +:+ after /\ occur_in_order rest after.
Proof.
  intros (after & -> & H). exists after. rewrite str_app_assoc.
  split; [reflexivity|exact H].
Qed.

Lemma occur_in_order_start (piece : string) (rest : list string) (text : string) :
  (exists after, text = piece +:+ after /\ occur_in_order rest after) ->
  occur_in_order (piece :: rest) text.
Proof. intros (after & -> & H). apply occur_in_order_here, H. Qed.

(** The stats and the two contexts in the text of the fallback response. *)
Lemma _generate_fallback_response_text (user_profile : gmap string pyval) (s : Stats)
      (workout_context diet_context : string) (context : Context) (r : PlanResult) :
  _generate_fallback_response float_repr user_profile s workout_context diet_context
                              context = Ok r ->
  exists bmi_text,
    format_fixed 1 (bmi s) = Ok bmi_text
    /\ occur_in_order
         [ "- **BMI:** " +:+ bmi_text +:+ " (" +:+ bmi_category s +:+ ")";
           "- **Daily Calories:** " +:+ str_of_int (daily_calories s) +:+ " kcal";
           "- **Protein:** " +:+ str_of_int (stats_protein_g s)
             +:+ "g | **Carbs:** " +:+ str_of_int (stats_carbs_g s)
             +:+ "g | **Fats:** " +:+ str_of_int (stats_fats_g s) +:+ "g";
           workout_context;
           diet_context ]
         (response r).
Proof.
  unfold _generate_fallback_response. intros H. bind_inv H. injection H as <-.
  exists v. split; [exact Hv|]. cbn [response].
  repeat first
    [ exact I
    | apply occur_in_order_start; repeat apply occur_in_order_here_app;
      eexists; split; [reflexivity|]
    | apply occur_in_order_skip ].
Qed.

Lemma occurs_trans (piece middle text : string) :
  occurs piece middle -> occurs middle text -> occurs piece text.
Proof.
  intros (b1 & a1 & ->) (b2 & a2 & ->).
  exists (b2 +:+ b1), (a1 +:+ a2). rewrite !str_app_assoc. reflexivity.
Qed.

Lemma occur_in_order_occurs (pieces : list string) (text piece : string) :
  occur_in_order pieces text -> piece ∈ pieces -> occurs piece text.
Proof.
  revert text. induction pieces as [|p rest IH]; intros text H Hin.
  - apply elem_of_nil in Hin. contradiction.
  - destruct H as (before & after & -> & H).
    apply elem_of_cons in Hin. destruct Hin as [->|Hin].
    + exists before, after. reflexivity.
    + destruct (IH after H Hin) as (b & a & ->).
      exists (before +:+ p +:+ b), a. rewrite !str_app_assoc. reflexivity.
Qed.

(** Every document of a list is quoted in full in the formatted list. *)
Lemma _format_documents_quotes (documents : list Document) (doc : Document) :
  doc ∈ documents -> occurs (page_content doc) (_format_documents float_repr documents).
Proof.
  intros Hin. apply list_elem_of_lookup in Hin. destruct Hin as (i & H).
  unfold _format_documents.
  destruct documents as [|d l] eqn:E; [discriminate H|]. rewrite <- E in *.
  match goal with
  | |- context [join ?sep (imap ?f documents)] =>
      destruct (join_contains sep (imap f documents) i (f i doc)) as (b & a & Hj);
        [rewrite list_lookup_imap, H; reflexivity|]
  end.
  rewrite Hj. cbv beta zeta.
  match goal with
  | |- occurs _ (b +:+ (?info +:+ nl +:+ page_content doc) +:+ a) =>
      exists (b +:+ info +:+ nl), a
  end.
  rewrite !str_app_assoc. reflexivity.
Qed.

(** C7.  When a generation backend is configured and its invocation raises,
    [generate_plan] returns what it returns with no backend configured, the
    fallback template; the exception of the backend does not leave the call.
    For every profile the calculator accepts, that result is the fallback
    response: its stats are the computed ones, its sources those of the
    retrieved context, and its text holds, in this order, the BMI with its
    category, the calorie target, the three macro targets, the formatted
    workout documents and the formatted diet documents, so that the content
    of every retrieved document is in the text. *)
Theorem generation_error_degrades_to_fallback
        (invoke : PromptInputs -> result string)
        (user_profile : gmap string pyval) (user_query plan_type : string)
        (progress_data : option ProgressData) :
  (forall inputs, is_ok (invoke inputs) = false) ->
  generate_plan float_repr gateways (Some invoke) user_profile user_query plan_type
                progress_data
  = generate_plan float_repr gateways None user_profile user_query plan_type
                  progress_data
  /\ (forall s, calculate_all user_profile = Ok s ->
        let context :=
          retrieve_combined_context float_repr gateways user_query user_profile 3 in
        exists r,
          generate_plan float_repr gateways (Some invoke) user_profile user_query
                        plan_type progress_data = Ok r
          /\ _generate_fallback_response float_repr user_profile s
               (_format_documents float_repr (workouts context))
               (_format_documents float_repr (diets context)) context = Ok r
          /\ stats r = s
          /\ sources r = _extract_sources context
          /\ (exists bmi_text,
                 format_fixed 1 (bmi s) = Ok bmi_text
                 /\ occur_in_order
                      [ "- **BMI:** " +:+ bmi_text +:+ " (" +:+ bmi_category s +:+ ")";
                        "- **Daily Calories:** " +:+ str_of_int (daily_calories s)
                          +:+ " kcal";
                        "- **Protein:** " +:+ str_of_int (stats_protein_g s)
                          +:+ "g | **Carbs:** " +:+ str_of_int (stats_carbs_g s)
                          +:+ "g | **Fats:** " +:+ str_of_int (stats_fats_g s) +:+ "g";
                        _format_documents float_repr (workouts context);
                        _format_documents float_repr (diets context) ]
                      (response r))
          /\ (forall doc, doc ∈ workouts context ++ diets context ->
                 occurs (page_content doc) (response r))).
Proof.
  intros Hfail.
  assert (Heq : generate_plan float_repr gateways (Some invoke) user_profile
                  user_query plan_type progress_data
                = generate_plan float_repr gateways None user_profile user_query
                    plan_type progress_data).
  { unfold generate_plan.
    destruct (calculate_all user_profile) as [s|e]; [|reflexivity]. simpl.
    destruct (bmi s) as [z|f]; simpl;
      match goal with
      | |- match invoke ?i with _ => _ end = _ =>
          specialize (Hfail i); destruct (invoke i); [discriminate Hfail|reflexivity]
      end. }
  split; [exact Heq|].
  intros s Hs. cbv zeta. rewrite Heq. unfold generate_plan. rewrite Hs.
  cbn [bind].
  set (context := retrieve_combined_context float_repr gateways user_query
                    user_profile 3).
  destruct (_generate_fallback_response float_repr user_profile s
              (_format_documents float_repr (workouts context))
              (_format_documents float_repr (diets context)) context)
    as [r|e] eqn:Er.
  - exists r.
    destruct (_generate_fallback_response_text _ _ _ _ _ _ Er) as (bmi_text & Hb & Ho).
    split; [reflexivity|]. split; [reflexivity|].
    unfold _generate_fallback_response in Er. bind_inv Er. injection Er as <-.
    split; [reflexivity|]. split; [reflexivity|].
    split; [exists bmi_text; split; [exact Hb|exact Ho]|].
    intros doc Hin. apply elem_of_app in Hin.
    destruct Hin as [Hin|Hin].
    + apply (occurs_trans _ (_format_documents float_repr (workouts context))).
      * apply _format_documents_quotes, Hin.
      * apply (occur_in_order_occurs _ _ _ Ho). repeat constructor.
    + apply (occurs_trans _ (_format_documents float_repr (diets context))).
      * apply _format_documents_quotes, Hin.
      * apply (occur_in_order_occurs _ _ _ Ho). repeat constructor.
  - exfalso. destruct (calculate_all_bmi_float _ _ Hs) as (f & Hf).
    unfold _generate_fallback_response in Er. rewrite Hf in Er. discriminate Er.
Qed.

End generation_fallback.

Lemma generation_error_degrades_to_fallback_witness :
  Chain.generate_plan no_float_repr offline_gateways (Some failing_llm)
                      small_profile "plan" "both" None
  = Chain.generate_plan no_float_repr offline_gateways None
                        small_profile "plan" "both" None
  /\ Py.is_ok (Chain.generate_plan no_float_repr offline_gateways (Some failing_llm)
                 small_profile "plan" "both" None) = true.
Proof.
  destruct (generation_error_degrades_to_fallback no_float_repr offline_gateways
              failing_llm small_profile "plan" "both" None (fun _ => eq_refl))
    as [Heq Hok].
  split; [exact Heq|].
  destruct (CalorieService.calculate_all small_profile) as [s|e] eqn:E.
  - destruct (Hok s eq_refl) as (r & -> & _). reflexivity.
  - vm_compute in E. discriminate E.
Defined.

(** ** Chunk identifiers *)

Section chunk_id_properties.
Import Py.
Import Ingestion.
Variable str : json -> string.
Variable split_text : string -> list string.

(** The ids of the chunks of one item: the hash of (source file, item index,
    position), for each position of the split text.  Neither the clock nor
    the item's metadata enters. *)
Lemma _chunk_json_item_ids (utcnow : nat -> string) (item : json)
      (source_file : string) (idx : Z) (doc_type : string) (clock : nat) :
  chunk_ids (_chunk_json_item str split_text utcnow item source_file idx doc_type clock)
  = (text_content <- _json_to_text str item doc_type ;;
     Ok (imap (fun k _ => _generate_chunk_id source_file idx (Z.of_nat k))
              (split_text text_content))).
Proof.
  unfold _chunk_json_item.
  destruct (_json_to_text str item doc_type) as [text_content|e] eqn:E;
    [|reflexivity].
  simpl. unfold _json_to_text in E. bind_inv E. rewrite Hv. simpl.
  f_equal. generalize (split_text text_content). intros l.
  rewrite fmap_imap. apply imap_ext. reflexivity.
Qed.

Lemma chunk_ids_bind (r : result (list Chunk * nat))
      (k : list Chunk * nat -> result (list Chunk * nat)) :
  chunk_ids (x <- r ;; k x)
  = match r with
    | Ok x => chunk_ids (k x)
    | Raise e => Raise e
    end.
Proof. destruct r; reflexivity. Qed.

Lemma chunk_items_ids (now1 now2 : nat -> string) (items : list json)
      (source_file : string) (idx : Z) (doc_type : string) (clock1 clock2 : nat) :
  chunk_ids (chunk_items str split_text now1 items source_file idx doc_type clock1)
  = chunk_ids (chunk_items str split_text now2 items source_file idx doc_type clock2).
Proof.
  revert idx clock1 clock2.
  induction items as [|item rest IH]; intros idx clock1 clock2; [reflexivity|].
  simpl.
  pose proof (_chunk_json_item_ids now1 item source_file idx doc_type clock1) as H1.
  pose proof (_chunk_json_item_ids now2 item source_file idx doc_type clock2) as H2.
  destruct (_chunk_json_item str split_text now1 item source_file idx doc_type clock1)
    as [[c1 k1]|e1];
    destruct (_chunk_json_item str split_text now2 item source_file idx doc_type clock2)
    as [[c2 k2]|e2]; simpl in *;
    destruct (_json_to_text str item doc_type) as [t|e]; simpl in *;
    try discriminate; try congruence.
  injection H1 as H1. injection H2 as H2.
  specialize (IH (idx + 1) k1 k2).
  destruct (chunk_items str split_text now1 rest source_file (idx + 1) doc_type k1)
    as [[r1 j1]|e1];
    destruct (chunk_items str split_text now2 rest source_file (idx + 1) doc_type k2)
    as [[r2 j2]|e2]; simpl in *; try discriminate; try congruence.
  injection IH as IH. rewrite !map_app. congruence.
Qed.

(** C9.  The chunk id is a function of (source file, item index, chunk index)
    alone: the chunks of an item carry the hashes of that triple, position by
    position, whatever the clock shows and whatever the document type is.
    Hence processing the same file content twice, at different times, yields
    the same list of chunk ids (or the same exception). *)
Theorem chunk_ids_idempotent :
  (forall (utcnow : nat -> string) (item : json) (source_file : string) (idx : Z)
          (doc_type : string) (clock : nat),
      chunk_ids (_chunk_json_item str split_text utcnow item source_file idx
                                  doc_type clock)
      = (text_content <- _json_to_text str item doc_type ;;
         Ok (imap (fun k _ => _generate_chunk_id source_file idx (Z.of_nat k))
                  (split_text text_content))))
  /\ (forall (now1 now2 : nat -> string) (clock1 clock2 : nat) (data : json)
             (stem doc_type : string),
         chunk_ids (_process_json_file str split_text now1 data stem doc_type clock1)
         = chunk_ids (_process_json_file str split_text now2 data stem doc_type clock2)).
Proof.
  split; [exact _chunk_json_item_ids|].
  intros now1 now2 clock1 clock2 data stem doc_type.
  unfold _process_json_file.
  destruct data as [| | | | |items|d]; try reflexivity.
  - apply chunk_items_ids.
  - destruct (assoc d "items") as [v|].
    + destruct (iterate v) as [items|e]; [|reflexivity]. simpl.
      apply chunk_items_ids.
    + rewrite !_chunk_json_item_ids. reflexivity.
Qed.

End chunk_id_properties.

(** * Further properties *)

(** ** The calculator: targets, inputs and percentages *)

Section calorie_targets.
Import Py.
Import CalorieService.

Lemma FitnessGoal_of_Raise (goal : pyval) (e : exn) :
  FitnessGoal_of goal = Raise e -> e = ValueError.
Proof.
  destruct goal as [| | | |s]; simpl; try (intros H; injection H as <-; reflexivity).
  destruct (String.eqb s "lean"); [discriminate|].
  destruct (String.eqb s "muscle_gain"); [discriminate|].
  destruct (String.eqb s "fat_loss"); [discriminate|].
  intros H. injection H as <-. reflexivity.
Qed.

(** The adjustment [calculate_daily_calories] applies is [goal_adjustment]. *)
Lemma calculate_daily_calories_adjustment (tdee_v : num) (goal : pyval) :
  calculate_daily_calories tdee_v goal
  = (c <- int (add (Ok tdee_v) (Int (goal_adjustment goal))) ;; Ok (Z.max c 1200)).
Proof.
  unfold calculate_daily_calories, goal_adjustment.
  destruct (FitnessGoal_of goal) as [g|e] eqn:E.
  - destruct g; reflexivity.
  - rewrite (FitnessGoal_of_Raise _ _ E). reflexivity.
Qed.

Lemma goal_adjustment_cases (goal : pyval) :
  goal_adjustment goal = -300 \/ goal_adjustment goal = 300
  \/ goal_adjustment goal = -500 \/ goal_adjustment goal = 0.
Proof.
  unfold goal_adjustment.
  destruct (FitnessGoal_of goal) as [[]|e]; tauto.
Qed.

Lemma target_exact_lean : all_from (target_exact (-300)) (Z.to_nat 9001) 0 = true.
Proof. vm_compute. reflexivity. Qed.

Lemma target_exact_muscle_gain : all_from (target_exact 300) (Z.to_nat 9001) 0 = true.
Proof. vm_compute. reflexivity. Qed.

Lemma target_exact_fat_loss : all_from (target_exact (-500)) (Z.to_nat 9001) 0 = true.
Proof. vm_compute. reflexivity. Qed.

Lemma target_exact_unknown : all_from (target_exact 0) (Z.to_nat 9001) 0 = true.
Proof. vm_compute. reflexivity. Qed.

(** X1.  The calorie target is TDEE plus the goal's adjustment (-300 lean,
    +300 muscle gain, -500 fat loss, 0 for an unrecognised goal), floored at
    1200: exactly so for an integer TDEE, and for the float of every integer
    TDEE from 0 to 9000 kcal, where the float addition and the truncation
    lose nothing. *)
Theorem calorie_target_is_tdee_plus_adjustment :
  (forall (tdee_v : Z) (goal : pyval),
      calculate_daily_calories (NInt tdee_v) goal
      = Ok (Z.max (tdee_v + goal_adjustment goal) 1200))
  /\ (forall (tdee_v : Z) (goal : pyval),
         0 <= tdee_v <= 9000 ->
         calculate_daily_calories (NFloat (Z2F tdee_v)) goal
         = Ok (Z.max (tdee_v + goal_adjustment goal) 1200)).
Proof.
  split.
  - intros t goal. rewrite calculate_daily_calories_adjustment. reflexivity.
  - intros t goal Ht. rewrite calculate_daily_calories_adjustment.
    assert (Hexact : target_exact (goal_adjustment goal) t = true).
    { destruct (goal_adjustment_cases goal) as [E|[E|[E|E]]]; rewrite E.
      - apply (all_from_sound _ _ _ target_exact_lean). rewrite Z2Nat.id; lia.
      - apply (all_from_sound _ _ _ target_exact_muscle_gain). rewrite Z2Nat.id; lia.
      - apply (all_from_sound _ _ _ target_exact_fat_loss). rewrite Z2Nat.id; lia.
      - apply (all_from_sound _ _ _ target_exact_unknown). rewrite Z2Nat.id; lia. }
    unfold target_exact in Hexact.
    destruct (int (add (Ok (NFloat (Z2F t))) (Int (goal_adjustment goal)))) as [c|e];
      [|discriminate Hexact].
    apply Z.eqb_eq in Hexact. subst c. reflexivity.
Qed.

End calorie_targets.

Lemma calorie_target_is_tdee_plus_adjustment_witness :
  CalorieService.calculate_daily_calories (Py.NFloat (Py.Z2F 2888)) (Py.PStr "fat_loss")
  = Py.Ok 2388.
Proof.
  apply (proj2 calorie_target_is_tdee_plus_adjustment 2888 (Py.PStr "fat_loss")). lia.
Defined.

Section calorie_inputs.
Import Py.
Import CalorieService.

Lemma arith_Ok (iop : Z -> Z -> Z) (fop : float -> float -> float)
      (ra rb : result num) (n : num) :
  arith iop fop ra rb = Ok n -> exists a b, ra = Ok a /\ rb = Ok b.
Proof.
  unfold arith. intros H. bind_inv H. bind_inv H. eauto.
Qed.

Lemma truediv_Ok (ra rb : result num) (n : num) :
  truediv ra rb = Ok n -> exists a b, ra = Ok a /\ rb = Ok b.
Proof.
  unfold truediv. intros H. bind_inv H. bind_inv H. eauto.
Qed.

Lemma round_Ok (ra : result num) (ndigits : nat) (n : num) :
  round ra ndigits = Ok n -> exists a, ra = Ok a.
Proof.
  unfold round. intros H. bind_inv H. eauto.
Qed.

Lemma is_ok_Ok {A : Type} (r : result A) (a : A) : r = Ok a -> is_ok r = true.
Proof. intros ->. reflexivity. Qed.

(** What a successful [calculate_bmr] says about its arguments. *)
Lemma calculate_bmr_Ok (weight height age gender : pyval) (n : num) :
  calculate_bmr weight height age gender = Ok n ->
  is_ok (as_num age) = true /\ exists g, gender = PStr g.
Proof.
  unfold calculate_bmr. intros H. bind_inv H.
  split.
  - apply round_Ok in H. destruct H as (b & H).
    assert (Hbase : exists c,
               sub (add (mul (Int 10) (as_num weight)) (mul (Flt 6.25) (as_num height)))
                   (mul (Int 5) (as_num age)) = Ok c).
    { destruct (String.eqb v "male"); apply arith_Ok in H;
        destruct H as (a & c & Ha & _); eauto. }
    destruct Hbase as (c & Hc).
    apply arith_Ok in Hc. destruct Hc as (_ & m & _ & Hm).
    apply arith_Ok in Hm. destruct Hm as (_ & a & _ & Ha).
    exact (is_ok_Ok _ _ Ha).
  - destruct gender as [| | | |g]; try discriminate Hv. eauto.
Qed.

(** X2.  [calculate_all] returns a result only for a profile whose height,
    weight and age are numbers, whose gender is a string and whose goal is a
    member of [FitnessGoal].  A height that is missing, [None] or a string
    raises [TypeError]; a height of zero raises [ZeroDivisionError] once the
    weight is a number a float can hold. *)
Theorem calculate_all_needs_well_typed_profile (profile : gmap string pyval) :
  (forall s, calculate_all profile = Ok s ->
     is_ok (as_num (get profile "height_cm")) = true
     /\ is_ok (as_num (get profile "weight_kg")) = true
     /\ is_ok (as_num (get profile "age")) = true
     /\ (exists g, get profile "gender" = PStr g)
     /\ is_ok (FitnessGoal_of (get profile "fitness_goal")) = true)
  /\ (as_num (get profile "height_cm") = Raise TypeError ->
      calculate_all profile = Raise TypeError)
  /\ (forall w f,
         get profile "height_cm" = PInt 0 \/ get profile "height_cm" = PFloat 0 ->
         as_num (get profile "weight_kg") = Ok w -> to_float w = Ok f ->
         calculate_all profile = Raise ZeroDivisionError).
Proof.
  split; [|split].
  - intros s H.
    destruct (calculate_all_needs_known_goal _ _ H) as (g & Hg).
    unfold calculate_all in H. repeat bind_inv H.
    match goal with
    | HB : calculate_bmi _ _ = Ok _, HR : calculate_bmr _ _ _ _ = Ok _ |- _ =>
        unfold calculate_bmi in HB; do 2 bind_inv HB;
        apply truediv_Ok in HB; destruct HB as (a & b & Ha & _);
        apply calculate_bmr_Ok in HR; destruct HR as (Hage & Hgender)
    end.
    match goal with
    | HH : truediv (as_num (get profile "height_cm")) (Int 100) = Ok _ |- _ =>
        apply truediv_Ok in HH; destruct HH as (h & c & Hh & _)
    end.
    repeat split; try assumption.
    + exact (is_ok_Ok _ _ Hh).
    + exact (is_ok_Ok _ _ Ha).
    + exact (is_ok_Ok _ _ Hg).
  - intros H. unfold calculate_all, calculate_bmi. rewrite H. reflexivity.
  - intros w f Hh Hw Hf. unfold calculate_all, calculate_bmi. rewrite Hw.
    destruct Hh as [-> | ->]; simpl; destruct w; simpl in *; rewrite ?Hf; reflexivity.
Qed.

End calorie_inputs.

Lemma calculate_all_needs_well_typed_profile_witness :
  CalorieService.calculate_all no_height_profile = Py.Raise Py.TypeError
  /\ CalorieService.calculate_all zero_height_profile = Py.Raise Py.ZeroDivisionError.
Proof.
  destruct (calculate_all_needs_well_typed_profile no_height_profile) as (_ & H1 & _).
  destruct (calculate_all_needs_well_typed_profile zero_height_profile) as (_ & _ & H2).
  split.
  - apply H1. reflexivity.
  - apply (H2 (Py.NFloat 70) 70%float); [left|..]; reflexivity.
Defined.

Section calorie_gender_and_split.
Import Py.
Import CalorieService.

Lemma lower_ascii_idempotent (c : Ascii.ascii) :
  lower_ascii (lower_ascii c) = lower_ascii c.
Proof.
  unfold lower_ascii.
  destruct ((65 <=? Ascii.N_of_ascii c)%N && (Ascii.N_of_ascii c <=? 90)%N) eqn:E.
  - apply andb_true_iff in E. destruct E as [E1 E2].
    apply N.leb_le in E1. apply N.leb_le in E2.
    rewrite Ascii.N_ascii_embedding by lia.
    replace ((Ascii.N_of_ascii c + 32 <=? 90)%N) with false
      by (symmetry; apply N.leb_gt; lia).
    rewrite andb_false_r. reflexivity.
  - rewrite E. reflexivity.
Qed.

Lemma lower_idempotent (s : string) : lower (lower s) = lower s.
Proof.
  induction s as [|c s IH]; simpl; [reflexivity|].
  rewrite lower_ascii_idempotent, IH. reflexivity.
Qed.

(** X3.  The BMR depends on the gender string only through whether its
    lower case is "male": the spelling's case does not matter, and every
    other gender ("female", "other", anything) gets the same constant. *)
Theorem calculate_bmr_gender_cases (weight height age : pyval) (gender : string) :
  calculate_bmr weight height age (PStr gender)
  = calculate_bmr weight height age (PStr (lower gender))
  /\ (lower gender <> "male" ->
      calculate_bmr weight height age (PStr gender)
      = calculate_bmr weight height age (PStr "female")).
Proof.
  unfold calculate_bmr. simpl. split.
  - rewrite lower_idempotent. reflexivity.
  - intros H. apply String.eqb_neq in H. rewrite H. reflexivity.
Qed.

(** X4.  Whenever [calculate_all] returns, its [macro_percentages] are the
    goal's split in whole percent (30/40/30 lean, 30/45/25 muscle gain,
    35/30/35 fat loss) and add up to 100: multiplying the float ratios by 100
    and truncating loses no point. *)
Theorem macro_percentages_of_goal (profile : gmap string pyval) (s : Stats) :
  calculate_all profile = Ok s ->
  exists g, FitnessGoal_of (get profile "fitness_goal") = Ok g
            /\ macro_percentages s = percentages_of g
            /\ pct_protein (macro_percentages s) + pct_carbs (macro_percentages s)
               + pct_fats (macro_percentages s) = 100.
Proof.
  intros H.
  destruct (calculate_all_needs_known_goal _ _ H) as (g & Hg).
  exists g. split; [exact Hg|].
  unfold calculate_all in H. repeat bind_inv H. injection H as <-. simpl.
  destruct g;
    repeat match goal with
           | Hp : macro_percentage _ _ _ = Ok _ |- _ =>
               unfold macro_percentage in Hp; rewrite Hg in Hp;
               vm_compute in Hp; injection Hp as <-
           end;
    split; reflexivity.
Qed.

(** X5.  The result of [calculate_all] is coherent: its gram figures are
    those [calculate_macros] gives for its own [daily_calories] and the
    profile's goal, its target is at least 1200 kcal, and, for a target up to
    10000 kcal, the energy of the grams lies within 17 kcal below the
    target. *)
Theorem stats_macros_match_target (profile : gmap string pyval) (s : Stats) :
  calculate_all profile = Ok s ->
  calculate_macros (daily_calories s) (get profile "fitness_goal")
  = Ok (mkMacros (stats_protein_g s) (stats_carbs_g s) (stats_fats_g s))
  /\ 1200 <= daily_calories s
  /\ (daily_calories s <= 10000 ->
      let kcal := 4 * stats_protein_g s + 4 * stats_carbs_g s + 9 * stats_fats_g s in
      kcal <= daily_calories s < kcal + 17).
Proof.
  intros H.
  assert (Hfloor : 1200 <= daily_calories s).
  { destruct (calculate_all_daily_calories _ _ H) as (t & Ht).
    exact (calculate_daily_calories_Ok _ _ _ Ht). }
  assert (Hm : calculate_macros (daily_calories s) (get profile "fitness_goal")
               = Ok (mkMacros (stats_protein_g s) (stats_carbs_g s) (stats_fats_g s))).
  { unfold calculate_all in H. repeat bind_inv H. injection H as <-. simpl.
    match goal with
    | Hc : calculate_macros _ _ = Ok ?m |- _ => rewrite Hc; destruct m; reflexivity
    end. }
  split; [exact Hm|]. split; [exact Hfloor|].
  intros Hle. simpl.
  destruct (macros_within_range (daily_calories s) (get profile "fitness_goal"))
    as (m & Hm' & Hb); [lia|].
  rewrite Hm in Hm'. injection Hm' as <-. unfold macro_kcal in Hb. simpl in Hb.
  exact Hb.
Qed.

End calorie_gender_and_split.

Lemma calculate_bmr_gender_cases_witness :
  CalorieService.calculate_bmr (Py.PFloat 70) (Py.PFloat 175) (Py.PInt 25) (Py.PStr "Other")
  = CalorieService.calculate_bmr (Py.PFloat 70) (Py.PFloat 175) (Py.PInt 25)
                                 (Py.PStr "female").
Proof.
  apply (calculate_bmr_gender_cases (Py.PFloat 70) (Py.PFloat 175) (Py.PInt 25) "Other").
  discriminate.
Defined.

Lemma macro_percentages_of_goal_witness :
  exists s, CalorieService.calculate_all small_profile = Py.Ok s
            /\ CalorieService.macro_percentages s
               = CalorieService.mkPercentages 35 30 35.
Proof.
  destruct (CalorieService.calculate_all small_profile) as [s|e] eqn:E.
  - exists s. split; [reflexivity|].
    destruct (macro_percentages_of_goal small_profile s E) as (g & Hg & Hp & _).
    rewrite Hp. vm_compute in Hg. injection Hg as <-. reflexivity.
  - vm_compute in E. discriminate E.
Defined.

Lemma stats_macros_match_target_witness :
  exists s, CalorieService.calculate_all small_profile = Py.Ok s
            /\ 1200 <= CalorieService.daily_calories s.
Proof.
  destruct (CalorieService.calculate_all small_profile) as [s|e] eqn:E.
  - exists s. split; [reflexivity|].
    apply (stats_macros_match_target small_profile s E).
  - vm_compute in E. discriminate E.
Defined.

(** ** The retriever: filters, queries and conversion *)

Section retriever_more.
Import Py.
Import Retriever.
Variable float_repr : float -> string.

(** X6.  The diet filter is the exact match of [dietary_type] on the
    profile's dietary preference when one is recorded, and no filter at all
    otherwise; no other entry of the profile has any influence on it. *)
Theorem diet_filter_shape (user_profile : gmap string pyval) :
  (forall preference,
      user_profile !! "dietary_preference" = Some preference ->
      truthy preference = true ->
      _build_diet_filter user_profile
      = Some {[ "dietary_type" := {[ "$eq" := preference ]} ]})
  /\ (get_truthy (user_profile !! "dietary_preference") = false ->
      _build_diet_filter user_profile = None)
  /\ (forall other : gmap string pyval,
         other !! "dietary_preference" = user_profile !! "dietary_preference" ->
         _build_diet_filter other = _build_diet_filter user_profile).
Proof.
  unfold _build_diet_filter. repeat split.
  - intros preference H T. rewrite H, T. apply nonempty_or_None_insert.
  - unfold get_truthy.
    destruct (user_profile !! "dietary_preference") as [preference|]; [|reflexivity].
    intros ->. reflexivity.
  - intros other ->. reflexivity.
Qed.

Lemma _enhance_query_suffix (enhancements : list string) (query : string) :
  exists suffix,
    match enhancements with
    | [] => query
    | _ => query +:+ " [" +:+ join " | " enhancements +:+ "]"
    end = query +:+ suffix.
Proof.
  destruct enhancements as [|e l].
  - exists "". symmetry. apply str_app_nil_r.
  - eexists. reflexivity.
Qed.

Lemma hint_absent (user_profile : gmap string pyval) (key label : string) :
  get_truthy (user_profile !! key) = false ->
  hint float_repr user_profile key label = [].
Proof.
  unfold hint, get_truthy. destruct (user_profile !! key) as [v|]; [|reflexivity].
  intros ->. reflexivity.
Qed.

(** X7.  Query enhancement only appends: the user's query is always a prefix
    of the enhanced query.  The query is returned unchanged for a context
    type other than "workout" and "diet", and for a workout (diet) context
    when the profile records none of goal, level and location (none of
    preference and goal). *)
Theorem enhance_query_appends (query : string) (user_profile : gmap string pyval)
        (context_type : string) :
  (exists suffix,
      _enhance_query float_repr query user_profile context_type = query +:+ suffix)
  /\ (context_type <> "workout" -> context_type <> "diet" ->
      _enhance_query float_repr query user_profile context_type = query)
  /\ (get_truthy (user_profile !! "fitness_goal") = false ->
      get_truthy (user_profile !! "experience_level") = false ->
      get_truthy (user_profile !! "workout_location") = false ->
      _enhance_query float_repr query user_profile "workout" = query)
  /\ (get_truthy (user_profile !! "dietary_preference") = false ->
      get_truthy (user_profile !! "fitness_goal") = false ->
      _enhance_query float_repr query user_profile "diet" = query).
Proof.
  repeat split.
  - unfold _enhance_query. apply _enhance_query_suffix.
  - intros Hw Hd. unfold _enhance_query.
    apply String.eqb_neq in Hw. apply String.eqb_neq in Hd.
    rewrite Hw, Hd. reflexivity.
  - intros Hg Hl Hloc. unfold _enhance_query. simpl.
    rewrite !hint_absent by assumption. reflexivity.
  - intros Hp Hg. unfold _enhance_query. simpl.
    rewrite !hint_absent by assumption. reflexivity.
Qed.

(** X8.  Conversion of the matches keeps their number and order; each
    document takes the match's text as content and every entry of the
    match's metadata as it is, so a stored ["id"] or ["score"] entry shadows
    the match's own id and score, which are used only where the metadata has
    none. *)
Theorem results_to_documents_metadata (results : list QueryResult) :
  length (_results_to_documents results) = length results
  /\ (forall i result,
         results !! i = Some result ->
         exists doc,
           _results_to_documents results !! i = Some doc
           /\ page_content doc = result_text result
           /\ (forall key value,
                  result_metadata result !! key = Some value ->
                  metadata doc !! key = Some value)
           /\ (result_metadata result !! "id" = None ->
               metadata doc !! "id" = Some (result_id result))
           /\ (result_metadata result !! "score" = None ->
               metadata doc !! "score" = Some (result_score result))
           /\ (forall key, key <> "id" -> key <> "score" ->
                  metadata doc !! key = result_metadata result !! key)).
Proof.
  unfold _results_to_documents. split; [apply length_map|].
  intros i result H. eexists. split.
  - rewrite list_lookup_fmap, H. reflexivity.
  - simpl. repeat split.
    + intros key value Hk. apply lookup_union_Some_l. exact Hk.
    + intros Hn. rewrite lookup_union_r by exact Hn.
      apply lookup_insert_eq.
    + intros Hn. rewrite lookup_union_r by exact Hn.
      rewrite lookup_insert_ne by discriminate. apply lookup_singleton_eq.
    + intros key Hid Hscore.
      destruct (result_metadata result !! key) as [value|] eqn:E.
      * apply lookup_union_Some_l. exact E.
      * rewrite lookup_union_r by exact E.
        rewrite lookup_insert_ne by congruence.
        apply lookup_singleton_ne. congruence.
Qed.

(** X9.  A retrieval consults the gateway through its two availability flags
    and one query, made with the enhanced query, the given [top_k], the
    namespace and the profile's filter: two gateways that agree on these give
    the same documents.  No second, relaxed query is ever looked at. *)
Theorem retrieval_reads_one_query (g1 g2 : Gateways) (query : string)
        (user_profile : gmap string pyval) (top_k : Z) :
  pinecone_is_available g1 = pinecone_is_available g2 ->
  embedding_is_available g1 = embedding_is_available g2 ->
  (pinecone_query g1 (_enhance_query float_repr query user_profile "workout") top_k
                  "workouts" (_build_workout_filter user_profile)
   = pinecone_query g2 (_enhance_query float_repr query user_profile "workout") top_k
                    "workouts" (_build_workout_filter user_profile) ->
   retrieve_workout_context float_repr g1 query user_profile top_k
   = retrieve_workout_context float_repr g2 query user_profile top_k)
  /\ (pinecone_query g1 (_enhance_query float_repr query user_profile "diet") top_k
                     "diets" (_build_diet_filter user_profile)
      = pinecone_query g2 (_enhance_query float_repr query user_profile "diet") top_k
                       "diets" (_build_diet_filter user_profile) ->
      retrieve_diet_context float_repr g1 query user_profile top_k
      = retrieve_diet_context float_repr g2 query user_profile top_k).
Proof.
  intros Hp He.
  unfold retrieve_workout_context, retrieve_diet_context, is_available.
  rewrite Hp, He. split; intros ->; reflexivity.
Qed.

End retriever_more.

Lemma diet_filter_shape_witness :
  Retriever._build_diet_filter vegan_profile
  = Some {[ "dietary_type" := {[ "$eq" := Py.PStr "vegan" ]} ]}.
Proof.
  apply (proj1 (diet_filter_shape vegan_profile) (Py.PStr "vegan")); reflexivity.
Defined.

Lemma enhance_query_appends_witness :
  Retriever._enhance_query no_float_repr "leg day" vegan_profile "workout"
  = "leg day [Goal: lean]"
  /\ Retriever._enhance_query no_float_repr "leg day" vegan_profile "stretching"
     = "leg day".
Proof.
  split; [reflexivity|].
  apply (enhance_query_appends no_float_repr "leg day" vegan_profile "stretching");
    discriminate.
Defined.

Lemma results_to_documents_metadata_witness :
  exists doc,
    Retriever.retrieve_workout_context no_float_repr one_match_gateways "push" ∅ 5
    = [doc]
    /\ Retriever.page_content doc = "Bench press"
    /\ Retriever.metadata doc !! "score" = Some (Py.PStr "stored")
    /\ Retriever.metadata doc !! "id" = Some (Py.PStr "doc-1").
Proof.
  destruct (results_to_documents_metadata
              (Retriever.pinecone_query one_match_gateways "push" 5 "workouts" None))
    as [_ H].
  destruct (H 0%nat _ eq_refl) as (doc & Hd & Hc & Hm & Hid & _).
  exists doc. split.
  - simpl in Hd. injection Hd as <-. reflexivity.
  - split; [exact Hc|]. split; [apply Hm; reflexivity|apply Hid; reflexivity].
Defined.

Lemma retrieval_reads_one_query_witness :
  Retriever.retrieve_workout_context no_float_repr no_match_gateways "push" ∅ 5
  = Retriever.retrieve_workout_context no_float_repr
      (Retriever.mkGateways true true
         (fun _ _ _ filter => match filter with None => [] | Some _ =>
            Retriever.pinecone_query one_match_gateways "" 0 "" None end))
      "push" ∅ 5.
Proof.
  apply (retrieval_reads_one_query no_float_repr no_match_gateways _ "push" ∅ 5);
    reflexivity.
Defined.

(** ** The RAG chain: failure, success and formatting *)

Section chain_more.
Import Py.
Import CalorieService.
Import Retriever.
Import Chain.
Variable float_repr : float -> string.
Variable gateways : Gateways.

Lemma _generate_fallback_response_float (user_profile : gmap string pyval)
      (s : Stats) (workout_context diet_context : string) (context : Context)
      (f : float) :
  bmi s = NFloat f ->
  exists r,
    _generate_fallback_response float_repr user_profile s workout_context
                                diet_context context = Ok r
    /\ stats r = s /\ sources r = _extract_sources context
    /\ follow_up_questions r
       = [ "Do you have any specific exercises you'd like to include?";
           "Are there any foods you particularly enjoy?";
           "What time do you prefer to workout?" ].
Proof.
  intros Hf. unfold _generate_fallback_response. rewrite Hf. simpl.
  eexists. repeat split.
Qed.

(** X10.  [generate_plan] fails only where the calculator fails: when
    [calculate_all] raises, the same exception leaves [generate_plan]; when
    it returns, [generate_plan] returns a plan, whatever the backend does
    (absent, answering or raising), carrying the calculator's stats and one
    source per retrieved document. *)
Theorem generate_plan_fails_only_with_calculator
        (llm : option (PromptInputs -> result string))
        (user_profile : gmap string pyval) (user_query plan_type : string)
        (progress_data : option ProgressData) :
  match calculate_all user_profile with
  | Raise e =>
      generate_plan float_repr gateways llm user_profile user_query plan_type
                    progress_data = Raise e
  | Ok s =>
      exists r,
        generate_plan float_repr gateways llm user_profile user_query plan_type
                      progress_data = Ok r
        /\ stats r = s
        /\ sources r
           = _extract_sources
               (retrieve_combined_context float_repr gateways user_query
                                          user_profile 3)
  end.
Proof.
  destruct (calculate_all user_profile) as [s|e] eqn:Hs.
  - destruct (calculate_all_bmi_float _ _ Hs) as (f & Hf).
    unfold generate_plan. rewrite Hs. simpl.
    destruct llm as [invoke|].
    + rewrite Hf. simpl.
      match goal with
      | |- context [invoke ?i] => destruct (invoke i) as [text|e]
      end.
      * eexists. repeat split.
      * destruct (_generate_fallback_response_float user_profile s
                    (_format_documents float_repr
                       (workouts (retrieve_combined_context float_repr gateways
                                    user_query user_profile 3)))
                    (_format_documents float_repr
                       (diets (retrieve_combined_context float_repr gateways
                                 user_query user_profile 3)))
                    (retrieve_combined_context float_repr gateways user_query
                                               user_profile 3) f Hf)
          as (r & Hr & Hst & Hsrc & _).
        exists r. repeat split; assumption.
    + destruct (_generate_fallback_response_float user_profile s
                  (_format_documents float_repr
                     (workouts (retrieve_combined_context float_repr gateways
                                  user_query user_profile 3)))
                  (_format_documents float_repr
                     (diets (retrieve_combined_context float_repr gateways
                               user_query user_profile 3)))
                  (retrieve_combined_context float_repr gateways user_query
                                             user_profile 3) f Hf)
        as (r & Hr & Hst & Hsrc & _).
      exists r. repeat split; assumption.
  - unfold generate_plan. rewrite Hs. reflexivity.
Qed.

(** X11.  When the backend answers, the plan's text is the answer verbatim
    and its follow-up questions are those the profile and plan type call for
    (at most 3).  Without a backend the follow-up questions are three fixed,
    generic ones, the same for every profile and plan type. *)
Theorem generate_plan_follow_ups
        (user_profile : gmap string pyval) (user_query plan_type : string)
        (progress_data : option ProgressData) (s : Stats) :
  calculate_all user_profile = Ok s ->
  (forall (invoke : PromptInputs -> result string) (text : string),
      (forall inputs, invoke inputs = Ok text) ->
      exists r,
        generate_plan float_repr gateways (Some invoke) user_profile user_query
                      plan_type progress_data = Ok r
        /\ response r = text
        /\ follow_up_questions r = _generate_follow_ups user_profile plan_type
        /\ (length (follow_up_questions r) <= 3)%nat)
  /\ (exists r,
         generate_plan float_repr gateways None user_profile user_query plan_type
                       progress_data = Ok r
         /\ follow_up_questions r
            = [ "Do you have any specific exercises you'd like to include?";
                "Are there any foods you particularly enjoy?";
                "What time do you prefer to workout?" ]).
Proof.
  intros Hs. destruct (calculate_all_bmi_float _ _ Hs) as (f & Hf). split.
  - intros invoke text Hanswer. unfold generate_plan. rewrite Hs. simpl.
    rewrite Hf. simpl. rewrite Hanswer. eexists. repeat split.
    simpl. unfold _generate_follow_ups. rewrite length_take. lia.
  - unfold generate_plan. rewrite Hs. simpl.
    destruct (_generate_fallback_response_float user_profile s
                (_format_documents float_repr
                   (workouts (retrieve_combined_context float_repr gateways
                                user_query user_profile 3)))
                (_format_documents float_repr
                   (diets (retrieve_combined_context float_repr gateways
                             user_query user_profile 3)))
                (retrieve_combined_context float_repr gateways user_query
                                           user_profile 3) f Hf)
      as (r & Hr & _ & _ & Hq).
    exists r. split; assumption.
Qed.

(** X12.  The sources list every retrieved document once, the workout
    documents first: it is as long as the two lists together and its types
    are "workout" for the first and "diet" for the second. *)
Theorem extract_sources_lists_every_document (context : Context) :
  length (_extract_sources context)
  = (length (workouts context) + length (diets context))%nat
  /\ map source_type (_extract_sources context)
     = replicate (length (workouts context)) "workout"
       ++ replicate (length (diets context)) "diet"
  /\ map source_score (_extract_sources context)
     = map (fun doc => default PNone (metadata doc !! "score"))
           (workouts context ++ diets context).
Proof.
  unfold _extract_sources. repeat split.
  - rewrite length_app, !length_map. reflexivity.
  - rewrite map_app, !map_map. simpl. f_equal.
    + generalize (workouts context). intros l.
      induction l as [|d l IH]; simpl; [reflexivity|]. f_equal. exact IH.
    + generalize (diets context). intros l.
      induction l as [|d l IH]; simpl; [reflexivity|]. f_equal. exact IH.
  - rewrite !map_app, !map_map. reflexivity.
Qed.

End chain_more.

Section progress_format.
Import Py.
Import Chain.

Lemma last5_last5 {A : Type} (l : list A) : last5 (last5 l) = last5 l.
Proof.
  unfold last5. rewrite length_drop.
  replace (length l - (length l - 5) - 5)%nat with 0%nat by lia.
  reflexivity.
Qed.

Lemma last5_nil {A : Type} (l : list A) : last5 l = [] -> l = [].
Proof.
  unfold last5. intros H. apply (f_equal length) in H.
  rewrite length_drop in H. simpl in H.
  destruct l as [|x l]; [reflexivity|]. simpl in H. lia.
Qed.

Lemma last5_length {A : Type} (l : list A) : (length (last5 l) <= 5)%nat.
Proof. unfold last5. rewrite length_drop. lia. Qed.

(** X13.  The progress summary shows the last five weights and nothing of
    the older ones: dropping all but the last five entries of the history
    leaves the text unchanged.  With no weight on record and both rates zero
    the text is the "no data" sentence. *)
Theorem format_progress_last_five (history : list float) (completion adherence : float) :
  _format_progress (mkProgressData history completion adherence)
  = _format_progress (mkProgressData (last5 history) completion adherence)
  /\ (length (last5 history) <= 5)%nat
  /\ _format_progress (mkProgressData [] 0 0) = "No progress data available.".
Proof.
  split; [|split; [apply last5_length|reflexivity]].
  unfold _format_progress. simpl.
  destruct history as [|w l]; [reflexivity|].
  destruct (last5 (w :: l)) as [|w' l'] eqn:E.
  - apply last5_nil in E. discriminate E.
  - rewrite <- E, last5_last5. reflexivity.
Qed.

End progress_format.

Lemma generate_plan_follow_ups_witness :
  exists r,
    Chain.generate_plan no_float_repr offline_gateways (Some canned_llm) small_profile
                        "plan" "diet" None = Py.Ok r
    /\ Chain.response r = "Here is your plan."
    /\ Chain.follow_up_questions r
       = [ "Do you have any medical conditions or injuries I should consider?";
           "Do you have any food allergies or intolerances?";
           "Do you prefer meal prepping or cooking fresh daily?" ].
Proof.
  destruct (CalorieService.calculate_all small_profile) as [s|e] eqn:E.
  - destruct (generate_plan_follow_ups no_float_repr offline_gateways small_profile
                "plan" "diet" None s E) as [H _].
    destruct (H canned_llm "Here is your plan." (fun _ => eq_refl))
      as (r & Hr & Htext & Hq & _).
    exists r. split; [exact Hr|]. split; [exact Htext|]. rewrite Hq. reflexivity.
  - vm_compute in E. discriminate E.
Defined.

Section format_documents_contents.
Import Py.
Import Retriever.
Import Chain.
Variable float_repr : float -> string.

(** X14.  The formatted context quotes every retrieved document in full: the
    page content of each document of a list appears, unabridged, in
    [_format_documents] of the list. *)
Theorem format_documents_quotes_every_document (documents : list Document)
        (i : nat) (doc : Document) :
  documents !! i = Some doc ->
  exists before after,
    _format_documents float_repr documents = before +:+ page_content doc +:+ after.
Proof.
  intros H. unfold _format_documents.
  destruct documents as [|d l] eqn:E; [discriminate H|]. rewrite <- E in *.
  match goal with
  | |- context [join ?sep (imap ?f documents)] =>
      destruct (join_contains sep (imap f documents) i (f i doc)) as (b & a & Hj);
        [rewrite list_lookup_imap, H; reflexivity|]
  end.
  rewrite Hj. cbv beta zeta.
  match goal with
  | |- exists before after,
         b +:+ (?info +:+ nl +:+ page_content doc) +:+ a = _ =>
      exists (b +:+ info +:+ nl), a
  end.
  rewrite !str_app_assoc. reflexivity.
Qed.

End format_documents_contents.

Section single_purpose_plans.
Import Py.
Import CalorieService.
Import Retriever.
Import Chain.
Import ChainPlans.
Variable float_repr : float -> string.
Variable gateways : Gateways.

Lemma retrieve_workout_context_nonempty (query : string)
      (user_profile : gmap string pyval) (top_k : Z) :
  retrieve_workout_context float_repr gateways query user_profile top_k <> [].
Proof.
  unfold retrieve_workout_context.
  destruct (negb (Retriever.is_available gateways)); [discriminate|].
  destruct (pinecone_query gateways _ _ _ _); discriminate.
Qed.

Lemma retrieve_diet_context_nonempty (query : string)
      (user_profile : gmap string pyval) (top_k : Z) :
  retrieve_diet_context float_repr gateways query user_profile top_k <> [].
Proof.
  unfold retrieve_diet_context.
  destruct (negb (Retriever.is_available gateways)); [discriminate|].
  destruct (pinecone_query gateways _ _ _ _); discriminate.
Qed.

Lemma plan_sources_nonempty (context : list Document) :
  context <> [] -> plan_sources context <> [].
Proof. destruct context; [contradiction|discriminate]. Qed.

(** X15.  The workout plan degrades like the full plan.  Its documents are
    those retrieved for the query "Complete <days>-day workout plan for
    <goal> goal" with the profile and [top_k] 7: the converted matches of the
    index when it is available and has any, the fallback document otherwise.
    With no backend, or with a backend whose invocation raises, the plan text
    is these documents formatted; with a backend that answers it is the
    answer.  In every case the sources are the same, one per retrieved
    document with its id and score, and never empty. *)
Theorem workout_plan_degrades_to_context
        (user_profile : gmap string pyval) (progress_data : option ProgressData) :
  let query :=
    "Complete " +:+ str float_repr (get user_profile "workout_days_per_week")
    +:+ "-day workout plan for " +:+ str float_repr (get user_profile "fitness_goal")
    +:+ " goal" in
  let context := retrieve_workout_context float_repr gateways query user_profile 7 in
  let results :=
    pinecone_query gateways (_enhance_query float_repr query user_profile "workout")
                   7 "workouts" (_build_workout_filter user_profile) in
  let offline := generate_workout_plan float_repr gateways None user_profile
                                       progress_data in
  (forall invoke,
      (forall inputs, is_ok (invoke inputs) = false) ->
      generate_workout_plan float_repr gateways (Some invoke) user_profile
                            progress_data = offline)
  /\ (forall invoke text,
         (forall inputs, invoke inputs = Ok text) ->
         generate_workout_plan float_repr gateways (Some invoke) user_profile
                               progress_data
         = mkWorkoutPlan text (workout_sources offline))
  /\ workout_sources offline <> []
  /\ workout_plan offline = _format_documents float_repr context
  /\ length (workout_sources offline) = length context
  /\ (forall i doc,
         context !! i = Some doc ->
         workout_sources offline !! i
         = Some (mkPlanSource (default PNone (metadata doc !! "id"))
                              (default PNone (metadata doc !! "score"))))
  /\ (Retriever.is_available gateways = true -> results <> [] ->
      context = _results_to_documents results)
  /\ (Retriever.is_available gateways = false \/ results = [] ->
      context = _get_fallback_workout_docs).
Proof.
  cbv zeta. unfold generate_workout_plan.
  split; [|split; [|split; [|split; [|split; [|split; [|split]]]]]].
  - intros invoke Hfail.
    match goal with
    | |- context [invoke ?i] =>
        specialize (Hfail i); destruct (invoke i); [discriminate Hfail|reflexivity]
    end.
  - intros invoke text Hanswer. rewrite Hanswer. reflexivity.
  - cbn [workout_sources]. apply plan_sources_nonempty, retrieve_workout_context_nonempty.
  - reflexivity.
  - cbn [workout_sources]. unfold plan_sources. apply length_map.
  - intros i doc H. cbn [workout_sources]. unfold plan_sources.
    rewrite list_lookup_fmap, H. reflexivity.
  - intros Ha Hr. rewrite (retrieve_workout_context_available _ _ _ _ _ Ha). cbv zeta.
    destruct (pinecone_query _ _ _ _ _); [contradiction|reflexivity].
  - intros [Ha|Hr].
    + unfold retrieve_workout_context. rewrite Ha. reflexivity.
    + unfold retrieve_workout_context. rewrite Hr.
      destruct (negb (Retriever.is_available gateways)); reflexivity.
Qed.

(** X16.  The diet plan fails only where the calculator fails, with the
    calculator's exception; otherwise it is returned whatever the backend
    does, with the calculator's stats and at least one source. *)
Theorem diet_plan_fails_only_with_calculator
        (llm_diet : option (DietInputs -> result string))
        (user_profile : gmap string pyval) (progress_data : option ProgressData) :
  match calculate_all user_profile with
  | Raise e =>
      generate_diet_plan float_repr gateways llm_diet user_profile progress_data
      = Raise e
  | Ok s =>
      exists r,
        generate_diet_plan float_repr gateways llm_diet user_profile progress_data
        = Ok r
        /\ diet_stats r = s /\ diet_sources r <> []
  end.
Proof.
  unfold generate_diet_plan.
  destruct (calculate_all user_profile) as [s|e]; [|reflexivity]. simpl.
  destruct llm_diet as [invoke|]; eexists; (split; [reflexivity|]);
    (split; [reflexivity|]); simpl;
    apply plan_sources_nonempty, retrieve_diet_context_nonempty.
Qed.

End single_purpose_plans.

Lemma format_documents_quotes_every_document_witness :
  exists before after,
    Chain._format_documents no_float_repr
      [Retriever.mkDocument "Squats" ∅; Retriever.mkDocument "Lunges" ∅]
    = before +:+ "Lunges" +:+ after.
Proof.
  apply (format_documents_quotes_every_document no_float_repr
           [Retriever.mkDocument "Squats" ∅; Retriever.mkDocument "Lunges" ∅]
           1%nat (Retriever.mkDocument "Lunges" ∅)).
  reflexivity.
Defined.

Lemma workout_plan_degrades_to_context_witness :
  ChainPlans.generate_workout_plan no_float_repr offline_gateways
    (Some failing_workout_llm) home_profile None
  = ChainPlans.generate_workout_plan no_float_repr offline_gateways None
      home_profile None.
Proof.
  destruct (workout_plan_degrades_to_context no_float_repr offline_gateways
              home_profile None) as [H _].
  apply H. reflexivity.
Defined.

(** ** Ingestion: texts, chunks and identifiers *)

Section ingestion_more.
Import Py.
Import Ingestion.
Variable str : json -> string.
Variable split_text : string -> list string.
Variable utcnow : nat -> string.

Lemma _json_to_text_dict (item : json) (doc_type text_content : string) :
  _json_to_text str item doc_type = Ok text_content -> exists d, item = JDict d.
Proof.
  unfold _json_to_text. intros H. bind_inv H.
  destruct item; try discriminate Hv. eauto.
Qed.

(** X17.  The chunks of an item are the pieces of its split text, in order:
    chunk k carries piece k, index k, the given source file and document
    type, and the k-th clock reading from the start; the clock advances by
    the number of chunks.  Metadata the item does not give defaults to
    experience level "all", location "both", dietary type "all" and goal
    "general"; a value the item gives, even null, is kept as it is. *)
Theorem chunks_follow_split_text (item : json) (source_file : string) (idx : Z)
        (doc_type : string) (clock : nat) (chunks : list Chunk) (clock' : nat) :
  _chunk_json_item str split_text utcnow item source_file idx doc_type clock
  = Ok (chunks, clock') ->
  exists d text_content,
    item = JDict d
    /\ _json_to_text str item doc_type = Ok text_content
    /\ map text chunks = split_text text_content
    /\ clock' = (clock + length chunks)%nat
    /\ forall k c, chunks !! k = Some c ->
         chunk_index (metadata c) = Z.of_nat k
         /\ Ingestion.source_file (metadata c) = source_file
         /\ Ingestion.doc_type (metadata c) = doc_type
         /\ ingested_at (metadata c) = utcnow (clock + k)%nat
         /\ location (metadata c) = default (JStr "both") (assoc d "location")
         /\ goal (metadata c) = default (JStr "general") (assoc d "goal")
         /\ (assoc d "level" = None -> assoc d "experience_level" = None ->
             experience_level (metadata c) = JStr "all")
         /\ (assoc d "dietary_type" = None -> assoc d "preference" = None ->
             dietary_type (metadata c) = JStr "all")
         /\ (forall v, assoc d "level" = Some v -> experience_level (metadata c) = v).
Proof.
  unfold _chunk_json_item. intros H. bind_inv H. bind_inv H.
  injection H as <- <-.
  destruct (_json_to_text_dict _ _ _ Hv) as (d & ->). simpl in Hv0.
  injection Hv0 as <-.
  exists d, v. split; [reflexivity|]. split; [exact Hv|].
  split.
  { generalize (split_text v). intros l. rewrite fmap_imap.
    unfold compose. simpl.
    assert (G : forall (f : nat -> string -> string) l,
               (forall i x, f i x = x) -> imap f l = l).
    { intros f l0. revert f. induction l0 as [|x l0 IH]; intros f Hf; [reflexivity|].
      simpl. rewrite Hf. f_equal. apply IH. intros i y. apply Hf. }
    apply G. reflexivity. }
  split; [rewrite length_imap; reflexivity|].
  intros k c Hk. rewrite list_lookup_imap in Hk.
  destruct (split_text v !! k) as [piece|]; [|discriminate Hk].
  simpl in Hk. injection Hk as <-. simpl. unfold get_or.
  repeat split.
  - intros H1 H2. rewrite H1, H2. reflexivity.
  - intros H1 H2. rewrite H1, H2. reflexivity.
  - intros x H1. rewrite H1. reflexivity.
Qed.

(** X18.  The three shapes of a knowledge file are processed alike: an
    object with an ["items"] list like the list itself, a single object like
    the one-element list of it; a file holding anything else (a string, a
    number, null) yields no chunk and reads no clock. *)
Theorem file_shapes_agree (stem doc_type : string) (clock : nat) :
  (forall d items,
      assoc d "items" = Some (JList items) ->
      _process_json_file str split_text utcnow (JDict d) stem doc_type clock
      = _process_json_file str split_text utcnow (JList items) stem doc_type clock)
  /\ (forall d,
         assoc d "items" = None ->
         _process_json_file str split_text utcnow (JDict d) stem doc_type clock
         = _process_json_file str split_text utcnow (JList [JDict d]) stem doc_type
                              clock)
  /\ (forall data,
         (forall items, data <> JList items) -> (forall d, data <> JDict d) ->
         _process_json_file str split_text utcnow data stem doc_type clock
         = Ok ([], clock)).
Proof.
  repeat split.
  - intros d items H. unfold _process_json_file. rewrite H. reflexivity.
  - intros d H. unfold _process_json_file. rewrite H. simpl.
    destruct (_chunk_json_item str split_text utcnow (JDict d) stem 0 doc_type clock)
      as [[chunks clock']|e]; [|reflexivity].
    simpl. rewrite app_nil_r. reflexivity.
  - intros data Hl Hd. destruct data; try reflexivity.
    + exfalso. exact (Hl _ eq_refl).
    + exfalso. exact (Hd _ eq_refl).
Qed.

Lemma join_head (sep x : string) (l : list string) :
  exists rest, join sep (x :: l) = x +:+ rest.
Proof.
  destruct l as [|y l].
  - exists "". symmetry. apply str_app_nil_r.
  - eexists. reflexivity.
Qed.

(** X19.  An item that is no object makes [_json_to_text] raise
    [AttributeError], and so does an exercise that is no object; an
    [exercises] entry that cannot be iterated (a number, [true]) raises
    [TypeError].  Every text that is returned starts with the heading
    "# " and the item's name, or its title when it has no name, or "Item". *)
Theorem json_to_text_heading (doc_type : string) :
  (forall item, (forall d, item <> JDict d) ->
                _json_to_text str item doc_type = Raise AttributeError)
  /\ (forall d z,
         assoc d "exercises" = Some (JInt z) -> z <> 0 ->
         _json_to_text str (JDict d) doc_type = Raise TypeError)
  /\ (forall d exercise rest,
         assoc d "exercises" = Some (JList (exercise :: rest)) ->
         (forall e, exercise <> JDict e) ->
         _json_to_text str (JDict d) doc_type = Raise AttributeError)
  /\ (forall item text_content,
         _json_to_text str item doc_type = Ok text_content ->
         exists d rest,
           item = JDict d
           /\ text_content
              = "# " +:+ str (get_or d "name" (get_or d "title" (JStr "Item")))
                +:+ rest).
Proof.
  repeat split.
  - intros item H. destruct item; try reflexivity. exfalso. exact (H _ eq_refl).
  - intros d z H Hz.
    assert (Hg : get_or d "exercises" JNull = JInt z)
      by (unfold get_or; rewrite H; reflexivity).
    unfold _json_to_text. simpl. unfold has_truthy at 1. rewrite !Hg. simpl.
    apply Z.eqb_neq in Hz. rewrite Hz. reflexivity.
  - intros d exercise rest H Hn.
    assert (Hg : get_or d "exercises" JNull = JList (exercise :: rest))
      by (unfold get_or; rewrite H; reflexivity).
    unfold _json_to_text. simpl. unfold has_truthy at 1. rewrite !Hg. simpl.
    unfold exercise_line.
    destruct exercise; try reflexivity. exfalso. exact (Hn _ eq_refl).
  - intros item text_content H.
    destruct (_json_to_text_dict _ _ _ H) as (d & ->).
    exists d. unfold _json_to_text in H. simpl in H.
    bind_inv H. bind_inv H. injection H as <-.
    assert (Hhead : exists l,
               v0 = ("# " +:+ str (get_or d "name" (get_or d "title" (JStr "Item"))))
                    :: l).
    { assert (Hv' : exists l,
                 v = ("# " +:+ str (get_or d "name" (get_or d "title" (JStr "Item"))))
                     :: l).
      { destruct (has_truthy d "exercises").
        - bind_inv Hv. bind_inv Hv. injection Hv as <-.
          destruct (has_truthy d "description"); eexists; reflexivity.
        - injection Hv as <-.
          destruct (has_truthy d "description"); eexists; reflexivity. }
      destruct Hv' as (l & ->).
      destruct (has_truthy d "meals").
      - bind_inv Hv0. bind_inv Hv0. injection Hv0 as <-. eexists. reflexivity.
      - injection Hv0 as <-. eexists. reflexivity. }
    destruct Hhead as (l & ->).
    destruct (join_head nl ("# " +:+ str (get_or d "name" (get_or d "title" (JStr "Item")))) l)
      as (rest & ->).
    exists rest. split; [reflexivity|]. rewrite str_app_assoc. reflexivity.
Qed.

End ingestion_more.

Lemma chunks_follow_split_text_witness :
  exists c,
    Ingestion._chunk_json_item simple_str one_chunk frozen_clock plain_item
                               "push" 0 "workouts" 0
    = Py.Ok ([c], 1%nat)
    /\ Ingestion.text c = "# Push day"
    /\ Ingestion.location (Ingestion.metadata c) = Ingestion.JStr "both"
    /\ Ingestion.goal (Ingestion.metadata c) = Ingestion.JStr "general".
Proof.
  destruct (Ingestion._chunk_json_item simple_str one_chunk frozen_clock plain_item
              "push" 0 "workouts" 0) as [[chunks clock']|e] eqn:E.
  - destruct (chunks_follow_split_text simple_str one_chunk frozen_clock plain_item
                "push" 0 "workouts" 0 chunks clock' E)
      as (d & t & Hd & Ht & Htexts & Hclock & Hmeta).
    injection Hd as <-. vm_compute in Ht. injection Ht as <-.
    destruct chunks as [|c [|c' l]]; try discriminate Htexts.
    exists c. rewrite Hclock. split; [reflexivity|].
    injection Htexts as Htext. split; [exact Htext|].
    destruct (Hmeta 0%nat c eq_refl) as (_ & _ & _ & _ & Hl & Hg & _).
    split; [exact Hl|exact Hg].
  - vm_compute in E. discriminate E.
Defined.

Lemma file_shapes_agree_witness :
  Ingestion._process_json_file simple_str one_chunk frozen_clock plain_item
                               "push" "workouts" 0
  = Ingestion._process_json_file simple_str one_chunk frozen_clock
      (Ingestion.JList [plain_item]) "push" "workouts" 0.
Proof.
  apply (file_shapes_agree simple_str one_chunk frozen_clock "push" "workouts" 0).
  reflexivity.
Defined.

Lemma json_to_text_heading_witness :
  Ingestion._json_to_text simple_str (Ingestion.JStr "Push day") "workouts"
  = Py.Raise Py.AttributeError.
Proof.
  apply (json_to_text_heading simple_str "workouts"). discriminate.
Defined.

Section chunk_id_format.
Import Py.
Import Ingestion.

Lemma le_bytes_length (n : nat) (x : Z) : length (Md5.le_bytes n x) = n.
Proof.
  revert x. induction n as [|n IH]; intros x; simpl; [reflexivity|].
  rewrite IH. reflexivity.
Qed.

Lemma le_bytes_range (n : nat) (x : Z) :
  Forall (fun b => 0 <= b < 256) (Md5.le_bytes n x).
Proof.
  revert x. induction n as [|n IH]; intros x; simpl; constructor; [|apply IH].
  change 255 with (Z.ones 8). rewrite Z.land_ones by lia.
  apply Z.mod_pos_bound. lia.
Qed.

Lemma hex_digit_spec (n : Z) :
  0 <= n < 16 ->
  exists c, Md5.hex_digit n = String c "" /\ is_hex c = true.
Proof.
  intros H. rewrite <- (Z2Nat.id n) by lia.
  assert (Hk : (Z.to_nat n < 16)%nat) by lia.
  remember (Z.to_nat n) as k eqn:Ek. clear Ek H.
  do 16 (destruct k as [|k]; [eexists; split; reflexivity|]).
  lia.
Qed.

Lemma hex_byte_spec (b : Z) :
  0 <= b < 256 ->
  String.length (Md5.hex_byte b) = 2%nat /\ string_forall is_hex (Md5.hex_byte b) = true.
Proof.
  intros H. unfold Md5.hex_byte.
  destruct (hex_digit_spec (Z.shiftr b 4)) as (c1 & -> & H1).
  { rewrite Z.shiftr_div_pow2 by lia. change (2 ^ 4) with 16.
    split; [apply Z.div_pos; lia|apply Z.div_lt_upper_bound; lia]. }
  destruct (hex_digit_spec (Z.land b 15)) as (c2 & -> & H2).
  { change 15 with (Z.ones 4). rewrite Z.land_ones by lia.
    apply Z.mod_pos_bound. lia. }
  split; [reflexivity|]. simpl. rewrite H1, H2. reflexivity.
Qed.

Lemma string_forall_app (p : Ascii.ascii -> bool) (s t : string) :
  string_forall p (s +:+ t) = string_forall p s && string_forall p t.
Proof.
  induction s as [|c s IH]; [reflexivity|].
  rewrite str_app_cons. simpl. rewrite IH, andb_assoc. reflexivity.
Qed.

Lemma hex_of_bytes (bytes : list Z) :
  Forall (fun b => 0 <= b < 256) bytes ->
  let s := foldr (fun b acc => Md5.hex_byte b +:+ acc) "" bytes in
  String.length s = (2 * length bytes)%nat /\ string_forall is_hex s = true.
Proof.
  induction 1 as [|b l Hb Hl IH]; cbn [foldr length]; cbv zeta;
    [split; reflexivity|].
  cbv zeta in IH. destruct IH as [IH1 IH2].
  destruct (hex_byte_spec b Hb) as [H1 H2].
  rewrite str_length_app, string_forall_app, H1, H2, IH1, IH2.
  split; [lia|reflexivity].
Qed.

(** X20.  Every chunk id is a string of 32 lower-case hexadecimal digits,
    whatever the source file name and the indices. *)
Theorem chunk_id_is_32_hex_digits (source : string) (item_idx chunk_idx : Z) :
  String.length (_generate_chunk_id source item_idx chunk_idx) = 32%nat
  /\ string_forall is_hex (_generate_chunk_id source item_idx chunk_idx) = true.
Proof.
  unfold _generate_chunk_id, Md5.hexdigest.
  match goal with
  | |- context [foldr _ "" ?bytes] =>
      destruct (hex_of_bytes bytes) as [H1 H2]
  end.
  - repeat (apply Forall_app; split); apply le_bytes_range.
  - cbv zeta in H1, H2. rewrite H1, H2, !length_app, !le_bytes_length.
    split; reflexivity.
Qed.

End chunk_id_format.

Section pipeline_properties.
Import Py.
Import Ingestion.
Import IngestionPipeline.
Variable str : json -> string.
Variable split_text : string -> list string.
Variable utcnow : nat -> string.

Lemma _chunk_json_item_chunks (item : json) (source : string) (idx : Z)
      (doc_type : string) (clock : nat) (chunks : list Chunk) (clock' : nat) :
  _chunk_json_item str split_text utcnow item source idx doc_type clock
  = Ok (chunks, clock') ->
  Forall (fun c => Ingestion.doc_type (metadata c) = doc_type) chunks
  /\ map id chunks
     = map (fun k => _generate_chunk_id source idx (Z.of_nat k))
           (seq 0 (length chunks)).
Proof.
  unfold _chunk_json_item. intros H. bind_inv H. bind_inv H.
  injection H as <- _. split.
  - apply Forall_lookup. intros k c Hk. rewrite list_lookup_imap in Hk.
    destruct (split_text v !! k); [|discriminate Hk].
    simpl in Hk. injection Hk as <-. reflexivity.
  - rewrite length_imap, <- imap_seq_0, fmap_imap.
    apply imap_ext. reflexivity.
Qed.

Lemma chunk_items_doc_type (items : list json) (source : string) (idx : Z)
      (doc_type : string) (clock : nat) (chunks : list Chunk) (clock' : nat) :
  chunk_items str split_text utcnow items source idx doc_type clock
  = Ok (chunks, clock') ->
  Forall (fun c => Ingestion.doc_type (metadata c) = doc_type) chunks.
Proof.
  revert idx clock chunks clock'.
  induction items as [|item rest IH]; intros idx clock chunks clock' H; simpl in H.
  - injection H as <- _. constructor.
  - bind_inv H. bind_inv H. injection H as <- _.
    destruct v as [c1 k1]. destruct v0 as [c2 k2]. simpl in *.
    apply Forall_app. split.
    + exact (proj1 (_chunk_json_item_chunks _ _ _ _ _ _ _ Hv)).
    + exact (IH _ _ _ _ Hv0).
Qed.

Lemma _process_json_file_doc_type (data : json) (stem doc_type : string)
      (clock : nat) (chunks : list Chunk) (clock' : nat) :
  _process_json_file str split_text utcnow data stem doc_type clock
  = Ok (chunks, clock') ->
  Forall (fun c => Ingestion.doc_type (metadata c) = doc_type) chunks.
Proof.
  unfold _process_json_file. intros H.
  destruct data as [| | | | |items|d]; try (injection H as <- _; constructor).
  - exact (chunk_items_doc_type _ _ _ _ _ _ _ H).
  - destruct (assoc d "items") as [v|].
    + bind_inv H. exact (chunk_items_doc_type _ _ _ _ _ _ _ H).
    + exact (proj1 (_chunk_json_item_chunks _ _ _ _ _ _ _ H)).
Qed.

Lemma upserted_app (a b : list event) : upserted (a ++ b) = upserted a + upserted b.
Proof.
  induction a as [|ev a IH]; [reflexivity|].
  destruct ev; simpl; rewrite IH; lia.
Qed.

(** One file adds at most one call, a non-empty upsert of chunks typed by
    the namespace, and adds their number to the total. *)
Lemma ingest_file_step (namespace : string) (total : Z) (st : state) (file : JsonFile) :
  exists new,
    calls (snd (ingest_file str split_text utcnow namespace (total, st) file))
    = calls st ++ new
    /\ Forall (upsert_into namespace) new
    /\ fst (ingest_file str split_text utcnow namespace (total, st) file)
       = total + upserted new.
Proof.
  unfold ingest_file.
  destruct (content file) as [data|e].
  - destruct (_process_json_file str split_text utcnow data (stem file) namespace
                                 (clock st)) as [[chunks clock']|e] eqn:E.
    + destruct chunks as [|c l] eqn:Ec.
      * exists []. simpl. rewrite app_nil_r. repeat split; try constructor; try lia.
      * exists [Upsert namespace (c :: l)]. simpl.
        split; [reflexivity|]. split; [|lia].
        constructor; [|constructor]. exists (c :: l).
        split; [reflexivity|]. split; [discriminate|].
        exact (_process_json_file_doc_type _ _ _ _ _ _ E).
    + exists []. simpl. rewrite app_nil_r. repeat split; try constructor; try lia.
  - exists []. simpl. rewrite app_nil_r. repeat split; try constructor; try lia.
Qed.

Lemma ingest_files_fold (namespace : string) (files : list JsonFile) (total : Z)
      (st : state) :
  exists new,
    calls (snd (foldl (ingest_file str split_text utcnow namespace) (total, st) files))
    = calls st ++ new
    /\ Forall (upsert_into namespace) new
    /\ fst (foldl (ingest_file str split_text utcnow namespace) (total, st) files)
       = total + upserted new.
Proof.
  revert total st. induction files as [|file rest IH]; intros total st.
  - exists []. simpl. rewrite app_nil_r. repeat split; try constructor; try lia.
  - cbn [foldl].
    destruct (ingest_file_step namespace total st file) as (n1 & Hc1 & Hf1 & Ht1).
    destruct (ingest_file str split_text utcnow namespace (total, st) file)
      as [total1 st1]. cbn [fst snd] in *.
    destruct (IH total1 st1) as (n2 & Hc2 & Hf2 & Ht2).
    exists (n1 ++ n2). rewrite Hc2, Hc1, Ht2, Ht1, upserted_app, app_assoc.
    split; [reflexivity|]. split; [apply Forall_app; split; assumption|lia].
Qed.

Lemma ingest_directory_isolates_failures_aux (files : list JsonFile)
      (namespace : string) (st : state) :
  exists new,
    calls (snd (_ingest_directory str split_text utcnow files namespace st))
    = calls st ++ new
    /\ Forall (upsert_into namespace) new
    /\ fst (_ingest_directory str split_text utcnow files namespace st)
       = upserted new.
Proof.
  unfold _ingest_directory.
  destruct (ingest_files_fold namespace files 0 st) as (new & Hc & Hf & Ht).
  exists new. rewrite Hc, Ht. split; [reflexivity|]. split; [exact Hf|lia].
Qed.

(** X21.  Directory ingestion isolates failures.  Whatever the files hold,
    the calls it adds are upserts of non-empty chunk lists into its
    namespace, the chunks typed by that namespace, and the total it returns
    is the number of chunks upserted.  A file that cannot be read or decoded
    is skipped as if it were not there. *)
Theorem ingest_directory_isolates_failures (files : list JsonFile)
        (namespace : string) (st : state) :
  (exists new,
      calls (snd (_ingest_directory str split_text utcnow files namespace st))
      = calls st ++ new
      /\ Forall (upsert_into namespace) new
      /\ fst (_ingest_directory str split_text utcnow files namespace st)
         = upserted new)
  /\ (forall before bad after,
         files = before ++ bad :: after -> is_ok (content bad) = false ->
         _ingest_directory str split_text utcnow files namespace st
         = _ingest_directory str split_text utcnow (before ++ after) namespace st).
Proof.
  split; [apply ingest_directory_isolates_failures_aux|].
  intros before bad after -> Hbad. unfold _ingest_directory.
    rewrite !foldl_app. simpl.
    destruct (foldl (ingest_file str split_text utcnow namespace) (0, st) before)
      as [total st1].
    unfold ingest_file at 2. destruct (content bad); [discriminate Hbad|reflexivity].
Qed.

(** X22.  Every manually ingested document gets the chunk ids of
    ("manual_entry", 0, position): the ids depend on neither the document
    nor its type, so the chunks of any two such documents collide position
    by position.  The chunks go to the namespace [doc_type + "s"], which is
    also their document type; with the index unavailable nothing is sent
    and 0 is returned. *)
Theorem manual_documents_share_chunk_ids (document : json) (doc_type : string)
        (st : state) :
  ingest_single_document str split_text utcnow false document doc_type st
  = Ok (0, st)
  /\ (forall n st',
         ingest_single_document str split_text utcnow true document doc_type st
         = Ok (n, st') ->
         exists chunks,
           n = Z.of_nat (length chunks)
           /\ calls st' = match chunks with
                          | [] => calls st
                          | _ => calls st ++ [Upsert (doc_type +:+ "s") chunks]
                          end
           /\ map id chunks
              = map (fun k => _generate_chunk_id "manual_entry" 0 (Z.of_nat k))
                    (seq 0 (length chunks))
           /\ Forall (fun c => Ingestion.doc_type (metadata c) = doc_type +:+ "s")
                     chunks).
Proof.
  split; [reflexivity|].
  intros n st' H. unfold ingest_single_document in H. simpl in H.
  bind_inv H. destruct v as [chunks clock']. injection H as <- <-.
  destruct (_chunk_json_item_chunks _ _ _ _ _ _ _ Hv) as [Hd Hi].
  exists chunks. simpl. split; [reflexivity|]. split; [reflexivity|].
  split; assumption.
Qed.

(** X23.  [ingest_all] with the index unavailable does nothing and reports
    zeros.  Otherwise it first asks for the index (dimension 768), then
    ingests the workouts and the diets directory, whichever exist: the
    processed counts are the numbers of files listed, failed files
    included, and [total_chunks] is the number of chunks upserted. *)
Theorem ingest_all_counts (data_dir : DataDir) (st : state) :
  ingest_all str split_text utcnow false data_dir st = (mkIngestStats 0 0 0, st)
  /\ (let r := ingest_all str split_text utcnow true data_dir st in
      workouts_processed (fst r)
      = Z.of_nat (length (default [] (workouts_dir data_dir)))
      /\ diets_processed (fst r)
         = Z.of_nat (length (default [] (diets_dir data_dir)))
      /\ exists new_workouts new_diets,
           calls (snd r)
           = calls st ++ CreateIndex 768 :: new_workouts ++ new_diets
           /\ Forall (upsert_into "workouts") new_workouts
           /\ Forall (upsert_into "diets") new_diets
           /\ total_chunks (fst r) = upserted new_workouts + upserted new_diets).
Proof.
  split; [reflexivity|].
  unfold ingest_all. cbn [negb].
  set (st0 := mkPipelineState (clock st) (calls st ++ [CreateIndex 768])).
  destruct (workouts_dir data_dir) as [wfiles|].
  - destruct (ingest_directory_isolates_failures_aux wfiles "workouts" st0)
      as (nw & Hcw & Hfw & Htw).
    destruct (_ingest_directory str split_text utcnow wfiles "workouts" st0)
      as [wchunks st1]. cbn [fst snd] in Hcw, Htw.
    destruct (diets_dir data_dir) as [dfiles|].
    + destruct (ingest_directory_isolates_failures_aux dfiles "diets" st1)
        as (nd & Hcd & Hfd & Htd).
      destruct (_ingest_directory str split_text utcnow dfiles "diets" st1)
        as [dchunks st2]. cbn [fst snd] in Hcd, Htd. simpl.
      split; [reflexivity|]. split; [reflexivity|].
      exists nw, nd. rewrite Hcd, Hcw. unfold st0. simpl. rewrite <- !app_assoc.
      split; [reflexivity|]. split; [exact Hfw|]. split; [exact Hfd|lia].
    + simpl. split; [reflexivity|]. split; [reflexivity|].
      exists nw, []. rewrite Hcw. unfold st0. simpl. rewrite <- !app_assoc, app_nil_r.
      split; [reflexivity|]. split; [exact Hfw|]. split; [constructor|simpl; lia].
  - destruct (diets_dir data_dir) as [dfiles|].
    + destruct (ingest_directory_isolates_failures_aux dfiles "diets" st0)
        as (nd & Hcd & Hfd & Htd).
      destruct (_ingest_directory str split_text utcnow dfiles "diets" st0)
        as [dchunks st2]. cbn [fst snd] in Hcd, Htd. simpl.
      split; [reflexivity|]. split; [reflexivity|].
      exists [], nd. rewrite Hcd. unfold st0. simpl. rewrite <- !app_assoc.
      split; [reflexivity|]. split; [constructor|]. split; [exact Hfd|lia].
    + simpl. split; [reflexivity|]. split; [reflexivity|].
      exists [], [].
      split; [reflexivity|]. split; [constructor|]. split; [constructor|reflexivity].
Qed.

End pipeline_properties.

Lemma manual_documents_share_chunk_ids_witness :
  exists c1 c2 st1 st2,
    IngestionPipeline.ingest_single_document simple_str one_chunk frozen_clock true
      plain_item "workout" fresh_state = Py.Ok (1, st1)
    /\ IngestionPipeline.calls st1 = [IngestionPipeline.Upsert "workouts" [c1]]
    /\ IngestionPipeline.ingest_single_document simple_str one_chunk frozen_clock true
         other_item "workout" fresh_state = Py.Ok (1, st2)
    /\ IngestionPipeline.calls st2 = [IngestionPipeline.Upsert "workouts" [c2]]
    /\ Ingestion.text c1 = "# Push day" /\ Ingestion.text c2 = "# Pull day"
    /\ Ingestion.id c1 = Ingestion.id c2.
Proof.
  destruct (IngestionPipeline.ingest_single_document simple_str one_chunk frozen_clock
              true plain_item "workout" fresh_state) as [[n1 st1]|e] eqn:E1;
    [|vm_compute in E1; discriminate E1].
  destruct (IngestionPipeline.ingest_single_document simple_str one_chunk frozen_clock
              true other_item "workout" fresh_state) as [[n2 st2]|e] eqn:E2;
    [|vm_compute in E2; discriminate E2].
  destruct (manual_documents_share_chunk_ids simple_str one_chunk frozen_clock
              plain_item "workout" fresh_state) as [_ H1].
  destruct (H1 n1 st1 E1) as (k1 & Hn1 & Hc1 & Hi1 & _).
  destruct (manual_documents_share_chunk_ids simple_str one_chunk frozen_clock
              other_item "workout" fresh_state) as [_ H2].
  destruct (H2 n2 st2 E2) as (k2 & Hn2 & Hc2 & Hi2 & _).
  vm_compute in E1. injection E1 as <- <-.
  vm_compute in E2. injection E2 as <- <-.
  destruct k1 as [|c1 [|x1 l1]]; try discriminate Hn1; try discriminate Hc1.
  destruct k2 as [|c2 [|x2 l2]]; try discriminate Hn2; try discriminate Hc2.
  injection Hc1 as Hc1. injection Hc2 as Hc2.
  injection Hi1 as Hi1. injection Hi2 as Hi2.
  exists c1, c2. do 2 eexists.
  split; [reflexivity|]. split; [rewrite <- Hc1; reflexivity|].
  split; [reflexivity|]. split; [rewrite <- Hc2; reflexivity|].
  split; [rewrite <- Hc1; reflexivity|]. split; [rewrite <- Hc2; reflexivity|].
  rewrite Hi1, Hi2. reflexivity.
Defined.

Lemma ingest_directory_isolates_failures_witness :
  IngestionPipeline._ingest_directory simple_str one_chunk frozen_clock
    [broken_file; push_file] "workouts" fresh_state
  = IngestionPipeline._ingest_directory simple_str one_chunk frozen_clock
      [push_file] "workouts" fresh_state.
Proof.
  apply (proj2 (ingest_directory_isolates_failures simple_str one_chunk frozen_clock
                  [broken_file; push_file] "workouts" fresh_state)
               [] broken_file [push_file]); reflexivity.
Defined.

(** ** The vector store: batches and truncation *)

Section batching.
Import VectorStore.

Lemma concat_slices {A : Type} (size k : nat) (l : list A) :
  (length l <= k * size)%nat ->
  concat (map (fun i => slice l i size) (map (fun j => (j * size)%nat) (seq 0 k))) = l.
Proof.
  revert l. induction k as [|k IH]; intros l H.
  - destruct l; [reflexivity|]. simpl in H. lia.
  - rewrite <- cons_seq, <- fmap_S_seq.
    cbn [map fmap list_fmap concat].
    transitivity (take size l ++ drop size l); [|apply take_drop].
    f_equal.
    etransitivity; [|apply (IH (drop size l)); rewrite length_drop; lia].
    f_equal. unfold fmap. rewrite !map_map. apply map_ext.
    intros j. unfold slice. rewrite drop_drop. reflexivity.
Qed.

Lemma range_step_covers (n size : nat) :
  (0 < size)%nat -> (n <= (n + size - 1) / size * size)%nat.
Proof.
  intros H.
  pose proof (Nat.div_mod_eq (n + size - 1) size) as E.
  pose proof (Nat.mod_upper_bound (n + size - 1) size) as B.
  nia.
Qed.

(** X24.  The batches of an upsert partition the records: put together in
    order they are the records, none is empty and none has more than
    [batch_size] records; there are [ceil(n / batch_size)] of them. *)
Theorem batches_partition {A : Type} (vectors : list A) (batch_size : nat) :
  (0 < batch_size)%nat ->
  concat (batches vectors batch_size) = vectors
  /\ Forall (fun batch => (0 < length batch <= batch_size)%nat)
            (batches vectors batch_size)
  /\ length (batches vectors batch_size)
     = ((length vectors + batch_size - 1) / batch_size)%nat.
Proof.
  intros H. unfold batches, range_step. split; [|split].
  - apply concat_slices. apply range_step_covers. exact H.
  - apply Forall_forall. intros batch Hb.
    apply list_elem_of_fmap in Hb. destruct Hb as (i & -> & Hi).
    apply list_elem_of_fmap in Hi. destruct Hi as (j & -> & Hj).
    apply elem_of_seq in Hj. unfold slice.
    rewrite length_take, length_drop.
    assert (j * batch_size < length vectors)%nat.
    { pose proof (Nat.div_mod_eq (length vectors + batch_size - 1) batch_size) as E.
      pose proof (Nat.mod_upper_bound (length vectors + batch_size - 1) batch_size) as B.
      nia. }
    lia.
  - rewrite !length_map, length_seq. reflexivity.
Qed.

Lemma str_prefix_is_prefix (n : nat) (s : string) :
  exists rest, s = str_prefix n s +:+ rest.
Proof.
  revert n. induction s as [|c s IH]; intros n.
  - exists "". reflexivity.
  - simpl. destruct (is_continuation c).
    + destruct (IH n) as (rest & E). exists rest.
      rewrite str_app_cons, <- E. reflexivity.
    + destruct n as [|n].
      * exists (String c s). reflexivity.
      * destruct (IH n) as (rest & E). exists rest.
        rewrite str_app_cons, <- E. reflexivity.
Qed.

Lemma str_prefix_count (n : nat) (s : string) :
  (char_count (str_prefix n s) <= n)%nat.
Proof.
  revert n. induction s as [|c s IH]; intros n; simpl; [lia|].
  destruct (is_continuation c) eqn:E.
  - simpl. rewrite E. apply IH.
  - destruct n as [|n]; simpl; [lia|]. rewrite E. specialize (IH n). lia.
Qed.

Lemma str_prefix_all (n : nat) (s : string) :
  (char_count s <= n)%nat -> str_prefix n s = s.
Proof.
  revert n. induction s as [|c s IH]; intros n H; simpl in *; [reflexivity|].
  destruct (is_continuation c).
  - rewrite IH by exact H. reflexivity.
  - destruct n as [|n]; [lia|]. rewrite IH by lia. reflexivity.
Qed.

(** X25.  [text[:n]] on UTF-8 bytes: the result is a prefix of the text, has
    at most [n] characters, and is the whole text when the text has at most
    [n] characters. *)
Theorem str_prefix_truncates (n : nat) (s : string) :
  (exists rest, s = str_prefix n s +:+ rest)
  /\ (char_count (str_prefix n s) <= n)%nat
  /\ ((char_count s <= n)%nat -> str_prefix n s = s).
Proof.
  split; [apply str_prefix_is_prefix|].
  split; [apply str_prefix_count|apply str_prefix_all].
Qed.

End batching.

Section upsert_properties.
Import Py.
Import Ingestion.
Import VectorStore.
Variable V : Type.

Lemma send_accepted (upsert : list (VectorRecord V) -> string -> result unit)
      (namespace : string) (todo sent : list (list (VectorRecord V))) :
  Forall (fun batch => is_ok (upsert batch namespace) = true) todo ->
  send V upsert namespace todo sent = (Ok tt, sent ++ todo).
Proof.
  revert sent. induction todo as [|batch todo IH]; intros sent H.
  - simpl. rewrite app_nil_r. reflexivity.
  - apply Forall_cons in H. destruct H as [Hb H]. simpl.
    destruct (upsert batch namespace) as [[]|e]; [|discriminate Hb].
    rewrite (IH _ H), <- app_assoc. reflexivity.
Qed.

Lemma send_refused (upsert : list (VectorRecord V) -> string -> result unit)
      (namespace : string) (done : list (list (VectorRecord V)))
      (bad : list (VectorRecord V)) (rest sent : list (list (VectorRecord V))) :
  Forall (fun batch => is_ok (upsert batch namespace) = true) done ->
  is_ok (upsert bad namespace) = false ->
  exists e, upsert bad namespace = Raise e
            /\ send V upsert namespace (done ++ bad :: rest) sent
               = (Raise e, sent ++ done).
Proof.
  revert sent. induction done as [|batch done IH]; intros sent H Hbad.
  - simpl. destruct (upsert bad namespace) as [[]|e]; [discriminate Hbad|].
    exists e. rewrite app_nil_r. split; reflexivity.
  - apply Forall_cons in H. destruct H as [Hb H]. simpl.
    destruct (upsert batch namespace) as [[]|e]; [|discriminate Hb].
    destruct (IH (sent ++ [batch]) H Hbad) as (e & He & Hs).
    exists e. rewrite Hs, <- app_assoc. split; [exact He|reflexivity].
Qed.

(** X26.  What [upsert_documents] sends and reports.  With the index or the
    embedding provider unavailable, or an embedding call that raises, it
    sends nothing and returns 0.  Otherwise it builds one record per chunk
    that has an embedding: the chunk's id, its embedding, its metadata and
    the first 1000 characters of its text.  With no index handle it sends
    nothing and still returns the number of records.  With an index it sends
    the records in batches of 100, in order: when the index accepts every
    batch all of them are sent and the number of records is returned; when it
    refuses one, the batches before it have been sent, none after it is, and
    0 is returned. *)
Theorem upsert_documents_report
        (pinecone_is_available embedding_is_available : bool)
        (embed_documents : list string -> result (list V))
        (index : option (list (VectorRecord V) -> string -> result unit))
        (documents : list Chunk) (namespace : string) :
  let run := upsert_documents V pinecone_is_available embedding_is_available
                              embed_documents index documents namespace in
  (pinecone_is_available && embedding_is_available = false -> run = (0, []))
  /\ (is_ok (embed_documents (map text documents)) = false -> run = (0, []))
  /\ (forall embeddings,
         pinecone_is_available = true -> embedding_is_available = true ->
         embed_documents (map text documents) = Ok embeddings ->
         exists vectors,
           length vectors = Nat.min (length documents) (length embeddings)
           /\ (forall i doc embedding,
                  documents !! i = Some doc -> embeddings !! i = Some embedding ->
                  vectors !! i
                  = Some (mkVectorRecord V (id doc) embedding (metadata doc)
                                         (str_prefix 1000 (text doc))))
           /\ (index = None -> run = (Z.of_nat (length vectors), []))
           /\ (forall upsert,
                  index = Some upsert ->
                  Forall (fun batch => is_ok (upsert batch namespace) = true)
                         (batches vectors 100) ->
                  run = (Z.of_nat (length vectors), batches vectors 100))
           /\ (forall upsert done bad rest,
                  index = Some upsert ->
                  batches vectors 100 = done ++ bad :: rest ->
                  Forall (fun batch => is_ok (upsert batch namespace) = true) done ->
                  is_ok (upsert bad namespace) = false ->
                  run = (0, done))).
Proof.
  cbv zeta. unfold upsert_documents. split; [|split].
  - intros H. destruct pinecone_is_available; [|reflexivity].
    simpl in H. rewrite H. reflexivity.
  - intros H. destruct pinecone_is_available; [|reflexivity].
    destruct embedding_is_available; [|reflexivity]. simpl.
    destruct (embed_documents (map text documents)); [discriminate H|reflexivity].
  - intros embeddings -> -> ->. cbn [negb].
    eexists. split; [apply length_zip_with|].
    split; [|split; [|split]].
    + intros i doc embedding Hd He.
      rewrite lookup_zip_with, Hd. cbn [mbind option_bind]. rewrite He. reflexivity.
    + intros ->. reflexivity.
    + intros upsert -> Hall. rewrite (send_accepted _ _ _ _ Hall). reflexivity.
    + intros upsert done bad rest -> Hb Hdone Hbad. rewrite Hb.
      destruct (send_refused upsert namespace done bad rest [] Hdone Hbad)
        as (e & _ & ->).
      reflexivity.
Qed.

End upsert_properties.

Lemma upsert_documents_report_witness :
  VectorStore.upsert_documents nat true true length_embeddings (Some accepting_index)
                               [sample_chunk] "workouts"
  = (1, [[VectorStore.mkVectorRecord nat "0123" 8%nat
            (Ingestion.metadata sample_chunk) "Push day"]]).
Proof.
  destruct (upsert_documents_report nat true true length_embeddings
              (Some accepting_index) [sample_chunk] "workouts") as (_ & _ & H).
  destruct (H [8%nat] eq_refl eq_refl eq_refl) as (vectors & Hl & Hv & _ & Ha & _).
  specialize (Hv 0%nat sample_chunk 8%nat eq_refl eq_refl).
  destruct vectors as [|v [|v' l]]; [discriminate Hl| |discriminate Hl].
  injection Hv as ->.
  apply (Ha accepting_index eq_refl). repeat constructor.
Defined.

Lemma batches_partition_witness :
  concat (VectorStore.batches [1; 2; 3; 4; 5] 2) = [1; 2; 3; 4; 5]
  /\ Forall (fun batch => (0 < length batch <= 2)%nat)
            (VectorStore.batches [1; 2; 3; 4; 5] 2)
  /\ length (VectorStore.batches [1; 2; 3; 4; 5] 2) = 3%nat.
Proof.
  apply (batches_partition [1; 2; 3; 4; 5] 2). lia.
Defined.

(** ** The routes of backend/api/routes/rag.py *)

Section retrieve_route.
Import Py.
Import Retriever.
Import RagRoutes.
Variable float_repr : float -> string.

Lemma level_or_all_truthy (filter_level : option string) :
  truthy (PStr (level_or_all filter_level)) = true.
Proof.
  unfold level_or_all. destruct filter_level as [level|]; [|reflexivity].
  destruct (String.eqb level "") eqn:E; [reflexivity|].
  simpl. rewrite E. reflexivity.
Qed.

Lemma route_profile_filter (level : string) :
  truthy (PStr level) = true ->
  _build_workout_filter {[ "experience_level" := PStr level;
                           "workout_location" := PStr "both" ]}
  = Some {[ "experience_level" := {[ "$eq" := PStr level ]} ]}.
Proof.
  intros H. unfold _build_workout_filter.
  rewrite lookup_insert_eq. rewrite H.
  rewrite lookup_insert_ne by discriminate. rewrite lookup_singleton_eq.
  cbn [truthy ne_str String.eqb Ascii.eqb Bool.eqb negb].
  unfold nonempty_or_None.
  destruct (decide _) as [E|_]; [|reflexivity].
  exfalso. exact (insert_non_empty _ _ _ E).
Qed.

Lemma route_profile_workout_query (query level : string) :
  truthy (PStr level) = true ->
  _enhance_query float_repr query
                 {[ "experience_level" := PStr level;
                    "workout_location" := PStr "both" ]} "workout"
  = query +:+ " [Level: " +:+ level +:+ " | Location: both]".
Proof.
  intros H. unfold _enhance_query, hint.
  cbn [String.eqb Ascii.eqb Bool.eqb].
  rewrite lookup_insert_ne by discriminate.
  rewrite lookup_singleton_ne by discriminate.
  rewrite lookup_insert_eq, H.
  rewrite lookup_insert_ne by discriminate. rewrite lookup_singleton_eq.
  cbn [truthy String.eqb negb app str join].
  rewrite !str_app_assoc. reflexivity.
Qed.

Lemma route_profile_diet (query level : string) :
  _build_diet_filter {[ "experience_level" := PStr level;
                        "workout_location" := PStr "both" ]} = None
  /\ _enhance_query float_repr query
                    {[ "experience_level" := PStr level;
                       "workout_location" := PStr "both" ]} "diet"
     = query.
Proof.
  unfold _build_diet_filter, _enhance_query, hint.
  cbn [String.eqb Ascii.eqb Bool.eqb].
  rewrite !lookup_insert_ne by discriminate.
  rewrite !lookup_singleton_ne by discriminate.
  split; reflexivity.
Qed.

(** X27.  What the [/retrieve] route asks of the index.  For workouts it is
    one query in the namespace "workouts", of the request's text followed by
    " [Level: <level> | Location: both]", filtered on an experience level
    equal to the requested level, and to "all" when the request names none
    or an empty one; the location is never filtered.  For diets it is one
    query in "diets" of the text as given, with no filter: the level of the
    request plays no part.  Two gateways that agree on their availability
    and on that query give the same response. *)
Theorem retrieve_route_request (g1 g2 : Gateways) (q : RetrievalQuery) :
  pinecone_is_available g1 = pinecone_is_available g2 ->
  embedding_is_available g1 = embedding_is_available g2 ->
  (filter_type q = Some "workout" ->
   pinecone_query g1
     (query q +:+ " [Level: " +:+ level_or_all (filter_level q) +:+ " | Location: both]")
     (top_k q) "workouts"
     (Some {[ "experience_level" := {[ "$eq" := PStr (level_or_all (filter_level q)) ]} ]})
   = pinecone_query g2
       (query q +:+ " [Level: " +:+ level_or_all (filter_level q) +:+ " | Location: both]")
       (top_k q) "workouts"
       (Some {[ "experience_level" := {[ "$eq" := PStr (level_or_all (filter_level q)) ]} ]}) ->
   retrieve_documents float_repr g1 q = retrieve_documents float_repr g2 q)
  /\ (filter_type q = Some "diet" ->
      pinecone_query g1 (query q) (top_k q) "diets" None
      = pinecone_query g2 (query q) (top_k q) "diets" None ->
      retrieve_documents float_repr g1 q = retrieve_documents float_repr g2 q).
Proof.
  intros Hp He.
  pose proof (level_or_all_truthy (filter_level q)) as Ht.
  split; intros Hf Hq; unfold retrieve_documents; rewrite Hf;
    cbn [String.eqb Ascii.eqb Bool.eqb]; f_equal.
  - unfold retrieve_workout_context, is_available.
    rewrite (route_profile_filter _ Ht), (route_profile_workout_query _ _ Ht).
    rewrite Hp, He, Hq. reflexivity.
  - unfold retrieve_diet_context, is_available.
    destruct (route_profile_diet (query q) (level_or_all (filter_level q)))
      as [-> ->].
    rewrite Hp, He, Hq. reflexivity.
Qed.

(** X28.  The [/retrieve] route never answers with an empty list, and no
    content it returns has more than 500 characters.  A request whose type
    is neither "workout" nor "diet" gets at least two documents, whatever
    its [top_k]. *)
Theorem retrieve_route_documents (gateways : Gateways) (q : RetrievalQuery) :
  retrieve_documents float_repr gateways q <> []
  /\ Forall (fun d => (char_count (doc_content d) <= 500)%nat)
            (retrieve_documents float_repr gateways q)
  /\ (filter_type q <> Some "workout" -> filter_type q <> Some "diet" ->
      (2 <= length (retrieve_documents float_repr gateways q))%nat).
Proof.
  unfold retrieve_documents.
  set (profile := ({[ "experience_level" := PStr (level_or_all (filter_level q));
                      "workout_location" := PStr "both" ]} : gmap string pyval)).
  pose proof (retrieve_workout_context_nonempty float_repr gateways) as Hw.
  pose proof (retrieve_diet_context_nonempty float_repr gateways) as Hd.
  split; [|split].
  - intros H. apply fmap_nil_inv in H. revert H.
    destruct (filter_type q) as [t|]; cbn zeta.
    + destruct (String.eqb t "workout"); [apply Hw|].
      destruct (String.eqb t "diet"); [apply Hd|].
      intros H. apply app_eq_nil in H. destruct H as [H _]. revert H. apply Hw.
    + intros H. apply app_eq_nil in H. destruct H as [H _]. revert H. apply Hw.
  - apply Forall_fmap, Forall_forall. intros doc _. simpl.
    apply str_prefix_count.
  - intros H1 H2. rewrite length_fmap.
    assert (forall query k,
               (2 <= length (workouts (retrieve_combined_context float_repr gateways
                                         query profile k)
                             ++ diets (retrieve_combined_context float_repr gateways
                                         query profile k)))%nat) as Hc.
    { intros query k. rewrite length_app. simpl.
      specialize (Hw query profile k). specialize (Hd query profile k).
      destruct (retrieve_workout_context _ _ _ _ _); [contradiction|].
      destruct (retrieve_diet_context _ _ _ _ _); [contradiction|].
      simpl. lia. }
    destruct (filter_type q) as [t|]; cbn zeta; [|apply Hc].
    destruct (String.eqb_spec t "workout") as [->|_]; [contradiction|].
    destruct (String.eqb_spec t "diet") as [->|_]; [contradiction|].
    apply Hc.
Qed.

End retrieve_route.

Lemma retrieve_route_request_witness :
  RagRoutes.retrieve_documents no_float_repr one_match_gateways workout_request
  = RagRoutes.retrieve_documents no_float_repr workouts_only_gateways workout_request.
Proof.
  apply (proj1 (retrieve_route_request no_float_repr one_match_gateways
                  workouts_only_gateways workout_request eq_refl eq_refl));
    reflexivity.
Defined.

Section ingest_route.
Import Py.
Import Ingestion.
Import IngestionPipeline.
Variable str : json -> string.
Variable split_text : string -> list string.
Variable utcnow : nat -> string.

Lemma ingest_each_unavailable (documents : list json) (document_type : string)
      (total : Z) (st : state) :
  ingest_each str split_text utcnow false documents document_type total st
  = (Ok total, st).
Proof.
  revert total. induction documents as [|doc rest IH]; intros total; [reflexivity|].
  cbn [ingest_each]. unfold ingest_single_document. cbn [negb].
  rewrite IH. f_equal. f_equal. lia.
Qed.

Lemma ingest_each_calls (documents : list json) (document_type : string)
      (total : Z) (st : state) :
  exists new,
    calls (snd (ingest_each str split_text utcnow true documents document_type
                            total st))
    = calls st ++ new
    /\ Forall (upsert_into (document_type +:+ "s")) new
    /\ match fst (ingest_each str split_text utcnow true documents document_type
                              total st) with
       | Ok n => n = total + upserted new
       | Raise _ => True
       end.
Proof.
  revert total st. induction documents as [|doc rest IH]; intros total st.
  - exists []. simpl. rewrite app_nil_r. split; [reflexivity|].
    split; [constructor|lia].
  - cbn [ingest_each].
    destruct (ingest_single_document str split_text utcnow true doc document_type st)
      as [[n st1]|e] eqn:E.
    + unfold ingest_single_document in E. cbn [negb] in E.
      bind_inv E. destruct v as [chunks clock']. injection E as <- <-.
      destruct (IH (total + Z.of_nat (length chunks))
                   (mkPipelineState clock'
                      match chunks with
                      | [] => calls st
                      | _ :: _ => calls st ++ [Upsert (document_type +:+ "s") chunks]
                      end)) as (new & Hc & Hf & Hn).
      destruct chunks as [|c l].
      * exists new. cbn [calls] in Hc. split; [exact Hc|]. split; [exact Hf|].
        destruct (fst _); [|exact I]. simpl in Hn. lia.
      * exists (Upsert (document_type +:+ "s") (c :: l) :: new).
        cbn [calls] in Hc. rewrite Hc, <- app_assoc.
        split; [reflexivity|]. split.
        -- constructor; [|exact Hf]. exists (c :: l).
           split; [reflexivity|]. split; [discriminate|].
           exact (proj1 (_chunk_json_item_chunks str split_text utcnow
                           _ _ _ _ _ _ _ Hv)).
        -- destruct (fst _); [|exact I].
           cbn [upserted]. lia.
    + exists []. simpl. rewrite app_nil_r. split; [reflexivity|].
      split; [constructor|exact I].
Qed.

Lemma _chunk_json_item_accepted (item : json) (source : string) (idx : Z)
      (doc_type : string) (clock : nat) :
  is_ok (_json_to_text str item doc_type) = true ->
  exists chunks,
    _chunk_json_item str split_text utcnow item source idx doc_type clock
    = Ok (chunks, (clock + pieces_of str split_text doc_type item)%nat)
    /\ length chunks = pieces_of str split_text doc_type item.
Proof.
  intros H. unfold _chunk_json_item, pieces_of.
  destruct (_json_to_text str item doc_type) as [text_content|e] eqn:E;
    [|discriminate H].
  cbn [bind].
  destruct item as [| | | | | |d]; try discriminate E.
  cbn [as_dict bind]. eexists. split; [reflexivity|]. apply length_imap.
Qed.

Lemma _chunk_json_item_refused (item : json) (source : string) (idx : Z)
      (doc_type : string) (clock : nat) :
  is_ok (_json_to_text str item doc_type) = false ->
  is_ok (_chunk_json_item str split_text utcnow item source idx doc_type clock) = false.
Proof.
  intros H. unfold _chunk_json_item.
  destruct (_json_to_text str item doc_type); [discriminate H|reflexivity].
Qed.

Lemma ingest_each_accepted (documents : list json) (document_type : string)
      (total : Z) (st : state) :
  Forall (fun doc => is_ok (_json_to_text str doc (document_type +:+ "s")) = true)
         documents ->
  fst (ingest_each str split_text utcnow true documents document_type total st)
  = Ok (total + Z.of_nat (sum_list_with (pieces_of str split_text (document_type +:+ "s")) documents)).
Proof.
  revert total st. induction documents as [|doc rest IH]; intros total st H.
  - simpl. f_equal. lia.
  - apply Forall_cons in H. destruct H as [Hd H].
    cbn [ingest_each]. unfold ingest_single_document. cbn [negb].
    destruct (_chunk_json_item_accepted doc "manual_entry" 0 (document_type +:+ "s")
                (clock st) Hd) as (chunks & -> & Hl).
    cbn [bind]. rewrite (IH _ _ H), Hl. cbn [sum_list_with]. f_equal. lia.
Qed.

Lemma ingest_each_refused (before : list json) (bad : json) (after : list json)
      (document_type : string) (total : Z) (st : state) :
  Forall (fun doc => is_ok (_json_to_text str doc (document_type +:+ "s")) = true)
         before ->
  is_ok (_json_to_text str bad (document_type +:+ "s")) = false ->
  is_ok (fst (ingest_each str split_text utcnow true (before ++ bad :: after)
                          document_type total st)) = false
  /\ snd (ingest_each str split_text utcnow true (before ++ bad :: after)
                      document_type total st)
     = snd (ingest_each str split_text utcnow true before document_type total st).
Proof.
  revert total st. induction before as [|doc rest IH]; intros total st H Hbad.
  - cbn [app ingest_each]. unfold ingest_single_document. cbn [negb].
    pose proof (_chunk_json_item_refused bad "manual_entry" 0 (document_type +:+ "s")
                  (clock st) Hbad) as Hr.
    destruct (_chunk_json_item _ _ _ _ _ _ _ _); [discriminate Hr|].
    split; reflexivity.
  - apply Forall_cons in H. destruct H as [Hd H].
    cbn [app ingest_each]. unfold ingest_single_document. cbn [negb].
    destruct (_chunk_json_item_accepted doc "manual_entry" 0 (document_type +:+ "s")
                (clock st) Hd) as (chunks & -> & Hl).
    cbn [bind]. apply IH; assumption.
Qed.

(** X29.  What the [/ingest] route does and reports.  With the index
    unavailable it reports success for every document and 0 chunks, and calls
    nothing.  Otherwise it first clears the namespace [document_type + "s"]
    when asked to overwrite, then upserts non-empty chunk lists into that
    namespace.  When every document can be turned into text it reports
    success, all documents, and as many chunks as the texts have pieces.  When
    a document cannot, it reports failure with 0 documents and 0 chunks, and
    what it has done is what a successful request for the documents before
    that one does: the namespace is cleared and their chunks are upserted. *)
Theorem ingest_route_report (documents : list json) (document_type : string)
        (overwrite : bool) (st : state) :
  let accepted doc :=
    is_ok (_json_to_text str doc (document_type +:+ "s")) = true in
  let run docs :=
    ingest_documents str split_text utcnow true docs document_type overwrite st in
  ingest_documents str split_text utcnow false documents document_type overwrite st
  = (mkIngestionResponse true (Z.of_nat (length documents)) 0, st)
  /\ (exists new,
        calls (snd (run documents))
        = calls st
            ++ (if overwrite then [DeleteNamespace (document_type +:+ "s")] else [])
            ++ new
        /\ Forall (upsert_into (document_type +:+ "s")) new
        /\ if success (fst (run documents))
           then documents_processed (fst (run documents)) = Z.of_nat (length documents)
                /\ chunks_created (fst (run documents)) = upserted new
           else documents_processed (fst (run documents)) = 0
                /\ chunks_created (fst (run documents)) = 0)
  /\ (Forall accepted documents ->
      fst (run documents)
      = mkIngestionResponse true (Z.of_nat (length documents))
          (Z.of_nat (sum_list_with (pieces_of str split_text (document_type +:+ "s"))
                                   documents)))
  /\ (forall before bad after,
         documents = before ++ bad :: after ->
         Forall accepted before ->
         is_ok (_json_to_text str bad (document_type +:+ "s")) = false ->
         fst (run documents) = mkIngestionResponse false 0 0
         /\ snd (run documents) = snd (run before)
         /\ fst (run before)
            = mkIngestionResponse true (Z.of_nat (length before))
                (Z.of_nat (sum_list_with
                             (pieces_of str split_text (document_type +:+ "s"))
                             before))).
Proof.
  cbv zeta.
  assert (Hall : forall docs,
             Forall (fun doc => is_ok (_json_to_text str doc (document_type +:+ "s"))
                                = true) docs ->
             fst (ingest_documents str split_text utcnow true docs document_type
                                   overwrite st)
             = mkIngestionResponse true (Z.of_nat (length docs))
                 (Z.of_nat (sum_list_with
                              (pieces_of str split_text (document_type +:+ "s")) docs))).
  { intros docs H. unfold ingest_documents.
    match goal with
    | |- context [ingest_each _ _ _ _ docs document_type 0 ?s0] =>
        pose proof (ingest_each_accepted docs document_type 0 s0 H) as He;
          destruct (ingest_each str split_text utcnow true docs document_type 0 s0)
          as [[n|e] st1]
    end; cbn [fst] in *; [|discriminate He].
    injection He as ->. reflexivity. }
  split; [|split; [|split]].
  - unfold ingest_documents, clear_namespace.
    destruct overwrite; rewrite ingest_each_unavailable; reflexivity.
  - unfold ingest_documents.
    set (st0 := if overwrite then clear_namespace true (document_type +:+ "s") st
                else st).
    assert (calls st0
            = calls st ++ (if overwrite then [DeleteNamespace (document_type +:+ "s")]
                           else [])) as H0.
    { subst st0. destruct overwrite; [reflexivity|]. rewrite app_nil_r. reflexivity. }
    destruct (ingest_each_calls documents document_type 0 st0)
      as (new & Hc & Hf & Hn).
    exists new.
    destruct (ingest_each str split_text utcnow true documents document_type 0 st0)
      as [[n|e] st1]; cbn [fst snd success documents_processed chunks_created] in *.
    + rewrite Hc, H0, <- app_assoc. split; [reflexivity|]. split; [exact Hf|].
      split; [reflexivity|lia].
    + rewrite Hc, H0, <- app_assoc. split; [reflexivity|]. split; [exact Hf|].
      split; reflexivity.
  - apply Hall.
  - intros before bad after -> Hbefore Hbad.
    split; [|split; [|apply Hall, Hbefore]].
    + unfold ingest_documents.
      match goal with
      | |- context [ingest_each _ _ _ _ _ document_type 0 ?s0] =>
          destruct (ingest_each_refused before bad after document_type 0 s0
                      Hbefore Hbad) as [Hr _];
            destruct (ingest_each str split_text utcnow true (before ++ bad :: after)
                                  document_type 0 s0) as [[n|e] st1]
      end; [discriminate Hr|reflexivity].
    + unfold ingest_documents.
      match goal with
      | |- context [ingest_each _ _ _ _ (before ++ bad :: after) document_type 0 ?s0] =>
          destruct (ingest_each_refused before bad after document_type 0 s0
                      Hbefore Hbad) as [Hr Hs];
            pose proof (ingest_each_accepted before document_type 0 s0 Hbefore) as Ha;
            destruct (ingest_each str split_text utcnow true (before ++ bad :: after)
                                  document_type 0 s0) as [[n|e] st1];
            [discriminate Hr|];
            destruct (ingest_each str split_text utcnow true before document_type 0 s0)
              as [[n2|e2] st2]; [|discriminate Ha]
      end.
      exact Hs.
Qed.

End ingest_route.

Lemma ingest_route_report_witness :
  fst (IngestionPipeline.ingest_documents simple_str one_chunk frozen_clock true
         [plain_item; Ingestion.JNull] "workout" true fresh_state)
  = IngestionPipeline.mkIngestionResponse false 0 0
  /\ upserted
       (IngestionPipeline.calls
          (snd (IngestionPipeline.ingest_documents simple_str one_chunk frozen_clock
                  true [plain_item; Ingestion.JNull] "workout" true fresh_state)))
     = 1.
Proof.
  destruct (ingest_route_report simple_str one_chunk frozen_clock
              [plain_item; Ingestion.JNull] "workout" true fresh_state)
    as (_ & _ & _ & H).
  destruct (H [plain_item] Ingestion.JNull [] eq_refl) as (Hf & Hs & _).
  - constructor; [reflexivity|constructor].
  - reflexivity.
  - split; [exact Hf|]. rewrite Hs. vm_compute. reflexivity.
Defined.
